(** * Policy evaluation engine (apps/policy_engine): a shallow embedding

    The development follows [apps/policy_engine/models.py] and
    [apps/policy_engine/utils.py].  Python values that travel through the
    engine (the evaluation context, condition operands) are JSON-decoded
    objects; they are embedded as the inductive type [Any].  Python
    exceptions are embedded by the error monad [result]; the database and
    the wall clock are threaded explicitly through a [World]. *)

From Stdlib Require Import ZArith List String Ascii Bool Lia.
From Stdlib Require Import SpecFloat DecimalString Permutation Sorted.
Import ListNotations.

Set Warnings "-register-all".

Local Open Scope string_scope.
Local Open Scope Z_scope.

(** ** Exceptions and the error monad *)

Module Py.

(** The exception classes that the engine's code can meet.  [re.error]
    derives directly from [Exception], [OverflowError] from
    [ArithmeticError], [RecursionError] from [RuntimeError] and
    [MemoryError] from [Exception].  None of the four is a [ValueError]
    or a [TypeError]. *)
Inductive exn : Type :=
| ValueError
| TypeError
| OverflowError
| ReError
| RecursionError
| MemoryError.

Inductive result (A : Type) : Type :=
| Ok (a : A)
| Raise (e : exn).
Arguments Ok {A} a.
Arguments Raise {A} e.

Definition bind {A B} (m : result A) (k : A -> result B) : result B :=
  match m with
  | Ok a => k a
  | Raise e => Raise e
  end.

Definition fmap {A B} (f : A -> B) (m : result A) : result B :=
  bind m (fun a => Ok (f a)).

(** [try: m except (ValueError, TypeError): return d] *)
Definition except_value_type {A} (m : result A) (d : A) : result A :=
  match m with
  | Raise ValueError => Ok d
  | Raise TypeError => Ok d
  | other => other
  end.

End Py.
Export Py.

Declare Scope py_scope.
Delimit Scope py_scope with py.
Notation "x <- m ;; k" := (bind m (fun x => k))
  (at level 100, m at next level, right associativity) : py_scope.
Local Open Scope py_scope.

(** ** Python strings *)

Module Str.

(** [s.startswith(p)] *)
Definition startswith (s p : string) : bool := String.prefix p s.

(** [s.endswith(p)] *)
Definition endswith (s p : string) : bool :=
  let n := String.length s in
  let k := String.length p in
  (k <=? n)%nat && String.eqb (substring (n - k) k s) p.

(** [s[:-k]] for a non-negative literal [k] *)
Definition drop_last (k : nat) (s : string) : string :=
  substring 0 (String.length s - k) s.

(** [c in s] for a one-character string [c] *)
Fixpoint has_char (c : ascii) (s : string) : bool :=
  match s with
  | EmptyString => false
  | String d s' => Ascii.eqb c d || has_char c s'
  end.

(** [s.replace(c, r)] for a one-character string [c] *)
Fixpoint replace (c : ascii) (r : string) (s : string) : string :=
  match s with
  | EmptyString => EmptyString
  | String d s' =>
      if Ascii.eqb c d then r ++ replace c r s' else String d (replace c r s')
  end.

(** [s.split(sep)] for a one-character separator: never returns the empty
    list, [""] splits to [[""]] *)
Fixpoint split (sep : ascii) (s : string) : list string :=
  match s with
  | EmptyString => [EmptyString]
  | String d s' =>
      if Ascii.eqb sep d then EmptyString :: split sep s'
      else match split sep s' with
           | h :: t => String d h :: t
           | [] => [String d EmptyString]
           end
  end.

(** [sub in s] on two strings *)
Fixpoint contains (s sub : string) : bool :=
  String.prefix sub s ||
  match s with
  | EmptyString => false
  | String _ s' => contains s' sub
  end.

End Str.

(** ** Python objects decoded from JSON *)

(** [Dict[str, Any]]: a Python dict keeps insertion order, so it is an
    association list; keys are unique in a dict that Python built. *)
Inductive Any : Type :=
| PyNone
| PyBool (b : bool)
| PyInt (z : Z)
| PyFloat (f : spec_float)
| PyStr (s : string)
| PyList (l : list Any)
| PyDict (d : list (string * Any)).

Abbreviation Dict := (list (string * Any)).

(** [d.get(key)]: [None] when the key is missing *)
Fixpoint dict_get {V : Type} (d : list (string * V)) (key : string) : option V :=
  match d with
  | [] => None
  | (k, v) :: d' => if String.eqb k key then Some v else dict_get d' key
  end.

Definition py_get (d : Dict) (key : string) : Any :=
  match dict_get d key with
  | Some v => v
  | None => PyNone
  end.

(** *** Numbers: [bool] is a subclass of [int]; [float] is binary64 *)

Inductive number : Type :=
| NInt (z : Z)
| NFloat (f : spec_float).

Definition as_number (v : Any) : option number :=
  match v with
  | PyBool b => Some (NInt (Z.b2z b))
  | PyInt z => Some (NInt z)
  | PyFloat f => Some (NFloat f)
  | _ => None
  end.

(** Python compares an int with a float by value, without rounding. *)
Definition int_float_compare (z : Z) (f : spec_float) : option comparison :=
  match f with
  | S754_zero _ => Some (z ?= 0)
  | S754_infinity s => Some (if s then Gt else Lt)
  | S754_nan => None
  | S754_finite s m e =>
      let sm := if s then Zneg m else Zpos m in
      Some (if 0 <=? e then z ?= sm * 2 ^ e else z * 2 ^ (- e) ?= sm)
  end.

Definition num_compare (a b : number) : option comparison :=
  match a, b with
  | NInt x, NInt y => Some (x ?= y)
  | NInt x, NFloat g => int_float_compare x g
  | NFloat f, NInt y => option_map CompOpp (int_float_compare y f)
  | NFloat f, NFloat g => SFcompare f g
  end.

Definition num_eqb (a b : number) : bool :=
  match num_compare a b with Some Eq => true | _ => false end.

Definition num_leb (a b : number) : bool :=
  match num_compare a b with Some (Lt | Eq) => true | _ => false end.

(** [float(n)] on an int rounds to nearest even and raises
    [OverflowError] when the result does not fit a double. *)
Definition float_of_int (z : Z) : result spec_float :=
  match binary_normalize 53 1024 z 0 false with
  | S754_infinity _ => Raise OverflowError
  | f => Ok f
  end.

(** *** [a == b] *)
Fixpoint py_eq (a b : Any) {struct a} : bool :=
  match a, b with
  | PyNone, PyNone => true
  | PyStr s, PyStr t => String.eqb s t
  | PyList l, PyList m =>
      (fix go (l m : list Any) {struct l} : bool :=
         match l, m with
         | [], [] => true
         | x :: l', y :: m' => py_eq x y && go l' m'
         | _, _ => false
         end) l m
  | PyDict d, PyDict e =>
      Nat.eqb (List.length d) (List.length e) &&
      (fix go (d : list (string * Any)) {struct d} : bool :=
         match d with
         | [] => true
         | (k, v) :: d' =>
             match dict_get e k with
             | Some w => py_eq v w
             | None => false
             end && go d'
         end) d
  | _, _ =>
      match as_number a, as_number b with
      | Some x, Some y => num_eqb x y
      | _, _ => false
      end
  end.

(** *** [a <= b]: [TypeError] between values that Python does not order *)
Fixpoint py_le (a b : Any) {struct a} : result bool :=
  match a, b with
  | PyStr s, PyStr t => Ok (String.leb s t)
  | PyList l, PyList m =>
      (fix go (l m : list Any) {struct l} : result bool :=
         match l, m with
         | [], _ => Ok true
         | _ :: _, [] => Ok false
         | x :: l', y :: m' => if py_eq x y then go l' m' else py_le x y
         end) l m
  | _, _ =>
      match as_number a, as_number b with
      | Some x, Some y => Ok (num_leb x y)
      | _, _ => Raise TypeError
      end
  end.

(** Induction on [Any] that reaches below lists and dicts. *)
Section AnyInduction.
Variable P : Any -> Prop.
Hypothesis Hnone : P PyNone.
Hypothesis Hbool : forall b, P (PyBool b).
Hypothesis Hint : forall z, P (PyInt z).
Hypothesis Hfloat : forall f, P (PyFloat f).
Hypothesis Hstr : forall s, P (PyStr s).
Hypothesis Hlist : forall l, Forall P l -> P (PyList l).
Hypothesis Hdict : forall d, Forall (fun kv => P (snd kv)) d -> P (PyDict d).

Fixpoint Any_nested_ind (a : Any) : P a :=
  match a with
  | PyNone => Hnone
  | PyBool b => Hbool b
  | PyInt z => Hint z
  | PyFloat f => Hfloat f
  | PyStr s => Hstr s
  | PyList l =>
      Hlist l
        ((fix all (l : list Any) : Forall P l :=
            match l with
            | [] => Forall_nil P
            | x :: l' => Forall_cons x (Any_nested_ind x) (all l')
            end) l)
  | PyDict d =>
      Hdict d
        ((fix all (d : list (string * Any)) : Forall (fun kv => P (snd kv)) d :=
            match d with
            | [] => Forall_nil _
            | kv :: d' =>
                Forall_cons kv (Any_nested_ind (snd kv)) (all d')
            end) d)
  end.
End AnyInduction.

(** *** [x in c] *)
Definition py_in (x c : Any) : result bool :=
  match c with
  | PyStr s =>
      match x with
      | PyStr t => Ok (Str.contains s t)
      | _ => Raise TypeError
      end
  | PyList l => Ok (existsb (fun y => py_eq y x) l)
  | PyDict d =>
      match x with
      | PyList _ | PyDict _ => Raise TypeError
      | PyStr k => Ok (existsb (fun kv => String.eqb (fst kv) k) d)
      | _ => Ok false
      end
  | _ => Raise TypeError
  end.

(** ** What the engine takes from the Python runtime

    - [re_match p s] is [re.match(p, s)] on two strings: whether a
      match object comes back, or the exception that the call raises
      ([re.error] for a pattern that is not a regular expression,
      [OverflowError] for a repetition count too large,
      [RecursionError] for a pattern nested too deep, ...);
    - [float_of_str s] is [float(s)] on a string: [None] for [ValueError];
    - [repr v] is [str(v)] on a value that is not a string;
    - [clock k] is the reading of the [k]-th call of [timezone.now()], in
      microseconds since the epoch. *)
Class Runtime : Type := {
  re_match : string -> string -> result bool;
  float_of_str : string -> option spec_float;
  repr : Any -> string;
  clock : nat -> Z
}.

Section Builtins.
Context {rt : Runtime}.

(** [float(v)] *)
Definition py_float (v : Any) : result spec_float :=
  match v with
  | PyFloat f => Ok f
  | PyInt z => float_of_int z
  | PyBool b => float_of_int (Z.b2z b)
  | PyStr s =>
      match float_of_str s with
      | Some f => Ok f
      | None => Raise ValueError
      end
  | _ => Raise TypeError
  end.

(** [str(v)] *)
Definition py_str (v : Any) : string :=
  match v with
  | PyStr s => s
  | _ => repr v
  end.

(** [re.match(p, s)] with an arbitrary first argument *)
Definition py_re_match (p : Any) (s : string) : result bool :=
  match p with
  | PyStr pat => re_match pat s
  | _ => Raise TypeError
  end.

End Builtins.

(** ** apps/policy_engine/models.py *)

(** Primary keys are UUIDs; a [DateTimeField] is a point in time, counted
    in microseconds since the epoch; an [IntegerField] is a Python int. *)
Definition UUID : Type := N.
Definition datetime : Type := Z.

Definition mem (x : UUID) (l : list UUID) : bool := existsb (N.eqb x) l.

Inductive PolicyEffect : Type := ALLOW | DENY | AUDIT | ESCALATE.

Definition effect_value (e : PolicyEffect) : string :=
  match e with
  | ALLOW => "ALLOW"
  | DENY => "DENY"
  | AUDIT => "AUDIT"
  | ESCALATE => "ESCALATE"
  end.

Definition effect_eqb (a b : PolicyEffect) : bool :=
  match a, b with
  | ALLOW, ALLOW | DENY, DENY | AUDIT, AUDIT | ESCALATE, ESCALATE => true
  | _, _ => false
  end.

Module PolicyCondition.
Record t : Type := {
  id : UUID;
  field : string;
  operator : string;
  value : Any
}.
End PolicyCondition.

(** [apps/agent_registry/models.py]: the agent row with the role ids of
    its [roles] many-to-many relation. *)
Module Agent.
Record t : Type := {
  id : UUID;
  name : string;
  roles : list UUID
}.
End Agent.

(** A [Policy] row together with the rows of its three many-to-many
    relations ([conditions], [roles], [agents]).  The bookkeeping columns
    [created_by], [created_at] and [updated_at] play no part in
    evaluation and are left out. *)
Module Policy.
Record t : Type := {
  id : UUID;
  name : string;
  description : string;
  resources : list string;
  effect : PolicyEffect;
  conditions : list PolicyCondition.t;
  roles : list UUID;
  agents : list UUID;
  priority : Z;
  valid_from : option datetime;
  valid_until : option datetime;
  max_calls : option Z;
  calls_made : Z;
  risk_level : Z;
  is_active : bool
}.

Definition with_calls_made (n : Z) (self : t) : t :=
  {| id := id self; name := name self; description := description self;
     resources := resources self; effect := effect self;
     conditions := conditions self; roles := roles self;
     agents := agents self; priority := priority self;
     valid_from := valid_from self; valid_until := valid_until self;
     max_calls := max_calls self; calls_made := n;
     risk_level := risk_level self; is_active := is_active self |}.

(** [self.valid_from and now < self.valid_from]: a datetime is always
    truthy, [None] is falsy. *)
Definition set_and_after (bound : option datetime) (now : datetime) : bool :=
  match bound with
  | Some t => now <? t
  | None => false
  end.

Definition set_and_before (bound : option datetime) (now : datetime) : bool :=
  match bound with
  | Some t => t <? now
  | None => false
  end.

(** [self.max_calls and self.calls_made >= self.max_calls]: [None] and
    the integer [0] are both falsy. *)
Definition quota_spent (self : t) : bool :=
  match max_calls self with
  | Some m => negb (m =? 0) && (m <=? calls_made self)
  | None => false
  end.

(** [is_valid_now], with [now] the reading that its body takes from
    [timezone.now()]. *)
Definition is_valid_now (self : t) (now : datetime) : bool :=
  if set_and_after (valid_from self) now then false
  else if set_and_before (valid_until self) now then false
  else if quota_spent self then false
  else true.

End Policy.

(** The auto-generated primary key of the row is left out. *)
Module PolicyAuditLog.
Record t : Type := {
  agent : UUID;
  policy : option UUID;
  resource : string;
  action : string;
  request_data : Dict;
  decision : PolicyEffect;
  reason : string;
  ip_address : option string;
  user_agent : string;
  execution_time_ms : Z;
  created_at : datetime
}.
End PolicyAuditLog.

(** ** The world outside the evaluator: the two tables and the clock *)

Record World : Type := {
  policy_table : list Policy.t;
  audit_table : list PolicyAuditLog.t;
  now_calls : nat
}.

Section Engine.
Context {rt : Runtime}.

(** [timezone.now()] *)
Definition timezone_now (w : World) : datetime * World :=
  (clock (now_calls w),
   {| policy_table := policy_table w; audit_table := audit_table w;
      now_calls := S (now_calls w) |}).

(** [PolicyAuditLog.objects.create(...)]: [created_at] is [auto_now_add],
    [ip_address] and [user_agent] take their defaults. *)
Definition audit_create (agent : UUID) (policy : option UUID)
    (resource action : string) (decision : PolicyEffect) (reason : string)
    (request_data : Dict) (execution_time_ms : Z) (w : World) : World :=
  let (created, w1) := timezone_now w in
  {| policy_table := policy_table w1;
     audit_table := audit_table w1 ++
       [ {| PolicyAuditLog.agent := agent;
            PolicyAuditLog.policy := policy;
            PolicyAuditLog.resource := resource;
            PolicyAuditLog.action := action;
            PolicyAuditLog.request_data := request_data;
            PolicyAuditLog.decision := decision;
            PolicyAuditLog.reason := reason;
            PolicyAuditLog.ip_address := None;
            PolicyAuditLog.user_agent := "";
            PolicyAuditLog.execution_time_ms := execution_time_ms;
            PolicyAuditLog.created_at := created |} ];
     now_calls := now_calls w1 |}.

(** The objects of one row are identified by primary key: an assignment
    to [calls_made] of the object with key [pk] shows in every element
    with that key. *)
Definition store_calls_made (pk : UUID) (n : Z) (rows : list Policy.t)
  : list Policy.t :=
  map (fun q => if N.eqb (Policy.id q) pk then Policy.with_calls_made n q else q)
      rows.

(** [self.save(update_fields=["calls_made"])] *)
Definition save_calls_made (self : Policy.t) (w : World) : World :=
  {| policy_table :=
       store_calls_made (Policy.id self) (Policy.calls_made self) (policy_table w);
     audit_table := audit_table w;
     now_calls := now_calls w |}.

End Engine.

(** ** apps/policy_engine/utils.py: [PolicyEvaluator] *)

Module PolicyEvaluator.

(** The evaluator object: its agent and the policy objects that
    [__init__] loaded. *)
Record t : Type := {
  agent : Agent.t;
  applicable_policies : list Policy.t
}.

(** What [evaluate] returns: [(decision, applying_policy, reason)]. *)
Definition Decision : Type := (PolicyEffect * option Policy.t * string)%type.

Section Methods.
Context {rt : Runtime}.

(** *** Resolution *)

(** [rel__isnull=False]: the join table has a row for the policy. *)
Definition any_row (related : list UUID) : bool :=
  match related with
  | [] => false
  | _ :: _ => true
  end.

(** [Q(is_active=True), Q(agents=self.agent) | Q(roles__in=role_ids)] *)
Definition targeted (a : Agent.t) (p : Policy.t) : bool :=
  Policy.is_active p &&
  (mem (Agent.id a) (Policy.agents p) ||
   existsb (fun r => mem r (Agent.roles a)) (Policy.roles p)).

(** [filter(is_active=True).exclude(agents__isnull=False)
      .exclude(roles__isnull=False)]: no row in either join table. *)
Definition global_policies (p : Policy.t) : bool :=
  Policy.is_active p &&
  negb (any_row (Policy.agents p)) &&
  negb (any_row (Policy.roles p)).

(** [order_by("-priority")]: rows of equal priority stay in table order. *)
Fixpoint insert_desc (p : Policy.t) (l : list Policy.t) : list Policy.t :=
  match l with
  | [] => [p]
  | q :: l' =>
      if Policy.priority q <=? Policy.priority p then p :: l
      else q :: insert_desc p l'
  end.

Fixpoint order_by_priority_desc (l : list Policy.t) : list Policy.t :=
  match l with
  | [] => []
  | p :: l' => insert_desc p (order_by_priority_desc l')
  end.

(** [(targeted | global_policies).distinct().order_by("-priority")] *)
Definition policies (a : Agent.t) (w : World) : list Policy.t :=
  order_by_priority_desc
    (filter (fun p => targeted a p || global_policies p) (policy_table w)).

(** [[p for p in policies if p.is_valid_now()]]: each call of
    [is_valid_now] reads the clock. *)
Fixpoint valid_now (ps : list Policy.t) (w : World) : list Policy.t * World :=
  match ps with
  | [] => ([], w)
  | p :: rest =>
      let (now, w1) := timezone_now w in
      let (kept, w2) := valid_now rest w1 in
      (if Policy.is_valid_now p now then p :: kept else kept, w2)
  end.

Definition _get_applicable_policies (a : Agent.t) (w : World)
  : list Policy.t * World :=
  valid_now (policies a w) w.

Definition __init__ (a : Agent.t) (w : World) : t * World :=
  let (ps, w') := _get_applicable_policies a w in
  ({| agent := a; applicable_policies := ps |}, w').

(** *** Matching helpers *)

(** One turn of the loop of [_resource_matches]: [Ok true] when the turn
    returns [True], [Ok false] when it falls through to the next one. *)
Definition pattern_matches (pattern requested_resource : string) : result bool :=
  if String.eqb pattern requested_resource then Ok true
  else if Str.endswith pattern ":*" &&
          Str.startswith requested_resource (Str.drop_last 2 pattern)
  then Ok true
  else if existsb (fun c => Str.has_char c pattern) ["*"; "?"; "["]%char then
    let regex_pattern :=
      Str.replace "?"%char "." (Str.replace "*"%char ".*" pattern) in
    py_re_match (PyStr ("^" ++ regex_pattern ++ "$")) requested_resource
  else Ok false.

Fixpoint _resource_matches (policy_resources : list string)
    (requested_resource : string) : result bool :=
  match policy_resources with
  | [] => Ok false
  | pattern :: rest =>
      m <- pattern_matches pattern requested_resource ;;
      if m then Ok true else _resource_matches rest requested_resource
  end.

(** The loop of [_get_nested_value] over the split path. *)
Fixpoint walk (keys : list string) (value : Any) : Any :=
  match keys with
  | [] => value
  | key :: rest =>
      match value with
      | PyDict d => walk rest (py_get d key)
      | _ => PyNone
      end
  end.

Definition _get_nested_value (data : Dict) (path : string) : Any :=
  walk (Str.split "."%char path) (PyDict data).

Definition _evaluate_operator (operator : string) (left right : Any)
  : result bool :=
  except_value_type
    (if (operator =? "eq")%string then Ok (py_eq left right)
     else if (operator =? "neq")%string then Ok (negb (py_eq left right))
     else if (operator =? "gt")%string then
       l <- py_float left ;; r <- py_float right ;; Ok (SFltb r l)
     else if (operator =? "lt")%string then
       l <- py_float left ;; r <- py_float right ;; Ok (SFltb l r)
     else if (operator =? "contains")%string then
       match left with
       | PyStr _ | PyList _ => py_in right left
       | _ => Ok false
       end
     else if (operator =? "not_contains")%string then
       match left with
       | PyStr _ | PyList _ => fmap negb (py_in right left)
       | _ => Ok true
       end
     else if (operator =? "in")%string then
       match right with
       | PyList _ => py_in left right
       | _ => Ok false
       end
     else if (operator =? "not_in")%string then
       match right with
       | PyList _ => fmap negb (py_in left right)
       | _ => Ok true
       end
     else if (operator =? "between")%string then
       match right with
       | PyList [low; high] =>
           a <- py_le low left ;; if a then py_le left high else Ok false
       | _ => Ok false
       end
     else if (operator =? "regex")%string then py_re_match right (py_str left)
     else Ok false)
    false.

(** One turn of the loop of [_evaluate_conditions]: [Ok false] when the
    turn returns [False], [Ok true] when it goes on to the next one. *)
Definition condition_holds (condition : PolicyCondition.t) (context : Dict)
  : result bool :=
  match _get_nested_value context (PolicyCondition.field condition) with
  | PyNone => Ok false
  | value =>
      _evaluate_operator (PolicyCondition.operator condition) value
                         (PolicyCondition.value condition)
  end.

Fixpoint all_conditions (conds : list PolicyCondition.t) (context : Dict)
  : result bool :=
  match conds with
  | [] => Ok true
  | condition :: rest =>
      h <- condition_holds condition context ;;
      if h then all_conditions rest context else Ok false
  end.

Definition _evaluate_conditions (policy : Policy.t) (context : Dict)
  : result bool :=
  match Policy.conditions policy with
  | [] => Ok true
  | conds => all_conditions conds context
  end.

(** *** The decision *)

Definition applied_reason (policy : Policy.t) : string :=
  "Policy '" ++ Policy.name policy ++ "' applied with effect "
  ++ effect_value (Policy.effect policy).

(** The [for policy in self.applicable_policies] loop of [evaluate], from
    the running [(decision, applying_policy, reason)]. *)
Fixpoint for_policies (ps : list Policy.t) (resource : string) (context : Dict)
    (running : Decision) : result Decision :=
  match ps with
  | [] => Ok running
  | policy :: rest =>
      m <- _resource_matches (Policy.resources policy) resource ;;
      if negb m then for_policies rest resource context running
      else
        c <- _evaluate_conditions policy context ;;
        if negb c then for_policies rest resource context running
        else
          let running' :=
            (Policy.effect policy, Some policy, applied_reason policy) in
          if effect_eqb (Policy.effect policy) DENY then Ok running'
          else for_policies rest resource context running'
  end.

(** [(end - start).microseconds]: the microseconds field of a normalised
    [timedelta], between 0 and 999999. *)
Definition timedelta_microseconds (start_time end_time : datetime) : Z :=
  (end_time - start_time) mod 1000000.

(** [int(us / 1000)] for [0 <= us < 10**6]: the float quotient is within
    one ulp of the rational one, so truncating it gives the integer
    quotient. *)
Definition elapsed_ms_of (start_time end_time : datetime) : Z :=
  timedelta_microseconds start_time end_time / 1000.

Definition _log_decision (self : t) (resource action : string)
    (decision : PolicyEffect) (reason : string) (execution_time_ms : Z)
    (policy : option Policy.t) (request_data : option Dict) (w : World)
  : World :=
  audit_create (Agent.id (agent self)) (option_map Policy.id policy)
    resource action decision reason
    (match request_data with Some d => d | None => [] end)
    execution_time_ms w.

(** [applying_policy.increment_calls()]: the object is updated in
    memory, then its [calls_made] is written to its row. *)
Definition increment_calls (policy : Policy.t) (self : t) (w : World)
  : Policy.t * t * World :=
  let policy' := Policy.with_calls_made (Policy.calls_made policy + 1) policy in
  (policy',
   {| agent := agent self;
      applicable_policies :=
        store_calls_made (Policy.id policy') (Policy.calls_made policy')
                         (applicable_policies self) |},
   save_calls_made policy' w).

(** [decision in (PolicyEffect.ALLOW, PolicyEffect.DENY)] *)
Definition consumes_quota (decision : PolicyEffect) : bool :=
  effect_eqb decision ALLOW || effect_eqb decision DENY.

(** [evaluate]: the outcome (a returned triple or an exception), the
    evaluator and the world after the call. *)
Definition evaluate (self : t) (resource action : string)
    (context : option Dict) (w : World) : result Decision * t * World :=
  let context := match context with Some c => c | None => [] end in
  let (start_time, w1) := timezone_now w in
  match for_policies (applicable_policies self) resource context
          (DENY, None, "No applicable policy found") with
  | Raise e => (Raise e, self, w1)
  | Ok (decision, applying_policy, reason) =>
      let (end_time, w2) := timezone_now w1 in
      let elapsed_ms := elapsed_ms_of start_time end_time in
      let w3 := _log_decision self resource action decision reason elapsed_ms
                  applying_policy (Some context) w2 in
      match applying_policy with
      | Some policy =>
          if consumes_quota decision then
            let '(policy', self', w4) := increment_calls policy self w3 in
            (Ok (decision, Some policy', reason), self', w4)
          else (Ok (decision, applying_policy, reason), self, w3)
      | None => (Ok (decision, applying_policy, reason), self, w3)
      end
  end.

End Methods.
End PolicyEvaluator.

(** ** A runtime for closed examples

    [Fragment] implements the runtime on a fragment of CPython's
    behaviour, described at each definition; inside the fragment it
    answers as CPython does.  The theorems of this development hold for
    every runtime; this one serves to run the engine on concrete inputs,
    all of which stay inside the fragment. *)

Module Fragment.

(** Regular expressions made of literal characters, [.], [^], [$] and a
    [*] after a literal or a dot. *)
Inductive atom : Type :=
| Lit (c : ascii)
| Dot
| Bol
| Eol.

Inductive parsed : Type :=
| Pattern (items : list (atom * bool))
| Error
| Unsupported.

Definition special (c : ascii) : bool :=
  existsb (Ascii.eqb c) ["\"; "+"; "?"; "{"; "}"; "("; ")"; "["; "]"; "|"]%char.

(** The parser of [re.compile]: a [*] with nothing before it, after an
    anchor or after another [*] raises [re.error] ("nothing to repeat",
    "multiple repeat"), and so does a [[] that no []] follows
    ("unterminated character set"). *)
Fixpoint parse (s : string) (seen : list (atom * bool)) : parsed :=
  match s with
  | EmptyString => Pattern (rev seen)
  | String c s' =>
      if Ascii.eqb c "*" then
        match seen with
        | (Lit d, false) :: seen' => parse s' ((Lit d, true) :: seen')
        | (Dot, false) :: seen' => parse s' ((Dot, true) :: seen')
        | _ => Error
        end
      else if Ascii.eqb c "." then parse s' ((Dot, false) :: seen)
      else if Ascii.eqb c "^" then parse s' ((Bol, false) :: seen)
      else if Ascii.eqb c "$" then parse s' ((Eol, false) :: seen)
      else if Ascii.eqb c "[" then
        if Str.has_char "]" s' then Unsupported else Error
      else if special c then Unsupported
      else parse s' ((Lit c, false) :: seen)
  end.

Definition newline : ascii := "010"%char.

(** [.] takes any character but a newline. *)
Definition takes (a : atom) (c : ascii) : bool :=
  match a with
  | Lit d => Ascii.eqb c d
  | Dot => negb (Ascii.eqb c newline)
  | Bol | Eol => false
  end.

(** [$] holds at the end of the string and before a final newline. *)
Definition at_end (s : string) : bool :=
  match s with
  | EmptyString => true
  | String c EmptyString => Ascii.eqb c newline
  | _ => false
  end.

(** Matching from the current position; [at_start] tells whether that is
    position 0.  The pattern has to match a prefix of the string only. *)
Fixpoint run (items : list (atom * bool)) : string -> bool -> bool :=
  match items with
  | [] => fun _ _ => true
  | (Bol, _) :: rest => fun s at_start => at_start && run rest s at_start
  | (Eol, _) :: rest => fun s at_start => at_end s && run rest s at_start
  | (a, true) :: rest =>
      fix star (s : string) (at_start : bool) {struct s} : bool :=
        run rest s at_start ||
        match s with
        | EmptyString => false
        | String c s' => takes a c && star s' false
        end
  | (a, false) :: rest =>
      fun s _ =>
        match s with
        | EmptyString => false
        | String c s' => takes a c && run rest s' false
        end
  end.

(** [re.match] on the fragment; a pattern outside it gets no match. *)
Definition fragment_re_match (p s : string) : result bool :=
  match parse p [] with
  | Pattern items => Ok (run items s true)
  | Error => Raise ReError
  | Unsupported => Ok false
  end.

(** [float] on the decimal integer literals ["12"], ["-3"]; other
    strings are refused. *)
Definition fragment_float_of_str (s : string) : option spec_float :=
  match s with
  | EmptyString => None
  | _ =>
      match NilZero.int_of_string s with
      | Some d =>
          match float_of_int (Z.of_int d) with
          | Ok f => Some f
          | Raise _ => Some (S754_infinity (Z.of_int d <? 0))
          end
      | None => None
      end
  end.

(** [str] on [None], booleans and integers. *)
Definition fragment_repr (v : Any) : string :=
  match v with
  | PyNone => "None"
  | PyBool true => "True"
  | PyBool false => "False"
  | PyInt z => NilZero.string_of_int (Z.to_int z)
  | _ => "<object>"
  end.

(** A clock whose consecutive readings are [step] microseconds apart. *)
Definition runtime (step : Z) : Runtime :=
  {| re_match := fragment_re_match;
     float_of_str := fragment_float_of_str;
     repr := fragment_repr;
     clock := fun k => Z.of_nat k * step |}.

End Fragment.

(** ** The decision as the specification words it

    Iterate the resolved policies in order, starting from [DENY] with
    reason "No applicable policy found"; a policy whose resource patterns
    match and whose conditions all hold overwrites the running triple;
    iteration stops at the first applying policy whose effect is [DENY]. *)

Module Spec.
Section Fold.
Context {rt : Runtime}.

Definition applies (policy : Policy.t) (resource : string) (context : Dict)
  : result bool :=
  m <- PolicyEvaluator._resource_matches (Policy.resources policy) resource ;;
  if m then PolicyEvaluator._evaluate_conditions policy context else Ok false.

Definition initial : PolicyEvaluator.Decision :=
  (DENY, None, "No applicable policy found").

Definition own (policy : Policy.t) : PolicyEvaluator.Decision :=
  (Policy.effect policy, Some policy, PolicyEvaluator.applied_reason policy).

(** The running triple, and whether iteration has stopped. *)
Definition step (resource : string) (context : Dict)
    (state : result (PolicyEvaluator.Decision * bool)) (policy : Policy.t)
  : result (PolicyEvaluator.Decision * bool) :=
  st <- state ;;
  if snd st then Ok st
  else
    a <- applies policy resource context ;;
    if a then Ok (own policy, effect_eqb (Policy.effect policy) DENY)
    else Ok st.

Definition decide (ps : list Policy.t) (resource : string) (context : Dict)
  : result PolicyEvaluator.Decision :=
  fmap fst (fold_left (step resource context) ps (Ok (initial, false))).

(** The matched policy is handed back as the object stands after the
    quota update of the call. *)
Definition handed_back (d : PolicyEvaluator.Decision) : PolicyEvaluator.Decision :=
  match d with
  | (decision, Some policy, reason) =>
      if PolicyEvaluator.consumes_quota decision
      then (decision,
            Some (Policy.with_calls_made (Policy.calls_made policy + 1) policy),
            reason)
      else d
  | _ => d
  end.

End Fold.

(** [p] may come before [q] in the resolved list: its priority is not
    lower. *)
Definition before (p q : Policy.t) : Prop :=
  Policy.priority q <= Policy.priority p.

(** The policy objects of the evaluator belong to distinct rows. *)
Fixpoint distinct_rows (ps : list Policy.t) : bool :=
  match ps with
  | [] => true
  | p :: rest =>
      negb (mem (Policy.id p) (map Policy.id rest)) && distinct_rows rest
  end.

(** The rows of the policy table still hold the counters that the
    evaluator's objects hold: nobody else has written them since the
    evaluator loaded or last saved them. *)
Definition counters_in_step (self : PolicyEvaluator.t) (w : World) : bool :=
  forallb
    (fun q =>
       forallb
         (fun row =>
            implb (N.eqb (Policy.id row) (Policy.id q))
                  (Policy.calls_made row =? Policy.calls_made q))
         (policy_table w))
    (PolicyEvaluator.applicable_policies self).

(** Whether a call that returned [(decision, matched, reason)] consumed
    quota of the policy [q]: some policy applied, the decision is ALLOW
    or DENY, and [q] is the matched policy. *)
Definition quota_consumed (decision : PolicyEffect) (matched : option Policy.t)
    (q : Policy.t) : bool :=
  match matched, decision with
  | Some m, (ALLOW | DENY) => N.eqb (Policy.id q) (Policy.id m)
  | _, _ => false
  end.

(** [q'] is [q] with its counter one higher if the call consumed quota
    of [q], and [q] itself otherwise. *)
Definition counter_after (decision : PolicyEffect) (matched : option Policy.t)
    (q q' : Policy.t) : Prop :=
  q' = Policy.with_calls_made
         (Policy.calls_made q +
          (if quota_consumed decision matched q then 1 else 0)) q.

End Spec.

(** ** Concrete agents, policies and worlds *)

Module Examples.

Definition worker : Agent.t :=
  {| Agent.id := 1%N; Agent.name := "worker"; Agent.roles := [] |}.

(** An active policy with no agents and no roles assigned, valid at all
    times. *)
Definition global_policy (pk : UUID) (name : string) (resources : list string)
    (effect : PolicyEffect) (conditions : list PolicyCondition.t)
    (priority : Z) (max_calls : option Z) (calls_made : Z) : Policy.t :=
  {| Policy.id := pk; Policy.name := name; Policy.description := "";
     Policy.resources := resources; Policy.effect := effect;
     Policy.conditions := conditions; Policy.roles := []; Policy.agents := [];
     Policy.priority := priority; Policy.valid_from := None;
     Policy.valid_until := None; Policy.max_calls := max_calls;
     Policy.calls_made := calls_made; Policy.risk_level := 0;
     Policy.is_active := true |}.

Definition world (rows : list Policy.t) : World :=
  {| policy_table := rows; audit_table := []; now_calls := 0 |}.

Definition allow_execute (priority : Z) : Policy.t :=
  global_policy 10%N "allow-execute" ["agent:execute"] ALLOW [] priority None 0.

Definition deny_execute (priority : Z) : Policy.t :=
  global_policy 11%N "deny-execute" ["agent:execute"] DENY [] priority None 0.

(** A policy whose quota is the integer 0, already used three times. *)
Definition zero_quota : Policy.t :=
  global_policy 12%N "never" ["agent:execute"] ALLOW [] 0 (Some 0) 3.

(** A condition whose operand is not a regular expression. *)
Definition bad_regex : PolicyCondition.t :=
  {| PolicyCondition.id := 20%N; PolicyCondition.field := "task_preview";
     PolicyCondition.operator := "regex"; PolicyCondition.value := PyStr "*" |}.

Definition allow_on_bad_regex : Policy.t :=
  global_policy 13%N "allow-matching" ["agent:execute"] ALLOW [bad_regex] 0 None 0.

(** A policy whose resource list holds a malformed glob. *)
Definition allow_bad_glob : Policy.t :=
  global_policy 14%N "allow-tools" ["tool:["] ALLOW [] 0 None 0.

(** A policy assigned to [worker] by name. *)
Definition scoped_to_worker : Policy.t :=
  {| Policy.id := 16%N; Policy.name := "worker-only"; Policy.description := "";
     Policy.resources := ["data:read"]; Policy.effect := ALLOW;
     Policy.conditions := []; Policy.roles := []; Policy.agents := [1%N];
     Policy.priority := 3; Policy.valid_from := None;
     Policy.valid_until := None; Policy.max_calls := None;
     Policy.calls_made := 0; Policy.risk_level := 0;
     Policy.is_active := true |}.

(** A condition that compares the field [owner] with null. *)
Definition owner_is_null : PolicyCondition.t :=
  {| PolicyCondition.id := 21%N; PolicyCondition.field := "owner";
     PolicyCondition.operator := "eq"; PolicyCondition.value := PyNone |}.

Definition audit_execute : Policy.t :=
  global_policy 15%N "audit-execute" ["agent:execute"] AUDIT [] 0 None 0.

(** The fragment runtime with a clock that advances by one microsecond,
    and by one and a half seconds, between two readings. *)
Definition quick : Runtime := Fragment.runtime 1.
Definition slow : Runtime := Fragment.runtime 1500000.

(** A fresh evaluator for [worker] over the given policy rows, and one
    call of [evaluate] on it. *)
Definition started (rt : Runtime) (rows : list Policy.t) : PolicyEvaluator.t * World :=
  @PolicyEvaluator.__init__ rt worker (world rows).

Definition call (rt : Runtime) (rows : list Policy.t) (resource action : string)
    (context : option Dict) : result PolicyEvaluator.Decision * PolicyEvaluator.t * World :=
  @PolicyEvaluator.evaluate rt (fst (started rt rows)) resource action context
    (snd (started rt rows)).

End Examples.

(** ** What a decision depends on *)

Module Rule.



(** Everything in a policy but its counter. *)
Definition but_counter (p : Policy.t) : Policy.t := Policy.with_calls_made 0 p.

End Rule.

(** ** More concrete policies *)

Module Scenario.

(** A policy that is switched off. *)
Definition retired : Policy.t :=
  {| Policy.id := 30%N; Policy.name := "retired"; Policy.description := "";
     Policy.resources := ["agent:execute"]; Policy.effect := ALLOW;
     Policy.conditions := []; Policy.roles := []; Policy.agents := [];
     Policy.priority := 50; Policy.valid_from := None;
     Policy.valid_until := None; Policy.max_calls := None;
     Policy.calls_made := 0; Policy.risk_level := 0;
     Policy.is_active := false |}.

(** A policy with two conditions: the first compares a field that the
    context below holds as null, the second has an invalid regex. *)
Definition guarded : Policy.t :=
  Examples.global_policy 31%N "guarded" ["agent:execute"] ALLOW
    [Examples.owner_is_null; Examples.bad_regex] 0 None 0.

(** The rule of [Examples.allow_execute] under another key, with another
    priority, an exhausted quota, and switched off. *)
Definition allow_execute_spent : Policy.t :=
  {| Policy.id := 32%N; Policy.name := "allow-execute"; Policy.description := "";
     Policy.resources := ["agent:execute"]; Policy.effect := ALLOW;
     Policy.conditions := []; Policy.roles := [7%N]; Policy.agents := [];
     Policy.priority := 99; Policy.valid_from := Some 10;
     Policy.valid_until := Some 5; Policy.max_calls := Some 2;
     Policy.calls_made := 8; Policy.risk_level := 0;
     Policy.is_active := false |}.

(** An evaluator that holds the given policy objects. *)
Definition holding (ps : list Policy.t) : PolicyEvaluator.t :=
  {| PolicyEvaluator.agent := Examples.worker;
     PolicyEvaluator.applicable_policies := ps |}.

End Scenario.

(** ** Patterns without wildcards, and nested contexts *)

Module Plain.

(** [any(c in pattern for c in ("*", "?", "["))] is false. *)
Definition wildcard_free (pattern : string) : bool :=
  negb (existsb (fun c => Str.has_char c pattern) ["*"; "?"; "["]%char).

(** The context of a web request as [enforce_policy] builds it. *)
Definition nested : Dict :=
  [("request", PyDict [("method", PyStr "GET"); ("path", PyStr "/tools/")]);
   ("view", PyStr "list_tools")].

(** A policy whose quota allows one more call. *)
Definition one_call_left : Policy.t :=
  Examples.global_policy 40%N "metered" ["agent:execute"] ALLOW [] 0 (Some 3) 2.

End Plain.

(** ** apps/policy_engine/utils.py: the [enforce_policy] decorator *)

Module Web.

(** What [request.auth] or [request.user] holds: an [Agent], or an
    object of any other class (a Django user, a token, [None]). *)
Inductive principal : Type :=
| IsAgent (a : Agent.t)
| NotAgent.

(** The request as the wrapper reads it.  [auth] and [user] are absent
    when the request has no such attribute; [GET] is what
    [request.GET.items()] yields, one pair per key. *)
Record HttpRequest : Type := {
  auth : option principal;
  user : option principal;
  method : string;
  path : string;
  GET : list (string * string)
}.

(** [s.lower()] on the ASCII letters, the alphabet of HTTP methods. *)
Definition lower_char (c : ascii) : ascii :=
  let n := nat_of_ascii c in
  if ((65 <=? n) && (n <=? 90))%nat then ascii_of_nat (n + 32) else c.

Fixpoint lower (s : string) : string :=
  match s with
  | EmptyString => EmptyString
  | String c s' => String (lower_char c) (lower s')
  end.

(** [given or fallback] on an optional string: [None] and [""] are
    falsy. *)
Definition or_else (given : option string) (fallback : string) : string :=
  match given with
  | Some EmptyString | None => fallback
  | Some s => s
  end.

(** [hasattr(request, "auth") and isinstance(request.auth, Agent)], then
    the same test on [request.user]. *)
Definition agent_of (request : HttpRequest) : option Agent.t :=
  match auth request with
  | Some (IsAgent a) => Some a
  | _ =>
      match user request with
      | Some (IsAgent a) => Some a
      | _ => None
      end
  end.

(** The context that the wrapper hands to [evaluate]. *)
Definition request_context (view_name : string) (request : HttpRequest) : Dict :=
  [("request",
    PyDict [("method", PyStr (method request));
            ("path", PyStr (path request));
            ("query_params",
             PyDict (map (fun kv => (fst kv, PyStr (snd kv))) (GET request)))]);
   ("view", PyStr view_name)].

(** How a wrapped call ends: with the view's own result, with
    [PermissionDenied(detail)], or with an exception out of
    [evaluate]. *)
Inductive outcome (R : Type) : Type :=
| Returned (r : R)
| PermissionDenied (detail : string)
| Raised (e : exn).
Arguments Returned {R} r.
Arguments PermissionDenied {R} detail.
Arguments Raised {R} e.

Section Decorator.
Context {rt : Runtime}.
Context {R : Type}.

(** [enforce_policy(resource, action)(view_func)(request)]; the view
    function is given with its [__name__]. *)
Definition enforce_policy (resource action : option string)
    (view_name : string) (view_func : HttpRequest -> World -> R * World)
    (request : HttpRequest) (w : World) : outcome R * World :=
  match agent_of request with
  | None =>
      let (r, w') := view_func request w in (Returned r, w')
  | Some agent =>
      let (evaluator, w1) := PolicyEvaluator.__init__ agent w in
      let '(out, _, w2) :=
        PolicyEvaluator.evaluate evaluator
          (or_else resource (path request))
          (or_else action (lower (method request)))
          (Some (request_context view_name request)) w1 in
      match out with
      | Raise e => (Raised e, w2)
      | Ok (decision, policy, reason) =>
          if effect_eqb decision DENY
          then (PermissionDenied ("Policy denied: " ++ reason), w2)
          else let (r, w3) := view_func request w2 in (Returned r, w3)
      end
  end.

End Decorator.
End Web.

(** ** apps/agent_intelligence/views.py: [_check_policy] *)

Module Intelligence.
Section Helpers.
Context {rt : Runtime}.

(** Run the policy evaluator; return [(decision, reason)]. *)
Definition _check_policy (agent : Agent.t) (action : string)
    (context : option Dict) (w : World)
  : result (PolicyEffect * string) * World :=
  let (evaluator, w1) := PolicyEvaluator.__init__ agent w in
  let '(out, _, w2) :=
    PolicyEvaluator.evaluate evaluator "agent:execute" action
      (Some (match context with Some c => c | None => [] end)) w1 in
  (fmap (fun d => (fst (fst d), snd d)) out, w2).

End Helpers.
End Intelligence.

(** ** The site: the engine's world, the agent table, and [uuid.uuid4] *)

(** [uuid4 k] is the value of the [k]-th call of [uuid.uuid4()]. *)
Class Entropy : Type := { uuid4 : nat -> UUID }.

(** An [Agent] row with its owner, a foreign key to the user table. *)
Module AgentRow.
Record t : Type := {
  agent : Agent.t;
  owner : UUID
}.
End AgentRow.

Record Site : Type := {
  world : World;
  agent_table : list AgentRow.t;
  uuid_calls : nat
}.

Definition with_world (w : World) (s : Site) : Site :=
  {| world := w; agent_table := agent_table s; uuid_calls := uuid_calls s |}.

(** ** apps/policy_engine/management/commands/default_policies.py *)

Module DefaultPolicies.

(** One entry of [DEFAULT_POLICIES]. *)
Record policy_data : Type := {
  name : string;
  description : string;
  resources : list string;
  effect : PolicyEffect;
  priority : Z;
  risk_level : Z;
  is_active : bool
}.

Definition DEFAULT_POLICIES : list policy_data :=
  [ {| name := "Global Allow - Agent Execution";
       description :=
         "Default policy: allow any authenticated agent to call the execute "
         ++ "and chat endpoints. Assign more specific DENY policies with higher "
         ++ "priority to restrict individual agents or roles.";
       resources := ["agent:execute"];
       effect := ALLOW; priority := 0; risk_level := 0; is_active := true |};
    {| name := "Global Allow - Tool Access";
       description := "Default policy: allow any authenticated agent to call tools.";
       resources := ["tool:*"];
       effect := ALLOW; priority := 0; risk_level := 0; is_active := true |};
    {| name := "Global Allow - Workflow Execution";
       description := "Default policy: allow workflow execution for all agents.";
       resources := ["workflow:execute"; "workflow:create"];
       effect := ALLOW; priority := 0; risk_level := 0; is_active := true |} ].

Section Command.
Context {en : Entropy}.

(** [Policy.objects.get(name=...)]: [name] is unique, so at most one row
    answers. *)
Definition get_by_name (wanted : string) (rows : list Policy.t) : option Policy.t :=
  find (fun p => String.eqb (Policy.name p) wanted) rows.

(** The [Policy] built from the defaults: the fields not given take the
    model's defaults, the many-to-many relations start empty, and the
    key is drawn from [uuid.uuid4]. *)
Definition new_policy (pk : UUID) (data : policy_data) : Policy.t :=
  {| Policy.id := pk; Policy.name := name data;
     Policy.description := description data;
     Policy.resources := resources data; Policy.effect := effect data;
     Policy.conditions := []; Policy.roles := []; Policy.agents := [];
     Policy.priority := priority data; Policy.valid_from := None;
     Policy.valid_until := None; Policy.max_calls := None;
     Policy.calls_made := 0; Policy.risk_level := risk_level data;
     Policy.is_active := is_active data |}.

(** [Policy.objects.get_or_create(name=data["name"], defaults=data)]:
    the row found or created, and whether it was created. *)
Definition get_or_create (data : policy_data) (s : Site) : Policy.t * bool * Site :=
  match get_by_name (name data) (policy_table (world s)) with
  | Some p => (p, false, s)
  | None =>
      let p := new_policy (uuid4 (uuid_calls s)) data in
      (p, true,
       {| world :=
            {| policy_table := (policy_table (world s) ++ [p])%list;
               audit_table := audit_table (world s);
               now_calls := now_calls (world s) |};
          agent_table := agent_table s;
          uuid_calls := S (uuid_calls s) |})
  end.

(** The lines that [handle] writes to [stdout], without their colour
    codes. *)
Definition created_line (n : string) : string := "  ✅ Created: " ++ n.

Definition exists_line (n : string) : string := "  ⏭  Already exists: " ++ n.

Definition done_line (created_count : nat) : string :=
  String "010" "Done. "
  ++ NilZero.string_of_uint (Nat.to_uint created_count)
  ++ " new polic"
  ++ (if Nat.eqb created_count 1 then "y" else "ies")
  ++ " created.".

Definition production_line : string :=
  "Skipping permissive default policies in production."
  ++ String "010" "Create explicit ALLOW policies for each agent/role instead.".

(** The loop of [handle]: the number of rows created, the lines
    written, and the site. *)
Fixpoint seed (todo : list policy_data) (created_count : nat)
    (out : list string) (s : Site) : nat * list string * Site :=
  match todo with
  | [] => (created_count, out, s)
  | data :: rest =>
      let '(_, created, s') := get_or_create data s in
      if created
      then seed rest (S created_count) (List.app out [created_line (name data)]) s'
      else seed rest created_count (List.app out [exists_line (name data)]) s'
  end.

(** [handle(env=...)]: what is written to [stdout], and the site. *)
Definition handle (env : string) (s : Site) : list string * Site :=
  if String.eqb env "production" then ([production_line], s)
  else
    let '(created_count, out, s') := seed DEFAULT_POLICIES 0 [] s in
    (List.app out [done_line created_count], s').

End Command.
End DefaultPolicies.

(** ** apps/policy_engine/views.py *)

(** The views are modelled from the point where the framework has done
    its part: the request is authenticated, its body has passed the
    serializer where there is one, and no filter parameter narrows the
    queryset of [get_object].  A key drawn from [uuid.uuid4] is taken
    not to be in use, and column widths are not enforced. *)
Module Views.

(** [Policy.objects.get(pk=...)] *)
Definition policy_by_pk (pk : UUID) (rows : list Policy.t) : option Policy.t :=
  find (fun p => N.eqb (Policy.id p) pk) rows.

(** [PolicyEvaluateSerializer.validated_data], for a body whose
    [context] is an object or left out.  The serializer admits for
    [resource] the values of [PolicyResource] only; the record takes
    any string. *)
Record evaluate_data : Type := {
  agent_id : UUID;
  resource : string;
  action : string;
  context : Dict
}.

(** The ways [PolicyViewSet.evaluate] ends: [Http404] out of
    [get_object], the 404 response for an unknown agent, the 200
    response, or an exception out of the evaluator. *)
Inductive evaluate_response : Type :=
| PolicyNotFound
| AgentNotFound
| Evaluated (policy_id : UUID) (policy_name : string)
            (decision : PolicyEffect) (reason : string)
| EvaluateFailed (e : exn).

(** The ways [PolicyViewSet.duplicate] ends: [Http404], the 201
    response with the new policy, or the [IntegrityError] of the unique
    [name] column. *)
Inductive duplicate_response : Type :=
| OriginalNotFound
| Created (new_policy : Policy.t)
| IntegrityError.

(** The body of a request to [PolicyCheckView], for a body whose
    [agent_id] is a key, whose [resource] and [action] are strings and
    whose [context] is an object, null or left out; [check_context] is
    [None] in the last two cases. *)
Record check_data : Type := {
  check_agent_id : UUID;
  check_resource : string;
  check_action : string;
  check_context : option Dict
}.

Inductive check_response : Type :=
| CheckAgentNotFound
| Checked (agent_id : UUID) (resource action : string)
          (decision : PolicyEffect) (policy_id : option UUID)
          (policy_name : option string) (reason : string)
          (timestamp : datetime)
| CheckFailed (e : exn).

Section PolicyViews.
Context {rt : Runtime}.
Context {en : Entropy}.

(** [PolicyViewSet.evaluate(request, pk)]: test one policy against a
    sample request. *)
Definition evaluate (pk : UUID) (data : evaluate_data) (s : Site)
  : evaluate_response * Site :=
  match policy_by_pk pk (policy_table (world s)) with
  | None => (PolicyNotFound, s)
  | Some policy =>
      match find (fun row => N.eqb (Agent.id (AgentRow.agent row)) (agent_id data))
                 (agent_table s) with
      | None => (AgentNotFound, s)
      | Some row =>
          let (evaluator, w1) :=
            PolicyEvaluator.__init__ (AgentRow.agent row) (world s) in
          let evaluator :=
            {| PolicyEvaluator.agent := PolicyEvaluator.agent evaluator;
               PolicyEvaluator.applicable_policies := [policy] |} in
          let '(out, _, w2) :=
            PolicyEvaluator.evaluate evaluator (resource data) (action data)
              (Some (context data)) w1 in
          match out with
          | Raise e => (EvaluateFailed e, with_world w2 s)
          | Ok (decision, _, reason) =>
              (Evaluated (Policy.id policy) (Policy.name policy) decision reason,
               with_world w2 s)
          end
      end
  end.

(** The copy that [duplicate] saves: the columns of the original under
    a new key and name, the counter at 0, the conditions of the
    original, and no roles or agents. *)
Definition copy_of (pk : UUID) (original : Policy.t) : Policy.t :=
  {| Policy.id := pk;
     Policy.name := Policy.name original ++ " (Copy)";
     Policy.description := Policy.description original;
     Policy.resources := Policy.resources original;
     Policy.effect := Policy.effect original;
     Policy.conditions := Policy.conditions original;
     Policy.roles := []; Policy.agents := [];
     Policy.priority := Policy.priority original;
     Policy.valid_from := Policy.valid_from original;
     Policy.valid_until := Policy.valid_until original;
     Policy.max_calls := Policy.max_calls original;
     Policy.calls_made := 0;
     Policy.risk_level := Policy.risk_level original;
     Policy.is_active := Policy.is_active original |}.

(** [PolicyViewSet.duplicate(request, pk)] *)
Definition duplicate (pk : UUID) (s : Site) : duplicate_response * Site :=
  match policy_by_pk pk (policy_table (world s)) with
  | None => (OriginalNotFound, s)
  | Some original =>
      let new_policy := copy_of (uuid4 (uuid_calls s)) original in
      if existsb (fun p => String.eqb (Policy.name p) (Policy.name new_policy))
                 (policy_table (world s))
      then (IntegrityError,
            {| world := world s; agent_table := agent_table s;
               uuid_calls := S (uuid_calls s) |})
      else (Created new_policy,
            {| world :=
                 {| policy_table := List.app (policy_table (world s)) [new_policy];
                    audit_table := audit_table (world s);
                    now_calls := now_calls (world s) |};
               agent_table := agent_table s;
               uuid_calls := S (uuid_calls s) |})
  end.

(** [PolicyCheckView.post(request)], for the authenticated user
    [request_user]. *)
Definition post (request_user : UUID) (data : check_data) (s : Site)
  : check_response * Site :=
  match find (fun row =>
                N.eqb (Agent.id (AgentRow.agent row)) (check_agent_id data) &&
                N.eqb (AgentRow.owner row) request_user)
             (agent_table s) with
  | None => (CheckAgentNotFound, s)
  | Some row =>
      let (evaluator, w1) :=
        PolicyEvaluator.__init__ (AgentRow.agent row) (world s) in
      let '(out, _, w2) :=
        PolicyEvaluator.evaluate evaluator (check_resource data)
          (check_action data)
          (Some (match check_context data with Some c => c | None => [] end))
          w1 in
      match out with
      | Raise e => (CheckFailed e, with_world w2 s)
      | Ok (decision, policy, reason) =>
          let (now, w3) := timezone_now w2 in
          (Checked (Agent.id (AgentRow.agent row)) (check_resource data)
             (check_action data) decision
             (option_map Policy.id policy) (option_map Policy.name policy)
             reason now,
           with_world w3 s)
      end
  end.

End PolicyViews.
End Views.

(** ** A site for closed examples *)

Module Installed.

(** Keys 100, 101, 102, ... *)
Definition counting : Entropy := {| uuid4 := fun k => N.of_nat (100 + k) |}.

Definition empty_site : Site :=
  {| world := Examples.world [];
     agent_table := [ {| AgentRow.agent := Examples.worker; AgentRow.owner := 7%N |} ];
     uuid_calls := 0 |}.

(** A site whose policy table holds the given rows. *)
Definition site_with (rows : list Policy.t) : Site :=
  {| world := Examples.world rows;
     agent_table := [ {| AgentRow.agent := Examples.worker; AgentRow.owner := 7%N |} ];
     uuid_calls := 0 |}.

(** A view that answers with the number of audit entries it sees. *)
Definition counting_view (request : Web.HttpRequest) (w : World) : nat * World :=
  (List.length (audit_table w), w).

Definition agent_request : Web.HttpRequest :=
  {| Web.auth := Some (Web.IsAgent Examples.worker);
     Web.user := Some Web.NotAgent;
     Web.method := "POST"; Web.path := "/api/tools/crm/";
     Web.GET := [("page", "2")] |}.

(** A policy on the path of [agent_request] that asks for approval. *)
Definition escalate_crm : Policy.t :=
  Examples.global_policy 50%N "escalate-crm" ["/api/tools/crm/"] ESCALATE [] 0 None 0.

Definition deny_crm : Policy.t :=
  Examples.global_policy 51%N "deny-crm" ["/api/tools/crm/"] DENY [] 0 None 0.

(** A request that carries a Django user and no agent. *)
Definition user_request : Web.HttpRequest :=
  {| Web.auth := None;
     Web.user := Some Web.NotAgent;
     Web.method := "GET"; Web.path := "/api/tools/crm/";
     Web.GET := [] |}.

(** A sample request of the worker for the policy test view. *)
Definition execute_sample : Views.evaluate_data :=
  {| Views.agent_id := 1%N; Views.resource := "agent:execute";
     Views.action := "run"; Views.context := [] |}.

(** An active policy assigned to the agent with key 9 alone. *)
Definition admin_only : Policy.t :=
  {| Policy.id := 52%N; Policy.name := "admin-only"; Policy.description := "";
     Policy.resources := ["data:*"]; Policy.effect := ALLOW;
     Policy.conditions := []; Policy.roles := []; Policy.agents := [9%N];
     Policy.priority := 5; Policy.valid_from := None;
     Policy.valid_until := None; Policy.max_calls := None;
     Policy.calls_made := 4; Policy.risk_level := 0;
     Policy.is_active := true |}.

(** A check of the worker, whose owner is the user with key 7. *)
Definition check_sample : Views.check_data :=
  {| Views.check_agent_id := 1%N; Views.check_resource := "agent:execute";
     Views.check_action := "run"; Views.check_context := None |}.

End Installed.

(** ** Two requests in flight *)

Module Interleaved.
Section TwoRequests.
Context {rt : Runtime}.

(** Two evaluators for one agent, both constructed before either is
    called, as two requests in flight construct them; then [evaluate] on
    the first and on the second.  The outcome of each call, and the
    world after it. *)
Definition two_calls (a : Agent.t) (resource action : string)
    (context : option Dict) (w : World)
  : (result PolicyEvaluator.Decision * World) *
    (result PolicyEvaluator.Decision * World) :=
  let (first, w1) := PolicyEvaluator.__init__ a w in
  let (second, w2) := PolicyEvaluator.__init__ a w1 in
  let '(out1, _, w3) :=
    PolicyEvaluator.evaluate first resource action context w2 in
  let '(out2, _, w4) :=
    PolicyEvaluator.evaluate second resource action context w3 in
  ((out1, w3), (out2, w4)).

End TwoRequests.
End Interleaved.

(** * Properties *)

Section DecisionFacts.
Context {rt : Runtime}.
Import PolicyEvaluator.

Lemma fold_step_raise resource context ps e :
  fold_left (Spec.step resource context) ps (Raise e) = Raise e.
Proof. induction ps as [|p ps IH]; simpl; auto. Qed.

Lemma fold_step_stopped resource context ps d :
  fold_left (Spec.step resource context) ps (Ok (d, true)) = Ok (d, true).
Proof. induction ps as [|p ps IH]; simpl; auto. Qed.

(** The loop with [continue] and [break] is the fold with a stop flag. *)
Lemma for_policies_fold resource context ps : forall running,
  for_policies ps resource context running =
  fmap fst (fold_left (Spec.step resource context) ps (Ok (running, false))).
Proof.
  induction ps as [|p ps IH]; intros running; simpl.
  - reflexivity.
  - unfold Spec.applies.
    destruct (_resource_matches (Policy.resources p) resource) as [m|e]; simpl.
    2: now rewrite fold_step_raise.
    destruct m; simpl.
    2: apply IH.
    destruct (_evaluate_conditions p context) as [c|e]; simpl.
    2: now rewrite fold_step_raise.
    destruct c; simpl.
    2: apply IH.
    unfold Spec.own.
    destruct (effect_eqb (Policy.effect p) DENY).
    + now rewrite fold_step_stopped.
    + apply IH.
Qed.

End DecisionFacts.

(** The outcome of [evaluate] in terms of the fold. *)
Lemma evaluate_decides :
  forall (rt : Runtime) (self : PolicyEvaluator.t) (resource action : string)
         (context : option Dict) (w : World),
    fst (fst (PolicyEvaluator.evaluate self resource action context w)) =
    fmap Spec.handed_back
      (Spec.decide (PolicyEvaluator.applicable_policies self) resource
         (match context with Some c => c | None => [] end)).
Proof.
  intros rt self resource action context w.
  unfold PolicyEvaluator.evaluate, Spec.decide.
  rewrite <- for_policies_fold. fold Spec.initial.
  destruct (timezone_now w) as [t0 w1].
  destruct (PolicyEvaluator.for_policies _ _ _ _) as [[[d p] r]|e]; simpl.
  2: reflexivity.
  destruct (timezone_now w1) as [t1 w2].
  destruct p as [p|]; simpl; [|reflexivity].
  destruct (PolicyEvaluator.consumes_quota d); reflexivity.
Qed.

(** C1: for every evaluator, resource, action, context and world, the
    outcome of [evaluate] is the outcome of iterating the resolved
    policies in order from [(DENY, None, "No applicable policy found")],
    every applying policy overwriting the running triple with its own
    effect, itself and its reason, and iteration stopping at the first
    applying policy whose effect is [DENY]; the matched policy is handed
    back as the object stands after the call. *)
Theorem C1_evaluate_iterates_overwrites_stops_on_deny :
  forall (rt : Runtime) (self : PolicyEvaluator.t) (resource action : string)
         (context : option Dict) (w : World),
    fst (fst (PolicyEvaluator.evaluate self resource action context w)) =
    fmap Spec.handed_back
      (Spec.decide (PolicyEvaluator.applicable_policies self) resource
         (match context with Some c => c | None => [] end)).
Proof. exact evaluate_decides. Qed.

(** ** Resolution *)

Section ResolutionFacts.
Context {rt : Runtime}.
Import PolicyEvaluator.

Lemma mem_In (x : UUID) (l : list UUID) : mem x l = true <-> In x l.
Proof.
  unfold mem. rewrite existsb_exists. split.
  - intros (y & Hy & E). apply N.eqb_eq in E. now subst.
  - intros H. exists x. split; [assumption|apply N.eqb_refl].
Qed.

Lemma any_row_false (l : list UUID) : any_row l = false <-> l = [].
Proof. destruct l; simpl; split; congruence. Qed.

Lemma In_insert_desc (x p : Policy.t) (l : list Policy.t) :
  In x (insert_desc p l) <-> x = p \/ In x l.
Proof.
  induction l as [|q l IH]; simpl.
  - intuition.
  - destruct (Policy.priority q <=? Policy.priority p); simpl.
    + intuition.
    + rewrite IH. intuition.
Qed.

Lemma In_order_by_priority_desc (x : Policy.t) (l : list Policy.t) :
  In x (order_by_priority_desc l) <-> In x l.
Proof.
  induction l as [|p l IH]; simpl.
  - reflexivity.
  - rewrite In_insert_desc, IH. intuition.
Qed.

(** The candidates are the rows that the two querysets select. *)
Lemma In_policies (a : Agent.t) (w : World) (p : Policy.t) :
  In p (policies a w) <->
  In p (policy_table w) /\ targeted a p || global_policies p = true.
Proof.
  unfold policies. rewrite In_order_by_priority_desc. apply filter_In.
Qed.

Lemma candidate_is_active (a : Agent.t) (p : Policy.t) :
  targeted a p || global_policies p = true -> Policy.is_active p = true.
Proof.
  unfold targeted, global_policies.
  destruct (Policy.is_active p); simpl; auto.
Qed.

(** A policy kept by the validity filter passed [is_valid_now] at one of
    the clock readings that the filter took. *)
Lemma valid_now_kept (ps : list Policy.t) : forall (w : World) (p : Policy.t),
  In p (fst (valid_now ps w)) ->
  In p ps /\
  exists k, (now_calls w <= k < now_calls w + List.length ps)%nat /\
            Policy.is_valid_now p (clock k) = true.
Proof.
  induction ps as [|q ps IH]; intros w p; simpl.
  - intros [].
  - destruct (valid_now ps _) as [kept w2] eqn:E.
    specialize (IH (snd (timezone_now w)) p). simpl in IH.
    unfold timezone_now in E. simpl in E. rewrite E in IH. simpl in IH.
    destruct (Policy.is_valid_now q (clock (now_calls w))) eqn:V; simpl.
    + intros [<-|Hin].
      * split; [now left|]. exists (now_calls w). split; [lia|assumption].
      * destruct (IH Hin) as (Hp & k & Hk & Hv).
        split; [now right|]. exists k. split; [lia|assumption].
    + intros Hin. destruct (IH Hin) as (Hp & k & Hk & Hv).
      split; [now right|]. exists k. split; [lia|assumption].
Qed.

(** A policy that passes [is_valid_now] at every instant is kept. *)
Lemma valid_now_keeps (ps : list Policy.t) : forall (w : World) (p : Policy.t),
  In p ps -> (forall now, Policy.is_valid_now p now = true) ->
  In p (fst (valid_now ps w)).
Proof.
  induction ps as [|q ps IH]; intros w p; simpl.
  - intros [].
  - intros Hin Hv.
    specialize (IH (snd (timezone_now w)) p). simpl in IH.
    destruct (valid_now ps _) as [kept w2]. simpl in IH.
    destruct Hin as [->|Hin].
    + rewrite Hv. now left.
    + destruct (Policy.is_valid_now q _); simpl; auto.
Qed.

(** What [is_valid_now] guarantees: the time window, and a quota that is
    unset, zero, or not used up. *)
Lemma is_valid_now_true (p : Policy.t) (now : datetime) :
  Policy.is_valid_now p now = true ->
  (forall t, Policy.valid_from p = Some t -> t <= now) /\
  (forall t, Policy.valid_until p = Some t -> now <= t) /\
  (forall m, Policy.max_calls p = Some m -> m = 0 \/ Policy.calls_made p < m).
Proof.
  unfold Policy.is_valid_now, Policy.set_and_after, Policy.set_and_before,
    Policy.quota_spent.
  destruct (Policy.valid_from p) as [vf|];
  destruct (Policy.valid_until p) as [vu|];
  destruct (Policy.max_calls p) as [m|]; intros H;
  repeat match type of H with
         | (if ?c then _ else _) = _ => destruct c eqn:?; try discriminate
         end;
  repeat split; intros ? [= <-]; try lia;
  try (destruct (Z.eqb_spec m 0); [now left|right]; simpl in *; lia).
Qed.

Lemma resolved_policies_in_table (a : Agent.t) (w : World) (p : Policy.t) :
  In p (fst (_get_applicable_policies a w)) -> In p (policy_table w).
Proof.
  unfold _get_applicable_policies. intros H.
  apply valid_now_kept in H. destruct H as [Hin _].
  now apply In_policies in Hin.
Qed.

Lemma distinct_ids_inj (ps : list Policy.t) (x y : Policy.t) :
  NoDup (map Policy.id ps) -> In x ps -> In y ps ->
  Policy.id x = Policy.id y -> x = y.
Proof.
  induction ps as [|p ps IH]; simpl; [intros _ []|].
  intros H Hx Hy E. inversion H as [|? ? Hp Hps]; subst.
  destruct Hx as [<-|Hx], Hy as [<-|Hy]; auto.
  - exfalso. apply Hp. rewrite E. now apply in_map.
  - exfalso. apply Hp. rewrite <- E. now apply in_map.
Qed.

(** The validity invariant that resolution does establish. *)
Lemma resolved_policies_valid (a : Agent.t) (w : World) (p : Policy.t) :
  In p (fst (_get_applicable_policies a w)) ->
  Policy.is_active p = true /\
  exists k, (now_calls w <= k < now_calls w + List.length (policies a w))%nat /\
    (forall t, Policy.valid_from p = Some t -> t <= clock k) /\
    (forall t, Policy.valid_until p = Some t -> clock k <= t) /\
    (forall m, Policy.max_calls p = Some m -> m = 0 \/ Policy.calls_made p < m).
Proof.
  unfold _get_applicable_policies. intros H.
  apply valid_now_kept in H. destruct H as (Hin & k & Hk & Hv).
  apply In_policies in Hin. destruct Hin as [_ Hc].
  split; [eapply candidate_is_active; eassumption|].
  exists k. split; [assumption|]. now apply is_valid_now_true.
Qed.

(** *** Order: the resolved list is sorted by descending priority *)

Lemma insert_desc_sorted (p : Policy.t) (l : list Policy.t) :
  StronglySorted Spec.before l -> StronglySorted Spec.before (insert_desc p l).
Proof.
  induction 1 as [|q l Hl IH Hq]; simpl.
  - repeat constructor.
  - destruct (Z.leb_spec (Policy.priority q) (Policy.priority p)) as [Hle|Hlt].
    + constructor; [now constructor|].
      constructor; [exact Hle|].
      eapply Forall_impl; [|exact Hq]. unfold Spec.before. intros x Hx. lia.
    + constructor; [exact IH|].
      apply Forall_forall. intros x Hx. apply In_insert_desc in Hx.
      destruct Hx as [->|Hx].
      * unfold Spec.before. lia.
      * rewrite Forall_forall in Hq. now apply Hq.
Qed.

Lemma order_by_priority_desc_sorted (l : list Policy.t) :
  StronglySorted Spec.before (order_by_priority_desc l).
Proof.
  induction l as [|p l IH]; simpl; [constructor|].
  now apply insert_desc_sorted.
Qed.

Lemma valid_now_sorted (ps : list Policy.t) : forall w : World,
  StronglySorted Spec.before ps -> StronglySorted Spec.before (fst (valid_now ps w)).
Proof.
  induction ps as [|q ps IH]; intros w Hs; simpl; [constructor|].
  inversion Hs as [|? ? Hps Hq]; subst.
  specialize (IH (snd (timezone_now w)) Hps).
  pose proof (valid_now_kept ps (snd (timezone_now w))) as Hkept.
  simpl in IH, Hkept.
  destruct (valid_now ps _) as [kept w2]. simpl in *.
  destruct (Policy.is_valid_now q _); simpl; [|exact IH].
  constructor; [exact IH|].
  apply Forall_forall. intros x Hx. rewrite Forall_forall in Hq.
  apply Hq. now apply Hkept.
Qed.

Lemma resolved_policies_sorted (a : Agent.t) (w : World) :
  StronglySorted Spec.before (fst (_get_applicable_policies a w)).
Proof.
  unfold _get_applicable_policies. apply valid_now_sorted.
  apply order_by_priority_desc_sorted.
Qed.

Lemma init_applicable_policies (a : Agent.t) (w w' : World) (self : t) :
  __init__ a w = (self, w') ->
  applicable_policies self = fst (_get_applicable_policies a w) /\
  policy_table w' = policy_table w.
Proof.
  unfold __init__, _get_applicable_policies.
  assert (Ht : forall ps v, policy_table (snd (valid_now ps v)) = policy_table v).
  { induction ps as [|q ps IH]; intros v; simpl; [reflexivity|].
    specialize (IH (snd (timezone_now v))).
    destruct (valid_now ps _) as [kept v2]. simpl in *. exact IH. }
  specialize (Ht (policies a w) w).
  destruct (valid_now (policies a w) w) as [ps v]. simpl in Ht.
  intros [= <- <-]. auto.
Qed.

(** *** Rows: the resolved policies are distinct rows of the table *)

Lemma distinct_rows_NoDup (ps : list Policy.t) :
  Spec.distinct_rows ps = true <-> NoDup (map Policy.id ps).
Proof.
  induction ps as [|p ps IH]; simpl.
  - split; [constructor|reflexivity].
  - rewrite andb_true_iff, negb_true_iff, IH. split.
    + intros [Hp Hps]. constructor; [|exact Hps].
      intros Hin. apply mem_In in Hin. congruence.
    + intros H. inversion H as [|? ? Hp Hps]; subst. split; [|exact Hps].
      destruct (mem _ _) eqn:E; [|reflexivity].
      apply mem_In in E. contradiction.
Qed.

Lemma insert_desc_perm (p : Policy.t) (l : list Policy.t) :
  Permutation (p :: l) (insert_desc p l).
Proof.
  induction l as [|q l IH]; simpl; [reflexivity|].
  destruct (Policy.priority q <=? Policy.priority p); [reflexivity|].
  rewrite perm_swap. now constructor.
Qed.

Lemma order_by_priority_desc_perm (l : list Policy.t) :
  Permutation l (order_by_priority_desc l).
Proof.
  induction l as [|p l IH]; simpl; [constructor|].
  rewrite <- insert_desc_perm. now constructor.
Qed.

Lemma NoDup_map_kept {A B} (f : A -> B) (l kept : list A) (x : A) :
  (forall y, In y kept -> In y l) ->
  ~ In (f x) (map f l) -> ~ In (f x) (map f kept).
Proof.
  intros Hsub Hx Hin. apply Hx. apply in_map_iff in Hin.
  destruct Hin as (y & E & Hy). rewrite <- E. apply in_map. now apply Hsub.
Qed.

Lemma filter_distinct (g : Policy.t -> bool) (l : list Policy.t) :
  NoDup (map Policy.id l) -> NoDup (map Policy.id (filter g l)).
Proof.
  induction l as [|p l IH]; simpl; [auto|].
  intros H. inversion H as [|? ? Hp Hl]; subst.
  destruct (g p); simpl; [|now apply IH].
  constructor; [|now apply IH].
  apply NoDup_map_kept with (l := l); [|exact Hp].
  intros y Hy. now apply filter_In in Hy.
Qed.

Lemma valid_now_distinct (ps : list Policy.t) : forall w : World,
  NoDup (map Policy.id ps) -> NoDup (map Policy.id (fst (valid_now ps w))).
Proof.
  induction ps as [|q ps IH]; intros w H; simpl; [constructor|].
  inversion H as [|? ? Hq Hps]; subst.
  specialize (IH (snd (timezone_now w)) Hps).
  pose proof (valid_now_kept ps (snd (timezone_now w))) as Hkept.
  simpl in IH, Hkept.
  destruct (valid_now ps _) as [kept w2]. simpl in *.
  destruct (Policy.is_valid_now q _); simpl; [|exact IH].
  constructor; [|exact IH].
  apply NoDup_map_kept with (l := ps); [|exact Hq].
  intros y Hy. now apply Hkept.
Qed.

(** A fresh evaluator over a table with distinct primary keys holds
    distinct rows, with the counters that the table holds. *)
Lemma init_in_step (a : Agent.t) (w w' : World) (self : t) :
  Spec.distinct_rows (policy_table w) = true ->
  __init__ a w = (self, w') ->
  Spec.distinct_rows (applicable_policies self) = true /\
  Spec.counters_in_step self w' = true.
Proof.
  intros Hd Hinit. apply init_applicable_policies in Hinit.
  destruct Hinit as [Hps Ht].
  apply distinct_rows_NoDup in Hd. split.
  - apply distinct_rows_NoDup. rewrite Hps.
    unfold _get_applicable_policies. apply valid_now_distinct.
    unfold policies.
    eapply Permutation_NoDup;
      [apply Permutation_map, order_by_priority_desc_perm|].
    now apply filter_distinct.
  - unfold Spec.counters_in_step. apply forallb_forall. intros q Hq.
    apply forallb_forall. intros row Hrow.
    destruct (N.eqb_spec (Policy.id row) (Policy.id q)) as [E|E];
      [|reflexivity]. simpl.
    rewrite Hps in Hq. apply resolved_policies_in_table in Hq.
    rewrite Ht in Hrow.
    assert (row = q) as ->; [|apply Z.eqb_refl].
    eapply distinct_ids_inj; eauto.
Qed.

End ResolutionFacts.

(** C3: at the input where the claim fails.  A policy whose [max_calls]
    is set to 0 and whose [calls_made] is 3, so that [calls_made >=
    max_calls], is in the resolved list: [self.max_calls and ...] takes
    the set value 0 for an unset quota. *)
Theorem C3_zero_quota_policy_is_resolved :
  Policy.is_active Examples.zero_quota = true /\
  (exists m, Policy.max_calls Examples.zero_quota = Some m /\
             Policy.calls_made Examples.zero_quota >= m) /\
  fst (@PolicyEvaluator._get_applicable_policies Examples.quick Examples.worker
         (Examples.world [Examples.zero_quota])) = [Examples.zero_quota].
Proof.
  split; [reflexivity|]. split; [|reflexivity].
  exists 0. split; [reflexivity|]. vm_compute. discriminate.
Qed.

(** C5: for every subject, an active policy with no agent and no role
    assigned is among the candidate policies of the subject; a candidate
    policy with an agent or a role assigned names the subject among its
    agents or one of the subject's roles among its roles. *)
Theorem C5_unscoped_policy_is_candidate_for_every_subject :
  forall (a : Agent.t) (w : World) (p : Policy.t),
    (In p (policy_table w) -> Policy.is_active p = true ->
     Policy.agents p = [] -> Policy.roles p = [] ->
     In p (PolicyEvaluator.policies a w)) /\
    (In p (PolicyEvaluator.policies a w) ->
     Policy.agents p <> [] \/ Policy.roles p <> [] ->
     In (Agent.id a) (Policy.agents p) \/
     exists r, In r (Policy.roles p) /\ In r (Agent.roles a)).
Proof.
  intros a w p. split.
  - intros Hin Hact Ha Hr. apply In_policies. split; [assumption|].
    unfold PolicyEvaluator.global_policies. rewrite Hact, Ha, Hr. simpl.
    apply orb_true_r.
  - intros Hin Hscoped. apply In_policies in Hin. destruct Hin as [_ Hc].
    apply orb_true_iff in Hc. destruct Hc as [Ht|Hg].
    + unfold PolicyEvaluator.targeted in Ht.
      apply andb_true_iff in Ht. destruct Ht as [_ Ht].
      apply orb_true_iff in Ht. destruct Ht as [Ht|Ht].
      * left. now apply mem_In.
      * right. apply existsb_exists in Ht. destruct Ht as (r & Hr & Hm).
        exists r. split; [assumption|now apply mem_In].
    + unfold PolicyEvaluator.global_policies in Hg.
      apply andb_true_iff in Hg. destruct Hg as [Hg Hr].
      apply andb_true_iff in Hg. destruct Hg as [_ Ha].
      apply negb_true_iff, any_row_false in Ha.
      apply negb_true_iff, any_row_false in Hr.
      destruct Hscoped; contradiction.
Qed.

Lemma C5_unscoped_policy_is_candidate_for_every_subject_witness :
  In (Examples.allow_execute 0)
     (PolicyEvaluator.policies Examples.worker
        (Examples.world [Examples.scoped_to_worker; Examples.allow_execute 0])) /\
  (In (Agent.id Examples.worker) (Policy.agents Examples.scoped_to_worker) \/
   exists r, In r (Policy.roles Examples.scoped_to_worker) /\
             In r (Agent.roles Examples.worker)).
Proof.
  split.
  - apply (proj1 (C5_unscoped_policy_is_candidate_for_every_subject
                    Examples.worker
                    (Examples.world [Examples.scoped_to_worker;
                                     Examples.allow_execute 0])
                    (Examples.allow_execute 0)));
      [simpl; auto|reflexivity|reflexivity|reflexivity].
  - apply (proj2 (C5_unscoped_policy_is_candidate_for_every_subject
                    Examples.worker
                    (Examples.world [Examples.scoped_to_worker;
                                     Examples.allow_execute 0])
                    Examples.scoped_to_worker)).
    + vm_compute. auto.
    + left. discriminate.
Defined.

(** ** Two policies on one resource *)

Section TwoPolicies.
Context {rt : Runtime}.
Import PolicyEvaluator.

Lemma applies_unconditional (p : Policy.t) resource context :
  Policy.conditions p = [] ->
  _resource_matches (Policy.resources p) resource = Ok true ->
  Spec.applies p resource context = Ok true.
Proof.
  intros Hc Hm. unfold Spec.applies, _evaluate_conditions.
  now rewrite Hm, Hc.
Qed.

Lemma two_element_list (l : list Policy.t) (a b : Policy.t) :
  List.length l = 2%nat ->
  In a l -> In b l -> a <> b ->
  l = [a; b] \/ l = [b; a].
Proof.
  intros Hlen Ha Hb Hne.
  destruct l as [|x [|y [|z l]]]; try discriminate.
  simpl in Ha, Hb.
  destruct Ha as [Ha|[Ha|[]]], Hb as [Hb|[Hb|[]]]; subst;
    try congruence; auto.
Qed.

End TwoPolicies.

(** C2 (as the code has it): when exactly two policies are resolved for
    a subject, both matching the requested resource with no conditions,
    one ALLOW and one DENY, with priorities 10 and 5 either way round,
    the policy of priority 10 is evaluated first and [evaluate] returns
    DENY with the DENY policy as the matched one. *)
Theorem C2_allow_and_deny_resolve_to_deny :
  forall (rt : Runtime) (a : Agent.t) (w0 w : World) (self : PolicyEvaluator.t)
         (resource action : string) (context : option Dict)
         (pa pd : Policy.t),
    PolicyEvaluator.__init__ a w0 = (self, w) ->
    List.length (PolicyEvaluator.applicable_policies self) = 2%nat ->
    In pa (PolicyEvaluator.applicable_policies self) ->
    In pd (PolicyEvaluator.applicable_policies self) ->
    Policy.effect pa = ALLOW -> Policy.effect pd = DENY ->
    Policy.conditions pa = [] -> Policy.conditions pd = [] ->
    PolicyEvaluator._resource_matches (Policy.resources pa) resource = Ok true ->
    PolicyEvaluator._resource_matches (Policy.resources pd) resource = Ok true ->
    (Policy.priority pa = 10 /\ Policy.priority pd = 5) \/
    (Policy.priority pa = 5 /\ Policy.priority pd = 10) ->
    PolicyEvaluator.applicable_policies self =
      (if Policy.priority pd <? Policy.priority pa then [pa; pd] else [pd; pa]) /\
    fst (fst (PolicyEvaluator.evaluate self resource action context w)) =
    Ok (DENY,
        Some (Policy.with_calls_made (Policy.calls_made pd + 1) pd),
        PolicyEvaluator.applied_reason pd).
Proof.
  intros rt a w0 w self resource action context pa pd
         Hinit Hlen Hina Hind Hea Hed Hca Hcd Hma Hmd Hprio.
  assert (Hne : pa <> pd) by (intros ->; congruence).
  split.
  - apply init_applicable_policies in Hinit. destruct Hinit as [Hps _].
    pose proof (resolved_policies_sorted a w0) as Hsorted.
    rewrite <- Hps in Hsorted.
    destruct (two_element_list _ pa pd Hlen Hina Hind Hne) as [E|E];
      rewrite E in Hsorted |- *;
      inversion Hsorted as [|? ? _ Hall]; subst;
      inversion Hall as [|? ? Hb _]; subst; unfold Spec.before in Hb;
      destruct (Z.ltb_spec (Policy.priority pd) (Policy.priority pa));
      try reflexivity; lia.
  - rewrite evaluate_decides.
    pose proof (applies_unconditional pa resource
                  (match context with Some c => c | None => [] end) Hca Hma) as Ha.
    pose proof (applies_unconditional pd resource
                  (match context with Some c => c | None => [] end) Hcd Hmd) as Hd.
    unfold Spec.decide.
    destruct (two_element_list _ pa pd Hlen Hina Hind Hne) as [-> | ->];
      simpl; rewrite ?Ha, ?Hd; simpl; rewrite ?Hea, ?Hed; simpl;
      rewrite ?Hd; simpl; rewrite ?Hed; reflexivity.
Qed.

Lemma C2_allow_and_deny_resolve_to_deny_witness :
  PolicyEvaluator.applicable_policies
    (fst (Examples.started Examples.quick
            [Examples.deny_execute 10; Examples.allow_execute 5])) =
  [Examples.deny_execute 10; Examples.allow_execute 5] /\
  fst (fst (Examples.call Examples.quick
              [Examples.deny_execute 10; Examples.allow_execute 5]
              "agent:execute" "task" None)) =
  Ok (DENY,
      Some (Policy.with_calls_made 1 (Examples.deny_execute 10)),
      "Policy 'deny-execute' applied with effect DENY").
Proof.
  apply (C2_allow_and_deny_resolve_to_deny Examples.quick Examples.worker
           (Examples.world [Examples.deny_execute 10; Examples.allow_execute 5])
           (snd (Examples.started Examples.quick
                   [Examples.deny_execute 10; Examples.allow_execute 5]))
           (fst (Examples.started Examples.quick
                   [Examples.deny_execute 10; Examples.allow_execute 5]))
           "agent:execute" "task" None
           (Examples.allow_execute 5) (Examples.deny_execute 10));
    try reflexivity.
  - simpl; auto.
  - simpl; auto.
  - right; split; reflexivity.
Defined.

(** C2 as stated fails: with ALLOW at priority 10 and DENY at priority 5
    the ALLOW policy is met first, the loop goes on, and the DENY policy
    overwrites the decision; the call returns DENY, not ALLOW. *)
Lemma C2_priority_10_allow_5_deny_returns_deny :
  PolicyEvaluator.applicable_policies
    (fst (Examples.started Examples.quick
            [Examples.deny_execute 5; Examples.allow_execute 10])) =
  [Examples.allow_execute 10; Examples.deny_execute 5] /\
  fst (fst (Examples.call Examples.quick
              [Examples.deny_execute 5; Examples.allow_execute 10]
              "agent:execute" "task" None)) =
  Ok (DENY,
      Some (Policy.with_calls_made 1 (Examples.deny_execute 5)),
      "Policy 'deny-execute' applied with effect DENY") /\
  ~ (exists p r,
       fst (fst (Examples.call Examples.quick
                   [Examples.deny_execute 5; Examples.allow_execute 10]
                   "agent:execute" "task" None)) = Ok (ALLOW, p, r)).
Proof.
  split; [reflexivity|]. split; [reflexivity|].
  intros (p & r & H). vm_compute in H. discriminate H.
Qed.

(** ** Conditions *)

Section ConditionFacts.
Context {rt : Runtime}.
Import PolicyEvaluator.

Lemma walk_none (keys : list string) : walk keys PyNone = PyNone.
Proof. destruct keys; reflexivity. Qed.

(** The three ways to a null lookup: a missing key, a value on the way
    that is not a mapping, and a key that is present with value null. *)
Lemma walk_missing_key (d : Dict) (key : string) (rest : list string) :
  dict_get d key = None -> walk (key :: rest) (PyDict d) = PyNone.
Proof. intros H. cbn [walk]. unfold py_get. rewrite H. apply walk_none. Qed.

Lemma walk_not_a_mapping (v : Any) (key : string) (rest : list string) :
  (forall d, v <> PyDict d) -> walk (key :: rest) v = PyNone.
Proof. intros H. destruct v; try reflexivity. now contradiction (H d). Qed.

Lemma walk_present_null (d : Dict) (key : string) (rest : list string) :
  dict_get d key = Some PyNone -> walk (key :: rest) (PyDict d) = PyNone.
Proof. intros H. cbn [walk]. unfold py_get. rewrite H. apply walk_none. Qed.

Lemma condition_holds_null (c : PolicyCondition.t) (context : Dict) :
  _get_nested_value context (PolicyCondition.field c) = PyNone ->
  condition_holds c context = Ok false.
Proof. intros H. unfold condition_holds. now rewrite H. Qed.

Lemma all_conditions_null (conds : list PolicyCondition.t) (context : Dict)
    (c : PolicyCondition.t) :
  In c conds ->
  _get_nested_value context (PolicyCondition.field c) = PyNone ->
  all_conditions conds context <> Ok true.
Proof.
  induction conds as [|c' conds IH]; simpl.
  - intros [].
  - intros [->|Hin] Hnull.
    + rewrite (condition_holds_null c context Hnull). simpl. discriminate.
    + destruct (condition_holds c' context) as [[|]|e]; simpl;
        try discriminate. now apply IH.
Qed.

End ConditionFacts.

(** C10: for every condition and every context, when the dot-path lookup
    of the condition's field yields null, the condition does not match,
    whatever its operator and operand; a policy that carries such a
    condition does not have its conditions hold, and a context in which
    the field is present with value null is treated as one in which the
    key is absent. *)
Theorem C10_null_field_never_matches :
  forall (rt : Runtime) (c : PolicyCondition.t) (context : Dict),
    PolicyEvaluator._get_nested_value context (PolicyCondition.field c) = PyNone ->
    PolicyEvaluator.condition_holds c context = Ok false /\
    (forall p : Policy.t, In c (Policy.conditions p) ->
       PolicyEvaluator._evaluate_conditions p context <> Ok true) /\
    (forall absent : Dict,
       PolicyEvaluator._get_nested_value absent (PolicyCondition.field c) = PyNone ->
       PolicyEvaluator.condition_holds c absent =
       PolicyEvaluator.condition_holds c context).
Proof.
  intros rt c context Hnull. split; [|split].
  - now apply condition_holds_null.
  - intros p Hin. unfold PolicyEvaluator._evaluate_conditions.
    destruct (Policy.conditions p) as [|c' conds] eqn:E; [destruct Hin|].
    now apply all_conditions_null with (c := c).
  - intros absent Habs.
    now rewrite !condition_holds_null.
Qed.

Lemma C10_null_field_never_matches_witness :
  PolicyEvaluator.condition_holds (rt := Examples.quick)
    Examples.owner_is_null [("owner", PyNone)] = Ok false /\
  (forall p : Policy.t, In Examples.owner_is_null (Policy.conditions p) ->
     PolicyEvaluator._evaluate_conditions (rt := Examples.quick) p
       [("owner", PyNone)] <> Ok true) /\
  (forall absent : Dict,
     PolicyEvaluator._get_nested_value absent "owner" = PyNone ->
     PolicyEvaluator.condition_holds (rt := Examples.quick)
       Examples.owner_is_null absent =
     PolicyEvaluator.condition_holds (rt := Examples.quick)
       Examples.owner_is_null [("owner", PyNone)]).
Proof.
  apply (C10_null_field_never_matches Examples.quick Examples.owner_is_null
           [("owner", PyNone)]).
  reflexivity.
Defined.

(** ** Exceptions out of [_evaluate_operator] *)

Section OperatorFacts.
Context {rt : Runtime}.
Import PolicyEvaluator.

Lemma except_value_type_raise {A} (m : result A) (d : A) (e : exn) :
  except_value_type m d = Raise e ->
  m = Raise e /\ e <> ValueError /\ e <> TypeError.
Proof.
  destruct m as [a|[]]; simpl; intros [= <-];
    (split; [reflexivity|split; discriminate]).
Qed.

Lemma except_value_type_uncaught {A} (d : A) (e : exn) :
  e <> ValueError -> e <> TypeError ->
  except_value_type (Raise e) d = Raise e.
Proof. destruct e; simpl; intros H1 H2; congruence. Qed.

Lemma py_in_raise (x c : Any) (e : exn) : py_in x c = Raise e -> e = TypeError.
Proof.
  destruct c; simpl; try (intros [= <-]; reflexivity);
    destruct x; simpl; try discriminate; intros [= <-]; reflexivity.
Qed.

(** [float] raises nothing but [ValueError], [TypeError] and
    [OverflowError]. *)
Lemma py_float_raise (v : Any) (e : exn) :
  py_float v = Raise e ->
  e = ValueError \/ e = TypeError \/ e = OverflowError.
Proof.
  destruct v; simpl; try (intros [= <-]; auto).
  - unfold float_of_int. destruct (binary_normalize _ _ _ _ _);
      intros [= <-]; auto.
  - unfold float_of_int. destruct (binary_normalize _ _ _ _ _);
      intros [= <-]; auto.
  - destruct (float_of_str s); intros [= <-]; auto.
Qed.

(** [<=] raises nothing but [TypeError]. *)
Lemma py_le_raise (a : Any) : forall (o : Any) (e : exn),
  py_le a o = Raise e -> e = TypeError.
Proof.
  induction a as [| | | | |l H|d H] using Any_nested_ind; intros o e;
    try (destruct o; simpl; try (intros [= <-]; reflexivity); discriminate).
  - destruct o as [| | | | |m|]; simpl;
      try (intros [= <-]; reflexivity).
    revert m. induction H as [|x l Hx Hl IH]; intros m.
    + discriminate.
    + destruct m as [|y m]; [discriminate|].
      destruct (py_eq x y).
      * apply IH.
      * apply Hx.
Qed.

(** What leaves [_evaluate_operator]: an exception of [re.match] in the
    operator [regex] on a string pattern, unless it is a [ValueError] or
    a [TypeError], and the [OverflowError] of [float] in [gt] and [lt]. *)
Lemma evaluate_operator_raise (operator : string) (left right : Any) (e : exn) :
  _evaluate_operator operator left right = Raise e ->
  (operator = "regex" /\
   (exists p, right = PyStr p /\ re_match p (py_str left) = Raise e) /\
   e <> ValueError /\ e <> TypeError) \/
  (e = OverflowError /\
   (operator = "gt" \/ operator = "lt") /\
   (py_float left = Raise OverflowError \/ py_float right = Raise OverflowError)).
Proof.
  unfold _evaluate_operator. intros H.
  apply except_value_type_raise in H. destruct H as (H & Hv & Ht).
  assert (Hfloat : forall v, py_float v = Raise e -> e = OverflowError).
  { intros v Hf. apply py_float_raise in Hf.
    destruct Hf as [Hf|[Hf|Hf]]; congruence. }
  repeat match type of H with
         | (if (?a =? ?b)%string then _ else _) = _ =>
             destruct (String.eqb_spec a b)
         end; try discriminate.
  - right.
    destruct (py_float left) as [l|e1] eqn:E1; simpl in H.
    + destruct (py_float right) as [r|e2] eqn:E2; simpl in H; [discriminate|].
      injection H as ->. pose proof (Hfloat _ E2) as ->. auto.
    + injection H as ->. pose proof (Hfloat _ E1) as ->. auto.
  - right.
    destruct (py_float left) as [l|e1] eqn:E1; simpl in H.
    + destruct (py_float right) as [r|e2] eqn:E2; simpl in H; [discriminate|].
      injection H as ->. pose proof (Hfloat _ E2) as ->. auto.
    + injection H as ->. pose proof (Hfloat _ E1) as ->. auto.
  - destruct left; try discriminate; apply py_in_raise in H; contradiction.
  - destruct left; try discriminate;
      (destruct (py_in right _) as [b|e1] eqn:E1; simpl in H; [discriminate|];
       injection H as ->; apply py_in_raise in E1; contradiction).
  - destruct right; try discriminate; apply py_in_raise in H; contradiction.
  - destruct right; try discriminate;
      (destruct (py_in left _) as [b|e1] eqn:E1; simpl in H; [discriminate|];
       injection H as ->; apply py_in_raise in E1; contradiction).
  - destruct right as [| | | | |[|low [|high [|x l]]]|]; try discriminate.
    destruct (py_le low left) as [[|]|e1] eqn:E1; simpl in H;
      try discriminate.
    + apply py_le_raise in H. contradiction.
    + injection H as ->. apply py_le_raise in E1. contradiction.
  - left. split; [assumption|]. unfold py_re_match in H.
    destruct right; try congruence.
    split; [|split; assumption]. now exists s.
Qed.

(** An invalid pattern is the only way to [re.error]: the regex
    operator with a string operand on which [re.match] raises it. *)
Lemma evaluate_operator_re_error (operator : string) (left right : Any) :
  _evaluate_operator operator left right = Raise ReError ->
  operator = "regex" /\
  exists p, right = PyStr p /\ re_match p (py_str left) = Raise ReError.
Proof.
  intros H. apply evaluate_operator_raise in H.
  destruct H as [(Hop & Hp & _)|(Habs & _)]; [auto|discriminate].
Qed.

(** An exception of [re.match] that is neither a [ValueError] nor a
    [TypeError] passes the [except] clause of [_evaluate_operator]. *)
Lemma regex_operator_lets_through (left : Any) (pattern : string) (e : exn) :
  re_match pattern (py_str left) = Raise e ->
  e <> ValueError -> e <> TypeError ->
  _evaluate_operator "regex" left (PyStr pattern) = Raise e.
Proof.
  intros H Hv Ht. unfold _evaluate_operator. simpl.
  unfold py_re_match. rewrite H. now apply except_value_type_uncaught.
Qed.

End OperatorFacts.

(** [float] of an int that no double holds raises [OverflowError], which
    the [except] clause lets through as well. *)
Lemma gt_on_huge_int_overflows (rt : Runtime) (right : Any) :
  PolicyEvaluator._evaluate_operator "gt" (PyInt (2 ^ 1024)) right =
  Raise OverflowError.
Proof. reflexivity. Qed.

(** C6: at the input where the claim fails.  For the operator [regex]
    with an operand that [re.compile] refuses, [re.match] raises
    [re.error]; the [except (ValueError, TypeError)] clause does not
    catch it and the exception reaches the caller of
    [_evaluate_operator]. *)
Theorem C6_invalid_regex_operand_raises :
  forall (rt : Runtime) (left : Any) (pattern : string),
    re_match pattern (py_str left) = Raise ReError ->
    PolicyEvaluator._evaluate_operator "regex" left (PyStr pattern) =
    Raise ReError.
Proof.
  intros rt left pattern H.
  unfold PolicyEvaluator._evaluate_operator. simpl.
  unfold py_re_match. now rewrite H.
Qed.

Lemma C6_invalid_regex_operand_raises_witness :
  PolicyEvaluator._evaluate_operator (rt := Examples.quick)
    "regex" (PyStr "delete the file") (PyStr "*") = Raise ReError.
Proof.
  apply (C6_invalid_regex_operand_raises Examples.quick
           (PyStr "delete the file") "*").
  reflexivity.
Defined.

(** ** The effects of [evaluate] *)

Section EffectFacts.
Context {rt : Runtime}.
Import PolicyEvaluator.

(** A call that raises leaves the evaluator and both tables as they
    were: the exception leaves the loop before anything is written. *)
Lemma evaluate_raised self resource action context w e self' w' :
  evaluate self resource action context w = (Raise e, self', w') ->
  self' = self /\ audit_table w' = audit_table w /\
  policy_table w' = policy_table w.
Proof.
  unfold evaluate, timezone_now.
  destruct (for_policies _ _ _ _) as [[[d p] r]|e0].
  - destruct p as [p|]; [destruct (consumes_quota d)|]; simpl; discriminate.
  - intros [= <- <- <-]. auto.
Qed.




(** A call that returns has appended one row to the audit table. *)
Lemma evaluate_returned self resource action context w d p r self' w' :
  evaluate self resource action context w = (Ok (d, p, r), self', w') ->
  exists entry,
    audit_table w' = (audit_table w ++ [entry])%list /\
    PolicyAuditLog.agent entry = Agent.id (agent self) /\
    PolicyAuditLog.policy entry = option_map Policy.id p /\
    PolicyAuditLog.resource entry = resource /\
    PolicyAuditLog.action entry = action /\
    PolicyAuditLog.request_data entry =
      match context with Some c => c | None => [] end /\
    PolicyAuditLog.decision entry = d /\
    PolicyAuditLog.reason entry = r /\
    PolicyAuditLog.execution_time_ms entry =
      elapsed_ms_of (clock (now_calls w)) (clock (S (now_calls w))).
Proof.
  unfold evaluate, _log_decision, audit_create, timezone_now. simpl.
  destruct (for_policies _ _ _ _) as [[[d0 p0] r0]|e0]; [|discriminate].
  destruct p0 as [p0|]; [destruct (consumes_quota d0)|]; simpl;
    intros [= <- <- <- <- <-]; eexists; simpl;
    repeat split; reflexivity.
Qed.

End EffectFacts.

(** C7: at the input where the claim fails.  The evaluator holds one
    policy on ["agent:execute"] whose condition is [task_preview regex
    "*"].  [re.match] raises [re.error] on the operand, the exception
    passes the [except] clause of [_evaluate_operator] and leaves
    [evaluate] before [_log_decision] runs: the call has an outcome, an
    exception, and the audit table has no entry for it. *)
Theorem C7_call_on_invalid_regex_condition_is_not_logged :
  fst (fst (Examples.call Examples.quick [Examples.allow_on_bad_regex]
              "agent:execute" "task"
              (Some [("task_preview", PyStr "delete the file")]))) =
  Raise ReError /\
  audit_table (snd (Examples.started Examples.quick
                      [Examples.allow_on_bad_regex])) = [] /\
  audit_table (snd (Examples.call Examples.quick [Examples.allow_on_bad_regex]
                      "agent:execute" "task"
                      (Some [("task_preview", PyStr "delete the file")]))) = [].
Proof. split; [|split]; reflexivity. Qed.

(** The same happens where the resource matcher, which has no handler
    at all, meets a malformed glob. *)
Lemma malformed_glob_appends_no_audit_entry :
  fst (fst (Examples.call Examples.quick [Examples.allow_bad_glob]
              "tool:crm" "read" None)) = Raise ReError /\
  audit_table (snd (Examples.call Examples.quick [Examples.allow_bad_glob]
                      "tool:crm" "read" None)) =
  audit_table (snd (Examples.started Examples.quick [Examples.allow_bad_glob])).
Proof. split; reflexivity. Qed.

(** ** Quota accounting *)

Section QuotaFacts.
Context {rt : Runtime}.
Import PolicyEvaluator.

Lemma with_calls_made_same (q : Policy.t) :
  Policy.with_calls_made (Policy.calls_made q) q = q.
Proof. destruct q; reflexivity. Qed.

Lemma counter_after_unchanged d matched (q : Policy.t) :
  Spec.quota_consumed d matched q = false -> Spec.counter_after d matched q q.
Proof.
  intros H. unfold Spec.counter_after. rewrite H, Z.add_0_r.
  symmetry. apply with_calls_made_same.
Qed.

Lemma distinct_rows_inj (ps : list Policy.t) (a b : Policy.t) :
  Spec.distinct_rows ps = true -> In a ps -> In b ps ->
  Policy.id a = Policy.id b -> a = b.
Proof.
  intros H. apply distinct_rows_NoDup in H. now apply distinct_ids_inj.
Qed.

Lemma counters_in_step_spec (self : t) (w : World) (q row : Policy.t) :
  Spec.counters_in_step self w = true ->
  In q (applicable_policies self) -> In row (policy_table w) ->
  Policy.id row = Policy.id q ->
  Policy.calls_made row = Policy.calls_made q.
Proof.
  unfold Spec.counters_in_step. rewrite forallb_forall. intros H Hq Hrow E.
  specialize (H q Hq). rewrite forallb_forall in H. specialize (H row Hrow).
  rewrite E, N.eqb_refl in H. simpl in H. now apply Z.eqb_eq.
Qed.

(** The policy that the loop settles on is one of the policies it went
    through, unless it is the one the loop started from. *)
Lemma for_policies_matched resource context ps :
  forall running d m r,
    for_policies ps resource context running = Ok (d, Some m, r) ->
    In m ps \/ running = (d, Some m, r).
Proof.
  induction ps as [|p ps IH]; intros running d m r; simpl.
  - intros [= ->]. now right.
  - destruct (_resource_matches _ _) as [[|]|e]; simpl; try discriminate.
    + destruct (_evaluate_conditions _ _) as [[|]|e]; simpl; try discriminate.
      * destruct (effect_eqb _ _).
        -- intros [= <- <- <-]. left. now left.
        -- intros H. apply IH in H. destruct H as [H|[= <- <- <-]].
           ++ left. now right.
           ++ left. now left.
      * intros H. apply IH in H. destruct H as [H|H]; [left; now right|now right].
    + intros H. apply IH in H. destruct H as [H|H]; [left; now right|now right].
Qed.

(** Writing [n] to the counter of the row with key [pk] adds [g] to the
    counters, for [g] that is [n - calls_made] on that row and 0
    elsewhere. *)
Lemma store_calls_made_counts (pk : UUID) (n : Z) (g : Policy.t -> Z)
    (rows : list Policy.t) :
  (forall q, In q rows -> Policy.id q = pk -> n = Policy.calls_made q + g q) ->
  (forall q, In q rows -> Policy.id q <> pk -> g q = 0) ->
  Forall2 (fun q q' => q' = Policy.with_calls_made (Policy.calls_made q + g q) q)
          rows (store_calls_made pk n rows).
Proof.
  induction rows as [|q rows IH]; simpl; intros Hpk Hother.
  - constructor.
  - constructor.
    + destruct (N.eqb_spec (Policy.id q) pk) as [E|E].
      * now rewrite <- (Hpk q (or_introl eq_refl) E).
      * rewrite (Hother q (or_introl eq_refl) E), Z.add_0_r.
        symmetry. apply with_calls_made_same.
    + apply IH; intros; [apply Hpk|apply Hother]; auto.
Qed.

Lemma unchanged_counts d matched (rows : list Policy.t) :
  (forall q, Spec.quota_consumed d matched q = false) ->
  Forall2 (Spec.counter_after d matched) rows rows.
Proof.
  intros H. induction rows as [|q rows IH]; constructor; auto.
  now apply counter_after_unchanged.
Qed.

Lemma consumes_quota_cases (d : PolicyEffect) :
  consumes_quota d = true <-> d = ALLOW \/ d = DENY.
Proof.
  destruct d; simpl; split; intros H; try discriminate; auto;
    destruct H; discriminate.
Qed.

(** The counters after a call that returns, in memory and in the table. *)
Lemma evaluate_counts self resource action context w d p r self' w' :
  Spec.distinct_rows (applicable_policies self) = true ->
  Spec.counters_in_step self w = true ->
  evaluate self resource action context w = (Ok (d, p, r), self', w') ->
  Forall2 (Spec.counter_after d p)
          (applicable_policies self) (applicable_policies self') /\
  Forall2 (Spec.counter_after d p) (policy_table w) (policy_table w').
Proof.
  intros Hdistinct Hstep.
  unfold evaluate, _log_decision, audit_create, timezone_now. simpl.
  destruct (for_policies _ _ _ _) as [[[d0 p0] r0]|e0] eqn:Eloop;
    [|discriminate].
  destruct p0 as [m|].
  - destruct (consumes_quota d0) eqn:Eq; simpl.
    + intros [= <- <- <- <- <-]. simpl.
      apply for_policies_matched in Eloop.
      destruct Eloop as [Hin|Habs]; [|discriminate].
      assert (Hc : forall q, Spec.quota_consumed d0
                     (Some (Policy.with_calls_made (Policy.calls_made m + 1) m)) q
                   = N.eqb (Policy.id q) (Policy.id m)).
      { intros q. apply consumes_quota_cases in Eq.
        destruct Eq as [-> | ->]; reflexivity. }
      unfold Spec.counter_after.
      split; apply store_calls_made_counts with
        (g := fun q => if Spec.quota_consumed d0
                (Some (Policy.with_calls_made (Policy.calls_made m + 1) m)) q
              then 1 else 0); cbv beta; intros q Hq E; rewrite Hc.
      * rewrite E, N.eqb_refl.
        now rewrite (distinct_rows_inj _ q m Hdistinct Hq Hin E).
      * apply N.eqb_neq in E. now rewrite E.
      * rewrite E, N.eqb_refl.
        now rewrite (counters_in_step_spec self w m q Hstep Hin Hq E).
      * apply N.eqb_neq in E. now rewrite E.
    + intros [= <- <- <- <- <-]. simpl.
      split; apply unchanged_counts; intros q;
        destruct d0; simpl in *; try discriminate; reflexivity.
  - intros [= <- <- <- <- <-]. simpl.
    split; apply unchanged_counts; intros q; reflexivity.
Qed.

Lemma Forall2_In_r {A B} (R : A -> B -> Prop) (l : list A) (l' : list B) (y : B) :
  Forall2 R l l' -> In y l' -> exists x, In x l /\ R x y.
Proof.
  induction 1 as [|x y' l l' Hxy _ IH]; simpl; [intros []|].
  intros [<-|Hy].
  - exists x. auto.
  - destruct (IH Hy) as (x' & Hx' & HR). exists x'. auto.
Qed.

Lemma counter_after_id d matched (l l' : list Policy.t) :
  Forall2 (Spec.counter_after d matched) l l' ->
  map Policy.id l' = map Policy.id l.
Proof.
  induction 1 as [|q q' l l' Hq _ IH]; simpl; [reflexivity|].
  rewrite IH, Hq. reflexivity.
Qed.

(** A call that returns leaves the evaluator as [evaluate_counts] needs
    it for the next call. *)
Lemma evaluate_keeps_in_step self resource action context w d p r self' w' :
  Spec.distinct_rows (applicable_policies self) = true ->
  Spec.counters_in_step self w = true ->
  evaluate self resource action context w = (Ok (d, p, r), self', w') ->
  Spec.distinct_rows (applicable_policies self') = true /\
  Spec.counters_in_step self' w' = true.
Proof.
  intros Hdistinct Hstep Hcall.
  destruct (evaluate_counts _ _ _ _ _ _ _ _ _ _ Hdistinct Hstep Hcall)
    as [Hmem Htab].
  split.
  - apply distinct_rows_NoDup. rewrite (counter_after_id _ _ _ _ Hmem).
    now apply distinct_rows_NoDup.
  - unfold Spec.counters_in_step. apply forallb_forall. intros q' Hq'.
    apply forallb_forall. intros row' Hrow'.
    destruct (N.eqb_spec (Policy.id row') (Policy.id q')) as [E|E];
      [|reflexivity]. simpl. apply Z.eqb_eq.
    destruct (Forall2_In_r _ _ _ _ Hmem Hq') as (q & Hq & Rq).
    destruct (Forall2_In_r _ _ _ _ Htab Hrow') as (row & Hrow & Rrow).
    unfold Spec.counter_after in Rq, Rrow. subst q' row'. simpl in *.
    rewrite (counters_in_step_spec self w q row Hstep Hq Hrow E).
    unfold Spec.quota_consumed. rewrite E. reflexivity.
Qed.

(** A call that consumes quota writes the counter of its own policy
    object, one more than the object held, to the row: the counter that
    the row holds at that moment is not read. *)
Lemma evaluate_writes_the_object_counter self resource action context w d p r
    self' w' :
  evaluate self resource action context w = (Ok (d, Some p, r), self', w') ->
  consumes_quota d = true ->
  (exists m, In m (applicable_policies self) /\
             p = Policy.with_calls_made (Policy.calls_made m + 1) m) /\
  policy_table w' =
    store_calls_made (Policy.id p) (Policy.calls_made p) (policy_table w).
Proof.
  unfold evaluate, _log_decision, audit_create, timezone_now. simpl.
  destruct (for_policies _ _ _ _) as [[[d0 p0] r0]|e0] eqn:Eloop;
    [|discriminate].
  destruct p0 as [m|].
  - destruct (consumes_quota d0) eqn:Eq; simpl.
    + intros [= <- <- <- <- <-] _. simpl. split; [|reflexivity].
      apply for_policies_matched in Eloop.
      destruct Eloop as [Hin|Habs]; [|discriminate].
      exists m. auto.
    + intros [= <- <- <- <- <-] Hq. congruence.
  - discriminate.
Qed.

End QuotaFacts.

(** C8: at the input where the claim fails.  The table holds one ALLOW
    policy on ["agent:execute"] with [calls_made = 0]; two evaluators
    are built for the same agent, and then each is called once.  Both
    calls return ALLOW with the policy as the matched one.  The first
    raises the counter of the row from 0 to 1; the second writes 1
    again, the counter of its own object plus one, and the row stays at
    1 where two calls have been counted against the quota. *)
Theorem C8_second_evaluator_overwrites_the_counter :
  fst (fst (Interleaved.two_calls (rt := Examples.quick) Examples.worker
              "agent:execute" "task" None
              (Examples.world [Examples.allow_execute 0]))) =
    Ok (ALLOW, Some (Policy.with_calls_made 1 (Examples.allow_execute 0)),
        "Policy 'allow-execute' applied with effect ALLOW") /\
  map Policy.calls_made
    (policy_table (snd (fst (Interleaved.two_calls (rt := Examples.quick)
                               Examples.worker "agent:execute" "task" None
                               (Examples.world [Examples.allow_execute 0]))))) =
    [1] /\
  fst (snd (Interleaved.two_calls (rt := Examples.quick) Examples.worker
              "agent:execute" "task" None
              (Examples.world [Examples.allow_execute 0]))) =
    Ok (ALLOW, Some (Policy.with_calls_made 1 (Examples.allow_execute 0)),
        "Policy 'allow-execute' applied with effect ALLOW") /\
  map Policy.calls_made
    (policy_table (snd (snd (Interleaved.two_calls (rt := Examples.quick)
                               Examples.worker "agent:execute" "task" None
                               (Examples.world [Examples.allow_execute 0]))))) =
    [1].
Proof. split; [|split; [|split]]; reflexivity. Qed.

(** ** Timing *)

(** What the audit entry of a returning call records as duration: the
    microseconds field of the elapsed time, in whole milliseconds. *)
Lemma logged_duration (rt : Runtime) self resource action context w d p r self' w' :
  PolicyEvaluator.evaluate self resource action context w =
    (Ok (d, p, r), self', w') ->
  exists entry,
    audit_table w' = (audit_table w ++ [entry])%list /\
    PolicyAuditLog.execution_time_ms entry =
      ((clock (S (now_calls w)) - clock (now_calls w)) mod 1000000) / 1000.
Proof.
  intros H. destruct (evaluate_returned _ _ _ _ _ _ _ _ _ _ H)
    as (entry & Ha & _ & _ & _ & _ & _ & _ & _ & Ht).
  exists entry. split; [assumption|]. exact Ht.
Qed.

(** C9: at the input where the claim fails.  The evaluation starts at
    clock reading 1.5 s and ends at reading 3 s; it lasted 1500 whole
    milliseconds, and the audit entry records 500: [.microseconds] is
    the sub-second field of the elapsed time, not the elapsed time. *)
Theorem C9_duration_over_a_second_loses_the_seconds :
  now_calls (snd (Examples.started Examples.slow [Examples.allow_execute 0])) = 1%nat /\
  (@clock Examples.slow 2 - @clock Examples.slow 1) / 1000 = 1500 /\
  map PolicyAuditLog.execution_time_ms
    (audit_table (snd (Examples.call Examples.slow [Examples.allow_execute 0]
                         "agent:execute" "task" None))) = [500].
Proof. repeat split. Qed.

(** ** The resource matcher *)

Section StringFacts.

Lemma prefix_trans (a b c : string) :
  String.prefix a b = true -> String.prefix b c = true ->
  String.prefix a c = true.
Proof.
  revert b c. induction a as [|x a IH]; intros b c.
  - intros _ _. now destruct c.
  - destruct b as [|y b]; [discriminate|].
    destruct c as [|z c]; [discriminate|]. simpl.
    destruct (ascii_dec x y) as [->|]; [|discriminate].
    destruct (ascii_dec y z) as [->|]; [|discriminate].
    apply IH.
Qed.

Lemma prefix_substring (s : string) : forall n m : nat,
  (n <= m)%nat ->
  String.prefix (substring 0 n s) (substring 0 m s) = true.
Proof.
  induction s as [|c s IH]; intros n m Hle.
  - destruct n, m; reflexivity.
  - destruct n as [|n]; [destruct m; reflexivity|].
    destruct m as [|m]; [lia|]. simpl.
    destruct (ascii_dec c c); [|contradiction]. apply IH. lia.
Qed.

(** A string that starts with [p[:-1]] starts with [p[:-2]]. *)
Lemma startswith_shorter (r p : string) :
  Str.startswith r (Str.drop_last 1 p) = true ->
  Str.startswith r (Str.drop_last 2 p) = true.
Proof.
  unfold Str.startswith, Str.drop_last. apply prefix_trans.
  apply prefix_substring. lia.
Qed.

End StringFacts.

Section MatcherFacts.
Context {rt : Runtime}.
Import PolicyEvaluator.

Lemma pattern_matches_prefix (pattern r : string) :
  Str.endswith pattern ":*" = true ->
  Str.startswith r (Str.drop_last 1 pattern) = true ->
  pattern_matches pattern r = Ok true.
Proof.
  intros He Hs. unfold pattern_matches.
  destruct (String.eqb pattern r); [reflexivity|].
  now rewrite He, (startswith_shorter _ _ Hs).
Qed.

(** The list matches when one of its patterns does and every pattern
    before that one was evaluated to a non-match. *)
Lemma resource_matches_true (rs : list string) (r : string) :
  _resource_matches rs r = Ok true <->
  exists before pattern rest,
    rs = (before ++ pattern :: rest)%list /\
    pattern_matches pattern r = Ok true /\
    Forall (fun q => pattern_matches q r = Ok false) before.
Proof.
  induction rs as [|p rs IH]; simpl.
  - split; [discriminate|].
    intros (before & pattern & rest & E & _). now destruct before.
  - destruct (pattern_matches p r) as [[|]|e] eqn:Ep; simpl.
    + split; [intros _|reflexivity].
      exists [], p, rs. repeat split; auto.
    + rewrite IH. split.
      * intros (before & pattern & rest & -> & Hm & Hb).
        exists (p :: before), pattern, rest. repeat split; auto.
      * intros (before & pattern & rest & E & Hm & Hb).
        destruct before as [|q before]; simpl in E; injection E as <- ->.
        -- congruence.
        -- inversion Hb; subst. exists before, pattern, rest. auto.
    + split; [discriminate|].
      intros (before & pattern & rest & E & Hm & Hb).
      destruct before as [|q before]; simpl in E; injection E as <- ->.
      * congruence.
      * inversion Hb; subst. congruence.
Qed.

(** When every pattern of the list is evaluated without an exception, the
    list matches exactly when one of its patterns does. *)
Lemma resource_matches_any (rs : list string) (r : string) :
  (forall q, In q rs -> exists b, pattern_matches q r = Ok b) ->
  exists b, _resource_matches rs r = Ok b /\
            (b = true <-> exists p, In p rs /\ pattern_matches p r = Ok true).
Proof.
  induction rs as [|p rs IH]; simpl; intros Hall.
  - exists false. split; [reflexivity|].
    split; [discriminate|]. now intros (p & [] & _).
  - destruct (Hall p (or_introl eq_refl)) as [[|] Ep]; rewrite Ep; simpl.
    + exists true. split; [reflexivity|]. split; [|reflexivity].
      intros _. exists p. auto.
    + destruct IH as (b & Hb & Hiff); [intros q Hq; apply Hall; now right|].
      exists b. split; [exact Hb|]. rewrite Hiff. split.
      * intros (q & Hq & Hm). exists q. auto.
      * intros (q & [<-|Hq] & Hm); [congruence|]. exists q. auto.
Qed.

(** The prefix that the matcher compares with is [pattern[:-2]], which
    has lost the colon too: a resource matches as soon as it starts
    with the pattern minus its last two characters. *)
Lemma prefix_test_leaves_out_the_colon (pattern r : string) :
  Str.endswith pattern ":*" = true ->
  Str.startswith r (Str.drop_last 2 pattern) = true ->
  pattern_matches pattern r = Ok true.
Proof.
  intros He Hs. unfold pattern_matches.
  destruct (String.eqb pattern r); [reflexivity|].
  now rewrite He, Hs.
Qed.

(** The three ways in which one pattern matches. *)
Lemma pattern_matches_true (pattern r : string) :
  pattern_matches pattern r = Ok true <->
  pattern = r \/
  (Str.endswith pattern ":*" = true /\
   Str.startswith r (Str.drop_last 2 pattern) = true) \/
  (existsb (fun c => Str.has_char c pattern) ["*"; "?"; "["]%char = true /\
   re_match ("^" ++ Str.replace "?"%char "."
                      (Str.replace "*"%char ".*" pattern) ++ "$") r = Ok true).
Proof.
  unfold pattern_matches, py_re_match.
  destruct (String.eqb_spec pattern r) as [E|E]; [tauto|].
  destruct (Str.endswith pattern ":*" &&
            Str.startswith r (Str.drop_last 2 pattern)) eqn:Ep.
  - apply andb_true_iff in Ep. tauto.
  - apply andb_false_iff in Ep.
    destruct (existsb _ _) eqn:Ew.
    + split; [tauto|].
      intros [H|[[H1 H2]|[_ H]]]; [contradiction| |exact H].
      destruct Ep; congruence.
    + split; [discriminate|].
      intros [H|[[H1 H2]|[H _]]]; [contradiction| |discriminate].
      destruct Ep; congruence.
Qed.

(** The examples of the specification: ["tool:*"] matches ["tool:crm"]
    and ["tool:email"] and, [re.match] finding no match of
    ["^tool:.*$"], not ["agent:execute"]. *)
Lemma tool_wildcard_examples :
  _resource_matches ["tool:*"] "tool:crm" = Ok true /\
  _resource_matches ["tool:*"] "tool:email" = Ok true /\
  (re_match "^tool:.*$" "agent:execute" = Ok false ->
   _resource_matches ["tool:*"] "agent:execute" = Ok false).
Proof.
  split; [reflexivity|]. split; [reflexivity|].
  intros H. simpl. unfold pattern_matches, py_re_match. simpl. now rewrite H.
Qed.

End MatcherFacts.

(** A pattern that ends in [":*"] and holds another wildcard matches as
    a glob: ["t*l:*"] matches ["tool:crm"], which does not start with
    ["t*l:"]. *)
Lemma glob_matches_without_the_prefix :
  Str.endswith "t*l:*" ":*" = true /\
  PolicyEvaluator._resource_matches (rt := Examples.quick)
    ["t*l:*"] "tool:crm" = Ok true /\
  Str.startswith "tool:crm" (Str.drop_last 1 "t*l:*") = false.
Proof. repeat split. Qed.

(** C4: at the input where the claim fails.  The pattern ["tool:*"]
    ends in [":*"], and the resource ["toolbox:admin"] does not start
    with ["tool:"], the pattern minus its trailing ["*"]; it is not the
    pattern itself, and as a glob the pattern finds no match in it.
    [_resource_matches] returns true all the same: the prefix it
    compares with is [pattern[:-2]], that is ["tool"], without the
    colon. *)
Theorem C4_tool_wildcard_matches_toolbox_admin :
  forall rt : Runtime,
    Str.endswith "tool:*" ":*" = true /\
    Str.startswith "toolbox:admin" (Str.drop_last 1 "tool:*") = false /\
    String.eqb "tool:*" "toolbox:admin" = false /\
    Fragment.fragment_re_match "^tool:.*$" "toolbox:admin" = Ok false /\
    Str.drop_last 2 "tool:*" = "tool" /\
    PolicyEvaluator._resource_matches ["tool:*"] "toolbox:admin" = Ok true.
Proof. intros rt. repeat split. Qed.

(** * Further properties of the engine *)

(** ** Resolution is ordered and read-only *)

Section ResolutionMore.
Context {rt : Runtime}.
Import PolicyEvaluator.

Lemma valid_now_world (ps : list Policy.t) : forall w : World,
  policy_table (snd (valid_now ps w)) = policy_table w /\
  audit_table (snd (valid_now ps w)) = audit_table w /\
  now_calls (snd (valid_now ps w)) = (now_calls w + List.length ps)%nat.
Proof.
  induction ps as [|q ps IH]; intros w; simpl.
  - repeat split. lia.
  - specialize (IH (snd (timezone_now w))).
    destruct (valid_now ps _) as [kept w2]. simpl in *.
    destruct IH as (Hp & Ha & Hn). repeat split; auto. lia.
Qed.

End ResolutionMore.

(** X1: the list that [_get_applicable_policies] returns is sorted by
    non-increasing priority, holds only active rows of the policy table,
    and resolving writes nothing: both tables are as before, and the
    clock has been read once per candidate policy. *)
Theorem X1_resolution_is_sorted_and_read_only :
  forall (rt : Runtime) (a : Agent.t) (w : World),
    StronglySorted Spec.before
      (fst (PolicyEvaluator._get_applicable_policies a w)) /\
    (forall p, In p (fst (PolicyEvaluator._get_applicable_policies a w)) ->
               In p (policy_table w) /\ Policy.is_active p = true) /\
    policy_table (snd (PolicyEvaluator._get_applicable_policies a w)) =
      policy_table w /\
    audit_table (snd (PolicyEvaluator._get_applicable_policies a w)) =
      audit_table w /\
    now_calls (snd (PolicyEvaluator._get_applicable_policies a w)) =
      (now_calls w + List.length (PolicyEvaluator.policies a w))%nat.
Proof.
  intros rt a w. split; [apply resolved_policies_sorted|]. split.
  - intros p Hp. split; [now apply resolved_policies_in_table in Hp|].
    now apply resolved_policies_valid in Hp.
  - unfold PolicyEvaluator._get_applicable_policies. apply valid_now_world.
Qed.

(** ** What escapes, and what a failed call leaves behind *)



(** X3: [_evaluate_operator] returns a boolean for every operator and
    every pair of operands, with two exceptions.  In the operator
    [regex] with a string operand, an exception of [re.match] that is
    neither a [ValueError] nor a [TypeError] leaves the function as it
    is ([re.error] for an invalid pattern, [OverflowError] for a
    repetition count too large, [RecursionError] for a pattern nested
    too deep), and every such exception does.  In [gt] and [lt], the
    [OverflowError] of [float] on an operand leaves it. *)
Theorem X3_operator_returns_except_regex_errors_and_float_overflow :
  forall (rt : Runtime) (operator : string) (left right : Any),
    ((exists b, PolicyEvaluator._evaluate_operator operator left right = Ok b) \/
     (exists e,
        PolicyEvaluator._evaluate_operator operator left right = Raise e /\
        operator = "regex" /\
        (exists p, right = PyStr p /\ re_match p (py_str left) = Raise e) /\
        e <> ValueError /\ e <> TypeError) \/
     (PolicyEvaluator._evaluate_operator operator left right =
        Raise OverflowError /\
      (operator = "gt" \/ operator = "lt") /\
      (py_float left = Raise OverflowError \/
       py_float right = Raise OverflowError))) /\
    (forall (p : string) (e : exn),
       re_match p (py_str left) = Raise e ->
       e <> ValueError -> e <> TypeError ->
       PolicyEvaluator._evaluate_operator "regex" left (PyStr p) = Raise e).
Proof.
  intros rt operator left right. split.
  - destruct (PolicyEvaluator._evaluate_operator operator left right)
      as [b|e] eqn:E.
    + left. now exists b.
    + right. destruct (evaluate_operator_raise operator left right e E)
        as [(Hop & Hp & Hv & Ht)|(-> & Hop & Hf)].
      * left. exists e. auto.
      * right. auto.
  - intros p e. apply regex_operator_lets_through.
Qed.

Lemma X3_operator_returns_except_regex_errors_and_float_overflow_witness :
  PolicyEvaluator._evaluate_operator (rt := Examples.quick) "regex"
    (PyStr "delete the file") (PyStr "*") = Raise ReError.
Proof.
  apply (proj2 (X3_operator_returns_except_regex_errors_and_float_overflow
                  Examples.quick "regex" (PyStr "delete the file") (PyStr "*"))
               "*" ReError); [reflexivity|discriminate|discriminate].
Defined.

(** ** How the decisions of several policies combine *)

Section CombinationFacts.
Context {rt : Runtime}.
Import PolicyEvaluator.

Lemma fold_step_passes resource context (pre : list Policy.t) :
  Forall (fun q => Spec.applies q resource context = Ok false \/
                   (Spec.applies q resource context = Ok true /\
                    Policy.effect q <> DENY)) pre ->
  forall running, exists running',
    fold_left (Spec.step resource context) pre (Ok (running, false)) =
    Ok (running', false).
Proof.
  induction 1 as [|q pre Hq _ IH]; intros running; simpl.
  - now exists running.
  - destruct Hq as [Hq|[Hq Hne]]; rewrite Hq; simpl.
    + apply IH.
    + destruct (Policy.effect q) eqn:E; try congruence; simpl; apply IH.
Qed.

Lemma fold_step_none_applies resource context (post : list Policy.t) :
  Forall (fun q => Spec.applies q resource context = Ok false) post ->
  forall state,
    fold_left (Spec.step resource context) post (Ok state) = Ok state.
Proof.
  induction 1 as [|q post Hq _ IH]; intros state; simpl; [reflexivity|].
  rewrite Hq. simpl. destruct state as [running [|]]; simpl; apply IH.
Qed.

Lemma decide_first_deny resource context (pre post : list Policy.t) (p : Policy.t) :
  Forall (fun q => Spec.applies q resource context = Ok false \/
                   (Spec.applies q resource context = Ok true /\
                    Policy.effect q <> DENY)) pre ->
  Spec.applies p resource context = Ok true ->
  Policy.effect p = DENY ->
  Spec.decide (pre ++ p :: post) resource context = Ok (Spec.own p).
Proof.
  intros Hpre Hp Hd. unfold Spec.decide.
  rewrite fold_left_app.
  destruct (fold_step_passes resource context pre Hpre Spec.initial)
    as [running' ->].
  simpl. rewrite Hp. simpl. rewrite Hd. simpl.
  now rewrite fold_step_stopped.
Qed.

Lemma decide_last_applying resource context (pre post : list Policy.t) (p : Policy.t) :
  Forall (fun q => Spec.applies q resource context = Ok false \/
                   (Spec.applies q resource context = Ok true /\
                    Policy.effect q <> DENY)) pre ->
  Spec.applies p resource context = Ok true ->
  Forall (fun q => Spec.applies q resource context = Ok false) post ->
  Spec.decide (pre ++ p :: post) resource context = Ok (Spec.own p).
Proof.
  intros Hpre Hp Hpost. unfold Spec.decide.
  rewrite fold_left_app.
  destruct (fold_step_passes resource context pre Hpre Spec.initial)
    as [running' ->].
  simpl. rewrite Hp. simpl.
  now rewrite (fold_step_none_applies resource context post Hpost).
Qed.

Lemma decide_none_applies resource context (ps : list Policy.t) :
  Forall (fun q => Spec.applies q resource context = Ok false) ps ->
  Spec.decide ps resource context = Ok Spec.initial.
Proof.
  intros H. unfold Spec.decide.
  now rewrite (fold_step_none_applies resource context ps H).
Qed.

End CombinationFacts.

(** X4: the first policy of the resolved list that applies with effect
    DENY decides the call, when every policy before it is evaluated
    without an exception; the policies after it are not looked at, so
    nothing in them, not even a malformed pattern, changes the result. *)
Theorem X4_first_applying_deny_decides :
  forall (rt : Runtime) (self : PolicyEvaluator.t) (resource action : string)
         (context : option Dict) (w : World)
         (pre post : list Policy.t) (p : Policy.t),
    PolicyEvaluator.applicable_policies self = (pre ++ p :: post)%list ->
    Forall (fun q =>
              Spec.applies q resource
                (match context with Some c => c | None => [] end) = Ok false \/
              (Spec.applies q resource
                 (match context with Some c => c | None => [] end) = Ok true /\
               Policy.effect q <> DENY)) pre ->
    Spec.applies p resource
      (match context with Some c => c | None => [] end) = Ok true ->
    Policy.effect p = DENY ->
    fst (fst (PolicyEvaluator.evaluate self resource action context w)) =
    Ok (DENY,
        Some (Policy.with_calls_made (Policy.calls_made p + 1) p),
        PolicyEvaluator.applied_reason p).
Proof.
  intros rt self resource action context w pre post p Hps Hpre Hp Hd.
  rewrite evaluate_decides, Hps.
  rewrite (decide_first_deny _ _ pre post p Hpre Hp Hd).
  unfold Spec.own. rewrite Hd. reflexivity.
Qed.

Lemma X4_first_applying_deny_decides_witness :
  fst (fst (Examples.call Examples.quick
              [Examples.audit_execute; Examples.deny_execute 0;
               Examples.allow_bad_glob]
              "agent:execute" "task" None)) =
  Ok (DENY,
      Some (Policy.with_calls_made 1 (Examples.deny_execute 0)),
      "Policy 'deny-execute' applied with effect DENY").
Proof.
  apply (X4_first_applying_deny_decides Examples.quick
           (fst (Examples.started Examples.quick
                   [Examples.audit_execute; Examples.deny_execute 0;
                    Examples.allow_bad_glob]))
           "agent:execute" "task" None
           (snd (Examples.started Examples.quick
                   [Examples.audit_execute; Examples.deny_execute 0;
                    Examples.allow_bad_glob]))
           [Examples.audit_execute] [Examples.allow_bad_glob]
           (Examples.deny_execute 0)).
  - reflexivity.
  - constructor; [|constructor]. right. split; [reflexivity|discriminate].
  - reflexivity.
  - reflexivity.
Defined.

(** X5: when no policy that applies has effect DENY, the policy that
    decides the call is the last one in the resolved list that applies,
    that is, the applying policy of lowest priority: each later match
    overwrites the earlier ones. *)
Theorem X5_last_applying_policy_decides_without_deny :
  forall (rt : Runtime) (self : PolicyEvaluator.t) (resource action : string)
         (context : option Dict) (w : World)
         (pre post : list Policy.t) (p : Policy.t),
    PolicyEvaluator.applicable_policies self = (pre ++ p :: post)%list ->
    Forall (fun q =>
              Spec.applies q resource
                (match context with Some c => c | None => [] end) = Ok false \/
              (Spec.applies q resource
                 (match context with Some c => c | None => [] end) = Ok true /\
               Policy.effect q <> DENY)) pre ->
    Spec.applies p resource
      (match context with Some c => c | None => [] end) = Ok true ->
    Forall (fun q =>
              Spec.applies q resource
                (match context with Some c => c | None => [] end) = Ok false)
           post ->
    fst (fst (PolicyEvaluator.evaluate self resource action context w)) =
    Ok (Spec.handed_back
          (Policy.effect p, Some p, PolicyEvaluator.applied_reason p)).
Proof.
  intros rt self resource action context w pre post p Hps Hpre Hp Hpost.
  rewrite evaluate_decides, Hps.
  now rewrite (decide_last_applying _ _ pre post p Hpre Hp Hpost).
Qed.

Lemma X5_last_applying_policy_decides_without_deny_witness :
  fst (fst (Examples.call Examples.quick
              [Examples.allow_execute 10; Examples.audit_execute;
               Examples.scoped_to_worker]
              "agent:execute" "task" None)) =
  Ok (AUDIT, Some Examples.audit_execute,
      "Policy 'audit-execute' applied with effect AUDIT").
Proof.
  apply (X5_last_applying_policy_decides_without_deny Examples.quick
           (fst (Examples.started Examples.quick
                   [Examples.allow_execute 10; Examples.audit_execute;
                    Examples.scoped_to_worker]))
           "agent:execute" "task" None
           (snd (Examples.started Examples.quick
                   [Examples.allow_execute 10; Examples.audit_execute;
                    Examples.scoped_to_worker]))
           [Examples.allow_execute 10; Examples.scoped_to_worker] []
           Examples.audit_execute).
  - reflexivity.
  - constructor; [|constructor; [|constructor]].
    + right. split; [reflexivity|discriminate].
    + left. reflexivity.
  - reflexivity.
  - constructor.
Defined.

(** X6: when none of the policies that the evaluator holds applies (the
    empty list included), [evaluate] returns DENY with no policy and the
    reason "No applicable policy found", writes one audit entry whose
    policy is null, and leaves the evaluator and the policy table as
    they were. *)
Theorem X6_no_applying_policy_is_the_default_deny :
  forall (rt : Runtime) (self : PolicyEvaluator.t) (resource action : string)
         (context : option Dict) (w : World),
    Forall (fun q =>
              Spec.applies q resource
                (match context with Some c => c | None => [] end) = Ok false)
           (PolicyEvaluator.applicable_policies self) ->
    exists w' entry,
      PolicyEvaluator.evaluate self resource action context w =
        (Ok (DENY, None, "No applicable policy found"), self, w') /\
      policy_table w' = policy_table w /\
      audit_table w' = (audit_table w ++ [entry])%list /\
      PolicyAuditLog.policy entry = None /\
      PolicyAuditLog.decision entry = DENY /\
      PolicyAuditLog.reason entry = "No applicable policy found".
Proof.
  intros rt self resource action context w Hnone.
  pose proof (evaluate_decides rt self resource action context w) as Hd.
  rewrite (decide_none_applies _ _ _ Hnone) in Hd. simpl in Hd.
  destruct (PolicyEvaluator.evaluate self resource action context w)
    as [[out self'] w'] eqn:E. simpl in Hd. subst out.
  destruct (evaluate_returned _ _ _ _ _ _ _ _ _ _ E)
    as (entry & Ha & _ & Hp & _ & _ & _ & Hdec & Hr & _).
  exists w', entry.
  assert (self' = self /\ policy_table w' = policy_table w) as [-> Ht].
  { revert E. unfold PolicyEvaluator.evaluate, PolicyEvaluator._log_decision,
      audit_create, timezone_now. simpl.
    destruct (PolicyEvaluator.for_policies _ _ _ _) as [[[d0 p0] r0]|e0];
      [|discriminate].
    destruct p0 as [p0|]; [destruct (PolicyEvaluator.consumes_quota d0)|];
      simpl; intros H; inversion H; subst; auto. }
  repeat split; auto.
Qed.

Lemma X6_no_applying_policy_is_the_default_deny_witness :
  exists w' entry,
    PolicyEvaluator.evaluate (rt := Examples.quick)
      (Scenario.holding [Examples.scoped_to_worker])
      "agent:execute" "task" None
      (Examples.world [Examples.scoped_to_worker]) =
      (Ok (DENY, None, "No applicable policy found"),
       Scenario.holding [Examples.scoped_to_worker], w') /\
    policy_table w' = [Examples.scoped_to_worker] /\
    audit_table w' = [entry] /\
    PolicyAuditLog.policy entry = None /\
    PolicyAuditLog.decision entry = DENY /\
    PolicyAuditLog.reason entry = "No applicable policy found".
Proof.
  apply (X6_no_applying_policy_is_the_default_deny Examples.quick
           (Scenario.holding [Examples.scoped_to_worker])
           "agent:execute" "task" None
           (Examples.world [Examples.scoped_to_worker])).
  constructor; [reflexivity|constructor].
Defined.

Section InactiveFacts.
Context {rt : Runtime}.
Import PolicyEvaluator.

Lemma no_active_no_candidate (a : Agent.t) (w : World) :
  (forall p, In p (policy_table w) -> Policy.is_active p = false) ->
  policies a w = [].
Proof.
  intros H. unfold policies.
  assert (E : filter (fun p => targeted a p || global_policies p)
                (policy_table w) = []).
  { induction (policy_table w) as [|p l IH]; simpl; [reflexivity|].
    unfold targeted, global_policies.
    rewrite (H p (or_introl eq_refl)). simpl.
    apply IH. intros q Hq. apply H. now right. }
  now rewrite E.
Qed.

End InactiveFacts.

(** X7: over a policy table in which no policy is active, the evaluator
    of every agent resolves no policy at all, and every call of its
    [evaluate] returns DENY with the reason "No applicable policy
    found". *)
Theorem X7_no_active_policy_denies_everything :
  forall (rt : Runtime) (a : Agent.t) (w : World) (resource action : string)
         (context : option Dict),
    (forall p, In p (policy_table w) -> Policy.is_active p = false) ->
    PolicyEvaluator.applicable_policies (fst (PolicyEvaluator.__init__ a w)) = [] /\
    fst (fst (PolicyEvaluator.evaluate (fst (PolicyEvaluator.__init__ a w))
                resource action context (snd (PolicyEvaluator.__init__ a w)))) =
    Ok (DENY, None, "No applicable policy found").
Proof.
  intros rt a w resource action context H.
  assert (E : PolicyEvaluator.applicable_policies
                (fst (PolicyEvaluator.__init__ a w)) = []).
  { unfold PolicyEvaluator.__init__, PolicyEvaluator._get_applicable_policies.
    now rewrite (no_active_no_candidate a w H). }
  split; [exact E|].
  rewrite evaluate_decides, E. reflexivity.
Qed.

Lemma X7_no_active_policy_denies_everything_witness :
  PolicyEvaluator.applicable_policies
    (fst (PolicyEvaluator.__init__ (rt := Examples.quick) Examples.worker
            (Examples.world [Scenario.retired]))) = [] /\
  fst (fst (PolicyEvaluator.evaluate (rt := Examples.quick)
              (fst (PolicyEvaluator.__init__ (rt := Examples.quick) Examples.worker
                      (Examples.world [Scenario.retired])))
              "agent:execute" "task" None
              (snd (PolicyEvaluator.__init__ (rt := Examples.quick) Examples.worker
                      (Examples.world [Scenario.retired]))))) =
  Ok (DENY, None, "No applicable policy found").
Proof.
  apply (X7_no_active_policy_denies_everything Examples.quick Examples.worker
           (Examples.world [Scenario.retired]) "agent:execute" "task" None).
  intros p [<-|[]]. reflexivity.
Defined.

(** ** Conditions are a conjunction, cut at the first failure *)

Section ConjunctionFacts.
Context {rt : Runtime}.
Import PolicyEvaluator.

Lemma all_conditions_true (conds : list PolicyCondition.t) (context : Dict) :
  all_conditions conds context = Ok true <->
  Forall (fun c => condition_holds c context = Ok true) conds.
Proof.
  induction conds as [|c conds IH]; simpl.
  - split; [constructor|reflexivity].
  - destruct (condition_holds c context) as [[|]|e] eqn:E; simpl.
    + rewrite IH. split; [now constructor|].
      intros H. now inversion H.
    + split; [discriminate|]. intros H. inversion H. congruence.
    + split; [discriminate|]. intros H. inversion H. congruence.
Qed.

Lemma all_conditions_cut (pre post : list PolicyCondition.t)
    (c : PolicyCondition.t) (context : Dict) :
  Forall (fun q => condition_holds q context = Ok true) pre ->
  condition_holds c context = Ok false ->
  all_conditions (pre ++ c :: post) context = Ok false.
Proof.
  induction 1 as [|q pre Hq _ IH]; intros Hc; simpl.
  - now rewrite Hc.
  - rewrite Hq. simpl. now apply IH.
Qed.

Lemma evaluate_conditions_all (p : Policy.t) (context : Dict) :
  _evaluate_conditions p context = all_conditions (Policy.conditions p) context.
Proof. unfold _evaluate_conditions. now destruct (Policy.conditions p). Qed.

End ConjunctionFacts.

(** X8: the conditions of a policy hold exactly when every single
    condition holds (a policy without conditions always passes), and the
    first condition that fails settles the answer: the conditions after
    it are not evaluated, so an invalid operand in one of them cannot
    raise. *)
Theorem X8_conditions_are_a_conjunction_cut_at_first_failure :
  forall (rt : Runtime) (p : Policy.t) (context : Dict),
    (PolicyEvaluator._evaluate_conditions p context = Ok true <->
     Forall (fun c => PolicyEvaluator.condition_holds c context = Ok true)
            (Policy.conditions p)) /\
    (forall pre c post,
       Policy.conditions p = (pre ++ c :: post)%list ->
       Forall (fun q => PolicyEvaluator.condition_holds q context = Ok true) pre ->
       PolicyEvaluator.condition_holds c context = Ok false ->
       PolicyEvaluator._evaluate_conditions p context = Ok false).
Proof.
  intros rt p context. rewrite evaluate_conditions_all. split.
  - apply all_conditions_true.
  - intros pre c post -> Hpre Hc. now apply all_conditions_cut.
Qed.

Lemma X8_conditions_are_a_conjunction_cut_at_first_failure_witness :
  PolicyEvaluator._evaluate_conditions (rt := Examples.quick) Scenario.guarded
    [("owner", PyNone); ("task_preview", PyStr "delete the file")] = Ok false /\
  PolicyEvaluator.condition_holds (rt := Examples.quick) Examples.bad_regex
    [("owner", PyNone); ("task_preview", PyStr "delete the file")] = Raise ReError.
Proof.
  split; [|reflexivity].
  apply (proj2 (X8_conditions_are_a_conjunction_cut_at_first_failure
                  Examples.quick Scenario.guarded
                  [("owner", PyNone); ("task_preview", PyStr "delete the file")])
               [] Examples.owner_is_null [Examples.bad_regex]).
  - reflexivity.
  - constructor.
  - reflexivity.
Defined.

(** ** What the decision does not depend on *)

Section IndependenceFacts.
Context {rt : Runtime}.
Import PolicyEvaluator.




End IndependenceFacts.



(** ** What a call never touches *)

Section FrameFacts.
Context {rt : Runtime}.
Import PolicyEvaluator.

Lemma store_calls_made_but_counter (pk : UUID) (n : Z) (rows : list Policy.t) :
  map Rule.but_counter (store_calls_made pk n rows) = map Rule.but_counter rows.
Proof.
  induction rows as [|q rows IH]; simpl; [reflexivity|].
  rewrite IH. destruct (N.eqb (Policy.id q) pk); reflexivity.
Qed.

End FrameFacts.

(** X10: whatever its outcome, a call of [evaluate] neither adds,
    removes nor reorders policies, and changes no attribute of a policy
    other than [calls_made], in the evaluator and in the policy table
    alike; the audit entries that were there stay as they are, in
    place, followed by at most one new entry. *)
Theorem X10_call_only_writes_counters_and_appends_to_the_audit_log :
  forall (rt : Runtime) (self : PolicyEvaluator.t) (resource action : string)
         (context : option Dict) (w : World),
    map Rule.but_counter
      (policy_table (snd (PolicyEvaluator.evaluate self resource action context w))) =
    map Rule.but_counter (policy_table w) /\
    map Rule.but_counter
      (PolicyEvaluator.applicable_policies
         (snd (fst (PolicyEvaluator.evaluate self resource action context w)))) =
    map Rule.but_counter (PolicyEvaluator.applicable_policies self) /\
    exists added,
      audit_table (snd (PolicyEvaluator.evaluate self resource action context w)) =
        (audit_table w ++ added)%list /\
      (List.length added <= 1)%nat.
Proof.
  intros rt self resource action context w.
  unfold PolicyEvaluator.evaluate, PolicyEvaluator._log_decision,
    audit_create, timezone_now. simpl.
  destruct (PolicyEvaluator.for_policies _ _ _ _) as [[[d p] r]|e]; simpl.
  - destruct p as [p|]; [destruct (PolicyEvaluator.consumes_quota d)|]; simpl;
      rewrite ?store_calls_made_but_counter;
      (split; [reflexivity|]; split; [reflexivity|]);
      eexists; (split; [reflexivity|]); simpl; lia.
  - split; [reflexivity|]. split; [reflexivity|].
    exists []. rewrite app_nil_r. split; [reflexivity|]. simpl; lia.
Qed.

(** ** Dotted paths *)

Section PathFacts.
Import PolicyEvaluator.

Lemma split_no_separator (k : string) :
  Str.has_char "." k = false -> Str.split "." k = [k].
Proof.
  induction k as [|c k IH]; simpl; [reflexivity|].
  intros H. apply orb_false_iff in H. destruct H as [Hc Hk].
  rewrite Hc, (IH Hk). reflexivity.
Qed.

Lemma split_at_first_separator (k rest : string) :
  Str.has_char "." k = false ->
  Str.split "." (k ++ String "." rest) = k :: Str.split "." rest.
Proof.
  induction k as [|c k IH]; simpl; [reflexivity|].
  intros H. apply orb_false_iff in H. destruct H as [Hc Hk].
  rewrite Hc, (IH Hk). reflexivity.
Qed.

Lemma split_not_empty (s : string) : Str.split "." s <> [].
Proof.
  destruct s as [|c s]; cbn [Str.split]; [congruence|].
  destruct (Ascii.eqb "." c); [congruence|].
  destruct (Str.split "." s); congruence.
Qed.

Lemma walk_not_dict (keys : list string) (v : Any) :
  keys <> [] -> (forall d, v <> PyDict d) -> walk keys v = PyNone.
Proof.
  destruct keys as [|key rest]; [congruence|].
  intros _ H. now apply walk_not_a_mapping.
Qed.

End PathFacts.

(** X11: a path without a dot looks up that one key of the context; a
    path [k.rest] looks up [k] and then follows [rest] inside the value
    found, which has to be a mapping, and yields null if it is not. *)
Theorem X11_dotted_path_descends_one_mapping_per_key :
  forall (data : Dict) (k rest : string),
    Str.has_char "." k = false ->
    PolicyEvaluator._get_nested_value data k = py_get data k /\
    PolicyEvaluator._get_nested_value data (k ++ String "." rest) =
    match py_get data k with
    | PyDict inner => PolicyEvaluator._get_nested_value inner rest
    | _ => PyNone
    end.
Proof.
  intros data k rest Hk. unfold PolicyEvaluator._get_nested_value. split.
  - now rewrite split_no_separator.
  - rewrite split_at_first_separator by assumption.
    cbn [PolicyEvaluator.walk].
    destruct (py_get data k); try reflexivity;
      (apply walk_not_dict; [apply split_not_empty|intros ?; discriminate]).
Qed.

Lemma X11_dotted_path_descends_one_mapping_per_key_witness :
  PolicyEvaluator._get_nested_value Plain.nested "request" =
    py_get Plain.nested "request" /\
  PolicyEvaluator._get_nested_value Plain.nested "request.method" =
    match py_get Plain.nested "request" with
    | PyDict inner => PolicyEvaluator._get_nested_value inner "method"
    | _ => PyNone
    end.
Proof.
  apply (X11_dotted_path_descends_one_mapping_per_key
           Plain.nested "request" "method").
  reflexivity.
Defined.

(** ** Patterns without wildcards *)

Section PlainFacts.
Context {rt : Runtime}.
Import PolicyEvaluator.

Lemma has_char_substring (c : ascii) (s : string) : forall i k : nat,
  Str.has_char c (substring i k s) = true -> Str.has_char c s = true.
Proof.
  induction s as [|d s IH]; intros i k.
  - destruct i, k; simpl; discriminate.
  - destruct i as [|i].
    + destruct k as [|k]; simpl; [discriminate|].
      intros H. apply orb_true_iff in H. apply orb_true_iff.
      destruct H as [H|H]; [now left|right]. now apply (IH 0%nat k).
    + simpl. intros H. apply orb_true_iff. right. now apply (IH i k).
Qed.

Lemma endswith_star (pattern : string) :
  Str.endswith pattern ":*" = true -> Str.has_char "*" pattern = true.
Proof.
  unfold Str.endswith. intros H. apply andb_true_iff in H.
  destruct H as [_ H]. apply String.eqb_eq in H.
  apply (has_char_substring "*" pattern
           (String.length pattern - String.length ":*")%nat
           (String.length ":*")).
  now rewrite H.
Qed.

Lemma pattern_matches_plain (pattern r : string) :
  Plain.wildcard_free pattern = true ->
  pattern_matches pattern r = Ok (String.eqb pattern r).
Proof.
  unfold Plain.wildcard_free. intros H. apply negb_true_iff in H.
  unfold pattern_matches. rewrite H.
  destruct (String.eqb pattern r); [reflexivity|].
  destruct (Str.endswith pattern ":*") eqn:E; [|reflexivity].
  apply endswith_star in E. simpl in H. rewrite E in H. discriminate.
Qed.

End PlainFacts.

(** X12: for a list of patterns none of which contains [*], [?] or [[],
    [_resource_matches] never raises and returns true exactly when the
    requested resource is, character for character, one of the
    patterns. *)
Theorem X12_plain_patterns_match_by_equality_only :
  forall (rt : Runtime) (policy_resources : list string) (r : string),
    forallb Plain.wildcard_free policy_resources = true ->
    PolicyEvaluator._resource_matches policy_resources r =
    Ok (existsb (fun pattern => String.eqb pattern r) policy_resources).
Proof.
  intros rt rs r. induction rs as [|p rs IH]; simpl; [reflexivity|].
  intros H. apply andb_true_iff in H. destruct H as [Hp Hrs].
  rewrite (pattern_matches_plain p r Hp). simpl.
  destruct (String.eqb p r); [reflexivity|]. now apply IH.
Qed.

Lemma X12_plain_patterns_match_by_equality_only_witness :
  PolicyEvaluator._resource_matches (rt := Examples.quick)
    ["workflow:execute"; "workflow:create"] "workflow:creat" =
  Ok (existsb (fun pattern => String.eqb pattern "workflow:creat")
        ["workflow:execute"; "workflow:create"]).
Proof.
  apply (X12_plain_patterns_match_by_equality_only Examples.quick
           ["workflow:execute"; "workflow:create"] "workflow:creat").
  reflexivity.
Defined.

(** ** A quota from the last call to exhaustion *)

Section QuotaLifecycle.
Context {rt : Runtime}.
Import PolicyEvaluator.

Lemma sole_global_policy_candidates (a : Agent.t) (w : World) (p : Policy.t) :
  policy_table w = [p] -> Policy.is_active p = true ->
  Policy.agents p = [] -> Policy.roles p = [] ->
  policies a w = [p].
Proof.
  intros Ht Hact Ha Hr. unfold policies, targeted, global_policies.
  rewrite Ht. simpl. rewrite Hact, Ha, Hr. reflexivity.
Qed.

Lemma is_valid_now_quota (p : Policy.t) (m now : Z) :
  Policy.valid_from p = None -> Policy.valid_until p = None ->
  Policy.max_calls p = Some m -> 0 < m ->
  Policy.is_valid_now p now = (Policy.calls_made p <? m).
Proof.
  intros Hf Hu Hm Hpos.
  unfold Policy.is_valid_now, Policy.set_and_after, Policy.set_and_before,
    Policy.quota_spent.
  rewrite Hf, Hu, Hm.
  destruct (Z.eqb_spec m 0); [lia|]. simpl.
  destruct (Z.leb_spec m (Policy.calls_made p));
    destruct (Z.ltb_spec (Policy.calls_made p) m); try reflexivity; lia.
Qed.

(** One call on an evaluator that holds a single policy, which applies
    with effect ALLOW. *)
Lemma evaluate_sole_allow (self : t) (p : Policy.t) resource action context w :
  applicable_policies self = [p] ->
  Spec.applies p resource
    (match context with Some c => c | None => [] end) = Ok true ->
  Policy.effect p = ALLOW ->
  exists w',
    evaluate self resource action context w =
    (Ok (ALLOW, Some (Policy.with_calls_made (Policy.calls_made p + 1) p),
         applied_reason p),
     {| agent := agent self;
        applicable_policies :=
          store_calls_made (Policy.id p) (Policy.calls_made p + 1) [p] |},
     w') /\
    policy_table w' =
      store_calls_made (Policy.id p) (Policy.calls_made p + 1) (policy_table w).
Proof.
  intros Hps Happ He. unfold Spec.applies in Happ.
  unfold evaluate, _log_decision, audit_create, timezone_now, increment_calls,
    save_calls_made.
  rewrite Hps. cbn [for_policies].
  destruct (_resource_matches (Policy.resources p) resource) as [[|]|e];
    simpl in Happ; try discriminate.
  rewrite Happ. simpl. rewrite He. simpl.
  eexists. split; reflexivity.
Qed.

End QuotaLifecycle.

(** X13: let the policy table hold one policy, active, unscoped, with no
    validity window, with effect ALLOW, a quota of [m > 0] calls of
    which [m - 1] are used, and let it apply to the request.  The
    evaluator built for any agent resolves it, the call returns ALLOW
    and raises the counter of the row to [m]; an evaluator built after
    that resolves nothing, and the same request is answered DENY with
    "No applicable policy found". *)
Theorem X13_last_call_of_a_quota_then_default_deny :
  forall (rt : Runtime) (a : Agent.t) (w : World) (p : Policy.t) (m : Z)
         (resource action : string) (context : option Dict),
    policy_table w = [p] ->
    Policy.is_active p = true ->
    Policy.agents p = [] -> Policy.roles p = [] ->
    Policy.valid_from p = None -> Policy.valid_until p = None ->
    Policy.max_calls p = Some m -> 0 < m -> Policy.calls_made p = m - 1 ->
    Policy.effect p = ALLOW ->
    Spec.applies p resource
      (match context with Some c => c | None => [] end) = Ok true ->
    exists w2,
      PolicyEvaluator.applicable_policies (fst (PolicyEvaluator.__init__ a w)) = [p] /\
      PolicyEvaluator.evaluate (fst (PolicyEvaluator.__init__ a w))
        resource action context (snd (PolicyEvaluator.__init__ a w)) =
      (Ok (ALLOW, Some (Policy.with_calls_made m p),
           PolicyEvaluator.applied_reason p),
       {| PolicyEvaluator.agent := a;
          PolicyEvaluator.applicable_policies := [Policy.with_calls_made m p] |},
       w2) /\
      policy_table w2 = [Policy.with_calls_made m p] /\
      PolicyEvaluator.applicable_policies (fst (PolicyEvaluator.__init__ a w2)) = [] /\
      fst (fst (PolicyEvaluator.evaluate (fst (PolicyEvaluator.__init__ a w2))
                  resource action context (snd (PolicyEvaluator.__init__ a w2)))) =
      Ok (DENY, None, "No applicable policy found").
Proof.
  intros rt a w p m resource action context
         Ht Hact Ha Hr Hf Hu Hm Hpos Hc He Happ.
  assert (Hinit : PolicyEvaluator.__init__ a w =
                  ({| PolicyEvaluator.agent := a;
                      PolicyEvaluator.applicable_policies := [p] |},
                   snd (timezone_now w))).
  { unfold PolicyEvaluator.__init__, PolicyEvaluator._get_applicable_policies.
    rewrite (sole_global_policy_candidates a w p Ht Hact Ha Hr). simpl.
    rewrite (is_valid_now_quota p m _ Hf Hu Hm Hpos), Hc.
    destruct (Z.ltb_spec (m - 1) m); [reflexivity|lia]. }
  rewrite Hinit. cbn [fst snd].
  destruct (evaluate_sole_allow
              {| PolicyEvaluator.agent := a;
                 PolicyEvaluator.applicable_policies := [p] |}
              p resource action context (snd (timezone_now w))
              eq_refl Happ He) as (w2 & Hcall & Htab).
  assert (Hm1 : Policy.calls_made p + 1 = m) by lia.
  rewrite Hm1 in Hcall, Htab.
  simpl in Hcall, Htab. rewrite N.eqb_refl in Hcall.
  rewrite Ht in Htab. simpl in Htab. rewrite N.eqb_refl in Htab.
  assert (Hinit2 : PolicyEvaluator.applicable_policies
                     (fst (PolicyEvaluator.__init__ a w2)) = []).
  { unfold PolicyEvaluator.__init__, PolicyEvaluator._get_applicable_policies.
    rewrite (sole_global_policy_candidates a w2 (Policy.with_calls_made m p)
               Htab Hact Ha Hr). simpl.
    rewrite (is_valid_now_quota (Policy.with_calls_made m p) m _ Hf Hu Hm Hpos).
    simpl. rewrite Z.ltb_irrefl. reflexivity. }
  exists w2. split; [reflexivity|]. split; [exact Hcall|].
  split; [exact Htab|]. split; [exact Hinit2|].
  rewrite evaluate_decides, Hinit2. reflexivity.
Qed.

Lemma X13_last_call_of_a_quota_then_default_deny_witness :
  exists w2,
    PolicyEvaluator.applicable_policies
      (fst (PolicyEvaluator.__init__ (rt := Examples.quick) Examples.worker
              (Examples.world [Plain.one_call_left]))) = [Plain.one_call_left] /\
    PolicyEvaluator.evaluate (rt := Examples.quick)
      (fst (PolicyEvaluator.__init__ (rt := Examples.quick) Examples.worker
              (Examples.world [Plain.one_call_left])))
      "agent:execute" "task" None
      (snd (PolicyEvaluator.__init__ (rt := Examples.quick) Examples.worker
              (Examples.world [Plain.one_call_left]))) =
    (Ok (ALLOW, Some (Policy.with_calls_made 3 Plain.one_call_left),
         PolicyEvaluator.applied_reason Plain.one_call_left),
     {| PolicyEvaluator.agent := Examples.worker;
        PolicyEvaluator.applicable_policies :=
          [Policy.with_calls_made 3 Plain.one_call_left] |},
     w2) /\
    policy_table w2 = [Policy.with_calls_made 3 Plain.one_call_left] /\
    PolicyEvaluator.applicable_policies
      (fst (PolicyEvaluator.__init__ (rt := Examples.quick) Examples.worker w2)) = [] /\
    fst (fst (PolicyEvaluator.evaluate (rt := Examples.quick)
                (fst (PolicyEvaluator.__init__ (rt := Examples.quick)
                        Examples.worker w2))
                "agent:execute" "task" None
                (snd (PolicyEvaluator.__init__ (rt := Examples.quick)
                        Examples.worker w2)))) =
    Ok (DENY, None, "No applicable policy found").
Proof.
  apply (X13_last_call_of_a_quota_then_default_deny Examples.quick
           Examples.worker (Examples.world [Plain.one_call_left])
           Plain.one_call_left 3 "agent:execute" "task" None);
    try reflexivity.
Defined.

(** * The callers of the engine *)

(** ** The [enforce_policy] decorator *)

Section DecoratorFacts.
Context {rt : Runtime}.
Context {R : Type}.
Import PolicyEvaluator.

Lemma init_audit_table (a : Agent.t) (w : World) :
  audit_table (snd (__init__ a w)) = audit_table w /\
  policy_table (snd (__init__ a w)) = policy_table w.
Proof.
  unfold __init__, _get_applicable_policies.
  destruct (valid_now_world (policies a w) w) as (Hp & Ha & _).
  destruct (valid_now (policies a w) w) as [ps w']. simpl in *. auto.
Qed.

Lemma enforce_policy_checked resource action view_name
    (view_func : Web.HttpRequest -> World -> R * World) request w agent :
  Web.agent_of request = Some agent ->
  Web.enforce_policy resource action view_name view_func request w =
  match evaluate (fst (__init__ agent w))
          (Web.or_else resource (Web.path request))
          (Web.or_else action (Web.lower (Web.method request)))
          (Some (Web.request_context view_name request))
          (snd (__init__ agent w)) with
  | (Raise e, _, w2) => (Web.Raised e, w2)
  | (Ok (decision, _, reason), _, w2) =>
      if effect_eqb decision DENY
      then (Web.PermissionDenied ("Policy denied: " ++ reason), w2)
      else (Web.Returned (fst (view_func request w2)),
            snd (view_func request w2))
  end.
Proof.
  intros Ha. unfold Web.enforce_policy. rewrite Ha.
  destruct (__init__ agent w) as [evaluator w1]. simpl.
  destruct (evaluate _ _ _ _ _) as [[[[[d p] r]|e] self'] w2]; simpl;
    [|reflexivity].
  destruct (effect_eqb d DENY); [reflexivity|].
  now destruct (view_func request w2).
Qed.

End DecoratorFacts.

(** X14: a request of an agent whose evaluation is denied, or raises,
    never reaches the view function, whatever the view function is.  On
    DENY the wrapper raises [PermissionDenied] with the detail "Policy
    denied: " followed by the reason, and what it leaves behind is what
    [evaluate] left: the audit table of before with one entry more,
    whose decision is DENY and whose resource and action are those of
    the decorator, or the path and the lower-cased method of the request
    where the decorator names none.  When [evaluate] raises, the
    exception leaves the wrapper, and both tables are as they were. *)
Theorem X14_denied_request_never_reaches_the_view :
  forall (rt : Runtime) (R : Type) (resource action : option string)
         (view_name : string)
         (view_func : Web.HttpRequest -> World -> R * World)
         (request : Web.HttpRequest) (w : World) (agent : Agent.t),
    Web.agent_of request = Some agent ->
    (forall (w2 : World) (self' : PolicyEvaluator.t) (p : option Policy.t)
            (reason : string),
       PolicyEvaluator.evaluate (fst (PolicyEvaluator.__init__ agent w))
         (Web.or_else resource (Web.path request))
         (Web.or_else action (Web.lower (Web.method request)))
         (Some (Web.request_context view_name request))
         (snd (PolicyEvaluator.__init__ agent w)) =
         (Ok (DENY, p, reason), self', w2) ->
       Web.enforce_policy resource action view_name view_func request w =
         (Web.PermissionDenied ("Policy denied: " ++ reason), w2) /\
       exists entry,
         audit_table w2 = (audit_table w ++ [entry])%list /\
         PolicyAuditLog.decision entry = DENY /\
         PolicyAuditLog.resource entry =
           Web.or_else resource (Web.path request) /\
         PolicyAuditLog.action entry =
           Web.or_else action (Web.lower (Web.method request)) /\
         PolicyAuditLog.request_data entry =
           Web.request_context view_name request) /\
    (forall (w2 : World) (self' : PolicyEvaluator.t) (e : exn),
       PolicyEvaluator.evaluate (fst (PolicyEvaluator.__init__ agent w))
         (Web.or_else resource (Web.path request))
         (Web.or_else action (Web.lower (Web.method request)))
         (Some (Web.request_context view_name request))
         (snd (PolicyEvaluator.__init__ agent w)) =
         (Raise e, self', w2) ->
       Web.enforce_policy resource action view_name view_func request w =
         (Web.Raised e, w2) /\
       audit_table w2 = audit_table w /\
       policy_table w2 = policy_table w).
Proof.
  intros rt R resource action view_name view_func request w agent Ha.
  split.
  - intros w2 self' p reason He. split.
    + rewrite (enforce_policy_checked _ _ _ _ _ _ agent Ha), He. reflexivity.
    + destruct (evaluate_returned _ _ _ _ _ _ _ _ _ _ He)
        as (entry & Hau & _ & _ & Hr & Hact & Hd & Hdec & _).
      exists entry. rewrite Hau.
      destruct (init_audit_table agent w) as [-> _]. auto.
  - intros w2 self' e He. split.
    + rewrite (enforce_policy_checked _ _ _ _ _ _ agent Ha), He. reflexivity.
    + destruct (evaluate_raised _ _ _ _ _ _ _ _ He) as (_ & Hau & Hpt).
      destruct (init_audit_table agent w) as [Hau0 Hpt0].
      rewrite Hau, Hpt, Hau0, Hpt0. auto.
Qed.

Lemma X14_denied_request_never_reaches_the_view_witness :
  (Web.enforce_policy (rt := Examples.quick) None None "crm_view"
     Installed.counting_view Installed.agent_request
     (Examples.world [Installed.deny_crm]) =
   (Web.PermissionDenied "Policy denied: Policy 'deny-crm' applied with effect DENY",
    snd (Examples.call Examples.quick [Installed.deny_crm]
           "/api/tools/crm/" "post"
           (Some (Web.request_context "crm_view" Installed.agent_request)))) /\
   exists entry,
     audit_table (snd (Examples.call Examples.quick [Installed.deny_crm]
                         "/api/tools/crm/" "post"
                         (Some (Web.request_context "crm_view"
                                  Installed.agent_request)))) =
       ([] ++ [entry])%list /\
     PolicyAuditLog.decision entry = DENY /\
     PolicyAuditLog.resource entry = "/api/tools/crm/" /\
     PolicyAuditLog.action entry = "post" /\
     PolicyAuditLog.request_data entry =
       Web.request_context "crm_view" Installed.agent_request) /\
  (Web.enforce_policy (rt := Examples.quick) (Some "tool:crm") (Some "read")
     "crm_view" Installed.counting_view Installed.agent_request
     (Examples.world [Examples.allow_bad_glob]) =
   (Web.Raised ReError,
    snd (Examples.call Examples.quick [Examples.allow_bad_glob]
           "tool:crm" "read"
           (Some (Web.request_context "crm_view" Installed.agent_request)))) /\
   audit_table (snd (Examples.call Examples.quick [Examples.allow_bad_glob]
                       "tool:crm" "read"
                       (Some (Web.request_context "crm_view"
                                Installed.agent_request)))) = [] /\
   policy_table (snd (Examples.call Examples.quick [Examples.allow_bad_glob]
                        "tool:crm" "read"
                        (Some (Web.request_context "crm_view"
                                 Installed.agent_request)))) =
     [Examples.allow_bad_glob]).
Proof.
  split.
  - apply (proj1 (X14_denied_request_never_reaches_the_view Examples.quick nat
             None None "crm_view" Installed.counting_view
             Installed.agent_request (Examples.world [Installed.deny_crm])
             Examples.worker eq_refl)
             _
             (snd (fst (Examples.call Examples.quick [Installed.deny_crm]
                          "/api/tools/crm/" "post"
                          (Some (Web.request_context "crm_view"
                                   Installed.agent_request)))))
             (Some (Policy.with_calls_made 1 Installed.deny_crm))
             "Policy 'deny-crm' applied with effect DENY").
    reflexivity.
  - apply (proj2 (X14_denied_request_never_reaches_the_view Examples.quick nat
             (Some "tool:crm") (Some "read") "crm_view" Installed.counting_view
             Installed.agent_request (Examples.world [Examples.allow_bad_glob])
             Examples.worker eq_refl)
             _
             (snd (fst (Examples.call Examples.quick [Examples.allow_bad_glob]
                          "tool:crm" "read"
                          (Some (Web.request_context "crm_view"
                                   Installed.agent_request)))))
             ReError).
    reflexivity.
Defined.

(** X15: a request of an agent whose decision is ALLOW, AUDIT or
    ESCALATE reaches the view function, which runs on the world that
    [evaluate] left, with the audit entry already written: ESCALATE
    lets the request through like ALLOW. *)
Theorem X15_every_decision_but_deny_runs_the_view :
  forall (rt : Runtime) (R : Type) (resource action : option string)
         (view_name : string)
         (view_func : Web.HttpRequest -> World -> R * World)
         (request : Web.HttpRequest) (w w2 : World) (agent : Agent.t)
         (self' : PolicyEvaluator.t) (decision : PolicyEffect)
         (p : option Policy.t) (reason : string),
    Web.agent_of request = Some agent ->
    PolicyEvaluator.evaluate (fst (PolicyEvaluator.__init__ agent w))
      (Web.or_else resource (Web.path request))
      (Web.or_else action (Web.lower (Web.method request)))
      (Some (Web.request_context view_name request))
      (snd (PolicyEvaluator.__init__ agent w)) =
      (Ok (decision, p, reason), self', w2) ->
    decision <> DENY ->
    Web.enforce_policy resource action view_name view_func request w =
      (Web.Returned (fst (view_func request w2)), snd (view_func request w2)) /\
    exists entry,
      audit_table w2 = (audit_table w ++ [entry])%list /\
      PolicyAuditLog.decision entry = decision.
Proof.
  intros rt R resource action view_name view_func request w w2 agent
         self' decision p reason Ha He Hd.
  split.
  - rewrite (enforce_policy_checked _ _ _ _ _ _ agent Ha), He.
    destruct decision; try reflexivity. congruence.
  - destruct (evaluate_returned _ _ _ _ _ _ _ _ _ _ He)
      as (entry & Hau & _ & _ & _ & _ & _ & Hdec & _).
    exists entry. rewrite Hau.
    destruct (init_audit_table agent w) as [-> _]. auto.
Qed.

Lemma X15_every_decision_but_deny_runs_the_view_witness :
  Web.enforce_policy (rt := Examples.quick) None None "crm_view"
    Installed.counting_view Installed.agent_request
    (Examples.world [Installed.escalate_crm]) =
  (Web.Returned 1%nat,
   snd (Examples.call Examples.quick [Installed.escalate_crm]
          "/api/tools/crm/" "post"
          (Some (Web.request_context "crm_view" Installed.agent_request)))) /\
  exists entry,
    audit_table (snd (Examples.call Examples.quick [Installed.escalate_crm]
                        "/api/tools/crm/" "post"
                        (Some (Web.request_context "crm_view"
                                 Installed.agent_request)))) =
      ([] ++ [entry])%list /\
    PolicyAuditLog.decision entry = ESCALATE.
Proof.
  apply (X15_every_decision_but_deny_runs_the_view Examples.quick nat
           None None "crm_view" Installed.counting_view
           Installed.agent_request (Examples.world [Installed.escalate_crm])
           (snd (Examples.call Examples.quick [Installed.escalate_crm]
                   "/api/tools/crm/" "post"
                   (Some (Web.request_context "crm_view"
                            Installed.agent_request))))
           Examples.worker
           (snd (fst (Examples.call Examples.quick [Installed.escalate_crm]
                        "/api/tools/crm/" "post"
                        (Some (Web.request_context "crm_view"
                                 Installed.agent_request)))))
           ESCALATE (Some Installed.escalate_crm)
           "Policy 'escalate-crm' applied with effect ESCALATE");
    try reflexivity.
  discriminate.
Defined.

(** X16: the wrapper checks policies only for a request whose [auth],
    or else whose [user], is an [Agent], and [auth] comes first.  A
    request that carries no agent goes straight to the view function:
    no evaluator is built, no audit entry is written, and a DENY policy
    on the resource does not stop it. *)
Theorem X16_request_without_agent_is_not_checked :
  forall (rt : Runtime) (R : Type) (resource action : option string)
         (view_name : string)
         (view_func : Web.HttpRequest -> World -> R * World)
         (request : Web.HttpRequest) (w : World),
    (forall a, Web.auth request <> Some (Web.IsAgent a)) ->
    (forall a, Web.user request <> Some (Web.IsAgent a)) ->
    Web.enforce_policy resource action view_name view_func request w =
    (Web.Returned (fst (view_func request w)), snd (view_func request w)).
Proof.
  intros rt R resource action view_name view_func request w Hauth Huser.
  unfold Web.enforce_policy, Web.agent_of.
  destruct (Web.auth request) as [[a|]|]; [now contradiction (Hauth a)| |];
    (destruct (Web.user request) as [[b|]|]; [now contradiction (Huser b)| |]);
    now destruct (view_func request w).
Qed.

Lemma X16_request_without_agent_is_not_checked_witness :
  Web.enforce_policy (rt := Examples.quick) None None "crm_view"
    Installed.counting_view Installed.user_request
    (Examples.world [Installed.deny_crm]) =
  (Web.Returned 0%nat, Examples.world [Installed.deny_crm]).
Proof.
  apply (X16_request_without_agent_is_not_checked Examples.quick nat
           None None "crm_view" Installed.counting_view
           Installed.user_request (Examples.world [Installed.deny_crm]));
    intros a; discriminate.
Defined.

(** ** Seeding the default policies *)

Section SeedFacts.
Context {en : Entropy}.
Import DefaultPolicies.

Lemma get_by_name_app (n : string) (l l' : list Policy.t) (p : Policy.t) :
  get_by_name n l = Some p -> get_by_name n (l ++ l')%list = Some p.
Proof.
  unfold get_by_name. induction l as [|q l IH]; simpl; [discriminate|].
  destruct (String.eqb (Policy.name q) n); auto.
Qed.

Lemma get_by_name_new (pk : UUID) (d : policy_data) (l : list Policy.t) :
  get_by_name (name d) l = None ->
  get_by_name (name d) (l ++ [new_policy pk d])%list = Some (new_policy pk d).
Proof.
  unfold get_by_name. induction l as [|q l IH]; simpl.
  - now rewrite String.eqb_refl.
  - destruct (String.eqb (Policy.name q) (name d)); [discriminate|auto].
Qed.

(** The loop only appends rows, one per name that was missing, and
    afterwards every name it went through is in the table. *)
Lemma seed_appends (todo : list policy_data) :
  forall (n : nat) (out : list string) (s : Site),
  exists created,
    policy_table (world (snd (seed todo n out s))) =
      (policy_table (world s) ++ created)%list /\
    fst (fst (seed todo n out s)) = (n + List.length created)%nat /\
    (List.length created <= List.length todo)%nat /\
    uuid_calls (snd (seed todo n out s)) =
      (uuid_calls s + List.length created)%nat /\
    audit_table (world (snd (seed todo n out s))) = audit_table (world s) /\
    agent_table (snd (seed todo n out s)) = agent_table s /\
    Forall (fun p => Policy.agents p = [] /\ Policy.roles p = []) created /\
    forall d, In d todo ->
      exists p, get_by_name (name d)
                  (policy_table (world (snd (seed todo n out s)))) = Some p.
Proof.
  induction todo as [|d todo IH]; intros n out s; simpl.
  - exists []. rewrite app_nil_r. simpl.
    split; [reflexivity|]. split; [lia|]. split; [lia|]. split; [lia|].
    split; [reflexivity|]. split; [reflexivity|]. split; [constructor|].
    intros d [].
  - unfold get_or_create.
    destruct (get_by_name (name d) (policy_table (world s))) as [p|] eqn:E.
    + destruct (IH n (List.app out [exists_line (name d)]) s)
        as (created & Ht & Hn & Hlen & Hu & Ha & Hag & Hglob & Hall).
      exists created.
      split; [exact Ht|]. split; [exact Hn|]. split; [lia|]. split; [exact Hu|].
      split; [exact Ha|]. split; [exact Hag|]. split; [exact Hglob|].
      intros d' [<-|Hd']; [|now apply Hall].
      exists p. rewrite Ht. now apply get_by_name_app.
    + set (p := new_policy (uuid4 (uuid_calls s)) d).
      set (s1 := {| world := _; agent_table := _; uuid_calls := _ |}).
      destruct (IH (S n) (List.app out [created_line (name d)]) s1)
        as (created & Ht & Hn & Hlen & Hu & Ha & Hag & Hglob & Hall).
      exists (p :: created). simpl in Ht, Hu, Ha, Hag.
      rewrite <- app_assoc in Ht. simpl in Ht. cbn [List.length].
      split; [exact Ht|]. split; [lia|]. split; [lia|]. split; [lia|].
      split; [exact Ha|]. split; [exact Hag|].
      split; [constructor; [split; reflexivity|exact Hglob]|].
      intros d' [<-|Hd']; [|now apply Hall].
      exists p. rewrite Ht.
      change (policy_table (world s) ++ p :: created)%list
        with (policy_table (world s) ++ [p] ++ created)%list.
      rewrite app_assoc. apply get_by_name_app.
      now apply get_by_name_new.
Qed.

(** When every name is in the table already, the loop creates nothing. *)
Lemma seed_nothing_to_do (todo : list policy_data) :
  forall (n : nat) (out : list string) (s : Site),
    (forall d, In d todo ->
       exists p, get_by_name (name d) (policy_table (world s)) = Some p) ->
    snd (seed todo n out s) = s /\ fst (fst (seed todo n out s)) = n.
Proof.
  induction todo as [|d todo IH]; intros n out s Hall; simpl; [auto|].
  unfold get_or_create.
  destruct (Hall d (or_introl eq_refl)) as [p ->].
  apply IH. intros d' Hd'. apply Hall. now right.
Qed.

Lemma handle_seed (env : string) (s : Site) :
  env <> "production" ->
  snd (handle env s) = snd (seed DEFAULT_POLICIES 0 [] s) /\
  fst (handle env s) =
    List.app (snd (fst (seed DEFAULT_POLICIES 0 [] s)))
             [done_line (fst (fst (seed DEFAULT_POLICIES 0 [] s)))].
Proof.
  intros Henv. unfold handle.
  destruct (String.eqb_spec env "production") as [E|_]; [contradiction|].
  now destruct (seed DEFAULT_POLICIES 0 [] s) as [[n out] s'].
Qed.

End SeedFacts.

(** X17: outside production, [handle] only appends rows to the policy
    table, at most one per default policy and each without agents or
    roles, and leaves every row that was there untouched, also a row
    that already bears a default name; afterwards all three default
    names are in the table, and a second run creates nothing, draws no
    key and reports 0 new policies.  In production [handle] changes
    nothing at all. *)
Theorem X17_seeding_appends_once_and_is_idempotent :
  forall (en : Entropy) (env : string) (s : Site),
    (env <> "production" ->
     (exists created,
        policy_table (world (snd (DefaultPolicies.handle env s))) =
          (policy_table (world s) ++ created)%list /\
        (List.length created <= 3)%nat /\
        Forall (fun p => Policy.agents p = [] /\ Policy.roles p = []) created) /\
     (forall d, In d DefaultPolicies.DEFAULT_POLICIES ->
        exists p,
          DefaultPolicies.get_by_name (DefaultPolicies.name d)
            (policy_table (world (snd (DefaultPolicies.handle env s)))) = Some p) /\
     snd (DefaultPolicies.handle env (snd (DefaultPolicies.handle env s))) =
       snd (DefaultPolicies.handle env s) /\
     last (fst (DefaultPolicies.handle env (snd (DefaultPolicies.handle env s))))
          "" = DefaultPolicies.done_line 0) /\
    DefaultPolicies.handle "production" s =
      ([DefaultPolicies.production_line], s).
Proof.
  intros en env s. split; [|reflexivity].
  intros Henv.
  destruct (handle_seed env s Henv) as [Hs _]. rewrite Hs.
  destruct (seed_appends DefaultPolicies.DEFAULT_POLICIES 0 [] s)
    as (created & Ht & _ & Hlen & _ & _ & _ & Hglob & Hall).
  split; [|split; [exact Hall|]].
  - exists created. auto.
  - destruct (handle_seed env (snd (DefaultPolicies.seed
                DefaultPolicies.DEFAULT_POLICIES 0 [] s)) Henv) as [Hs2 Ho2].
    destruct (seed_nothing_to_do DefaultPolicies.DEFAULT_POLICIES 0 []
                (snd (DefaultPolicies.seed DefaultPolicies.DEFAULT_POLICIES 0 [] s))
                Hall) as [Hsame Hcount].
    rewrite Hs2, Ho2, Hsame, Hcount. split; [reflexivity|].
    apply last_last.
Qed.

Lemma X17_seeding_appends_once_and_is_idempotent_witness :
  (exists created,
     policy_table (world (snd (DefaultPolicies.handle (en := Installed.counting)
                                 "development"
                                 (Installed.site_with [Examples.allow_execute 0])))) =
       ([Examples.allow_execute 0] ++ created)%list /\
     (List.length created <= 3)%nat /\
     Forall (fun p => Policy.agents p = [] /\ Policy.roles p = []) created) /\
  (forall d, In d DefaultPolicies.DEFAULT_POLICIES ->
     exists p,
       DefaultPolicies.get_by_name (DefaultPolicies.name d)
         (policy_table (world (snd (DefaultPolicies.handle (en := Installed.counting)
                                      "development"
                                      (Installed.site_with [Examples.allow_execute 0])))))
       = Some p) /\
  snd (DefaultPolicies.handle (en := Installed.counting) "development"
         (snd (DefaultPolicies.handle (en := Installed.counting) "development"
                 (Installed.site_with [Examples.allow_execute 0])))) =
    snd (DefaultPolicies.handle (en := Installed.counting) "development"
           (Installed.site_with [Examples.allow_execute 0])) /\
  last (fst (DefaultPolicies.handle (en := Installed.counting) "development"
               (snd (DefaultPolicies.handle (en := Installed.counting) "development"
                       (Installed.site_with [Examples.allow_execute 0])))))
       "" = DefaultPolicies.done_line 0.
Proof.
  apply (proj1 (X17_seeding_appends_once_and_is_idempotent Installed.counting
                  "development" (Installed.site_with [Examples.allow_execute 0]))).
  discriminate.
Defined.

(** ** A freshly seeded site *)

Section SeededFacts.
Context {rt : Runtime} {en : Entropy}.
Import PolicyEvaluator.

(** The answer of [_check_policy] is the decision and the reason of the
    loop over the policies resolved for the agent. *)
Lemma check_policy_outcome (a : Agent.t) (action : string)
    (context : option Dict) (w : World) :
  fst (Intelligence._check_policy a action context w) =
  fmap (fun d => (fst (fst d), snd d))
    (Spec.decide (fst (_get_applicable_policies a w)) "agent:execute"
       (match context with Some c => c | None => [] end)).
Proof.
  unfold Intelligence._check_policy.
  destruct (__init__ a w) as [self w1] eqn:Hinit.
  destruct (init_applicable_policies a w w1 self Hinit) as [Hps _].
  pose proof (evaluate_decides rt self "agent:execute" action
                (Some (match context with Some c => c | None => [] end)) w1) as Hd.
  destruct (evaluate self "agent:execute" action _ w1) as [[out self'] w2].
  simpl in Hd. rewrite Hps in Hd. simpl. rewrite Hd.
  destruct (Spec.decide _ _ _) as [[[d [p|]] r]|e]; simpl; try reflexivity.
  unfold Spec.handed_back. destruct (consumes_quota d); reflexivity.
Qed.

(** On an empty policy table [handle] creates the three default rows, in
    the order of [DEFAULT_POLICIES]. *)
Lemma seeded_table (s : Site) :
  policy_table (world s) = [] ->
  policy_table (world (snd (DefaultPolicies.handle "development" s))) =
    map (fun kd => DefaultPolicies.new_policy
                     (uuid4 (fst kd + uuid_calls s)) (snd kd))
        (combine (seq 0 3) DefaultPolicies.DEFAULT_POLICIES).
Proof.
  destruct s as [[pt au nc] ag uc]. simpl. intros ->. reflexivity.
Qed.

Lemma seeded_resolution (a : Agent.t) (s : Site) :
  policy_table (world s) = [] ->
  fst (_get_applicable_policies a
         (world (snd (DefaultPolicies.handle "development" s)))) =
    map (fun kd => DefaultPolicies.new_policy
                     (uuid4 (fst kd + uuid_calls s)) (snd kd))
        (combine (seq 0 3) DefaultPolicies.DEFAULT_POLICIES).
Proof.
  intros Hs. unfold _get_applicable_policies, policies.
  rewrite (seeded_table s Hs). reflexivity.
Qed.

End SeededFacts.

(** X18: on a site whose policy table is empty, seeding outside
    production makes [_check_policy] answer ALLOW, by the policy "Global
    Allow - Agent Execution", for every agent, action and context
    (given that [re.match] finds no match of [^tool:.*$] in
    ["agent:execute"]); where the command is run in production, the
    table stays empty and every agent is answered DENY with "No
    applicable policy found". *)
Theorem X18_seeding_decides_whether_agents_may_execute :
  forall (rt : Runtime) (en : Entropy) (a : Agent.t) (action : string)
         (context : option Dict) (s : Site),
    policy_table (world s) = [] ->
    re_match "^tool:.*$" "agent:execute" = Ok false ->
    fst (Intelligence._check_policy a action context
           (world (snd (DefaultPolicies.handle "development" s)))) =
      Ok (ALLOW,
          "Policy 'Global Allow - Agent Execution' applied with effect ALLOW") /\
    fst (Intelligence._check_policy a action context
           (world (snd (DefaultPolicies.handle "production" s)))) =
      Ok (DENY, "No applicable policy found").
Proof.
  intros rt en a action context s Hs Hre. split.
  - rewrite check_policy_outcome, (seeded_resolution a s Hs).
    cbv [DefaultPolicies.DEFAULT_POLICIES map combine seq fst snd].
    match goal with
    | |- context [Spec.decide (?p1 :: ?post) _ ?c] =>
        rewrite (decide_last_applying "agent:execute" c [] post p1)
    end.
    + reflexivity.
    + constructor.
    + reflexivity.
    + repeat constructor.
      unfold Spec.applies. simpl. unfold PolicyEvaluator.pattern_matches.
      simpl. now rewrite Hre.
  - rewrite check_policy_outcome.
    unfold PolicyEvaluator._get_applicable_policies, PolicyEvaluator.policies.
    simpl. rewrite Hs. reflexivity.
Qed.

Lemma X18_seeding_decides_whether_agents_may_execute_witness :
  fst (Intelligence._check_policy (rt := Examples.quick) Examples.worker
         "summarise" None
         (world (snd (DefaultPolicies.handle (en := Installed.counting)
                        "development" Installed.empty_site)))) =
    Ok (ALLOW,
        "Policy 'Global Allow - Agent Execution' applied with effect ALLOW") /\
  fst (Intelligence._check_policy (rt := Examples.quick) Examples.worker
         "summarise" None
         (world (snd (DefaultPolicies.handle (en := Installed.counting)
                        "production" Installed.empty_site)))) =
    Ok (DENY, "No applicable policy found").
Proof.
  apply (X18_seeding_decides_whether_agents_may_execute Examples.quick
           Installed.counting Examples.worker "summarise" None
           Installed.empty_site); reflexivity.
Defined.

(** ** The views of the policy engine *)

Section ViewFacts.
Context {rt : Runtime} {en : Entropy}.
Import PolicyEvaluator.

Lemma for_policies_single (p : Policy.t) (resource : string) (context : Dict) :
  for_policies [p] resource context Spec.initial =
  match Spec.applies p resource context with
  | Ok true => Ok (Spec.own p)
  | Ok false => Ok Spec.initial
  | Raise e => Raise e
  end.
Proof.
  unfold Spec.applies. simpl.
  destruct (_resource_matches (Policy.resources p) resource) as [[|]|e];
    simpl; try reflexivity.
  destruct (_evaluate_conditions p context) as [[|]|e]; simpl; try reflexivity.
  destruct (effect_eqb (Policy.effect p) DENY); reflexivity.
Qed.

Lemma policy_by_pk_id (pk : UUID) (rows : list Policy.t) (p : Policy.t) :
  Views.policy_by_pk pk rows = Some p -> Policy.id p = pk /\ In p rows.
Proof.
  unfold Views.policy_by_pk. intros H.
  destruct (find_some _ _ H) as [Hin Hid].
  split; [now apply N.eqb_eq|assumption].
Qed.

(** The row that [get(pk=...)] finds after the counter of the key was
    written. *)
Lemma policy_by_pk_stored (pk : UUID) (n : Z) (rows : list Policy.t) (p : Policy.t) :
  Views.policy_by_pk pk rows = Some p ->
  Views.policy_by_pk pk (store_calls_made pk n rows) =
    Some (Policy.with_calls_made n p).
Proof.
  unfold Views.policy_by_pk, store_calls_made.
  induction rows as [|q rows IH]; simpl; [discriminate|].
  destruct (N.eqb (Policy.id q) pk) eqn:E; simpl.
  - rewrite E. now intros [= ->].
  - rewrite E. exact IH.
Qed.

Lemma policy_by_pk_app (pk : UUID) (rows more : list Policy.t) (p : Policy.t) :
  Views.policy_by_pk pk rows = Some p ->
  Views.policy_by_pk pk (rows ++ more)%list = Some p.
Proof.
  unfold Views.policy_by_pk.
  induction rows as [|q rows IH]; simpl; [discriminate|].
  destruct (N.eqb (Policy.id q) pk); auto.
Qed.

(** What [PolicyViewSet.evaluate] answers and leaves behind once the
    policy and the agent are found. *)
Lemma evaluate_view_found (pk : UUID) (data : Views.evaluate_data) (s : Site)
    (policy : Policy.t) (row : AgentRow.t) :
  Views.policy_by_pk pk (policy_table (world s)) = Some policy ->
  find (fun row => N.eqb (Agent.id (AgentRow.agent row)) (Views.agent_id data))
       (agent_table s) = Some row ->
  match Spec.applies policy (Views.resource data) (Views.context data) with
  | Raise e =>
      fst (Views.evaluate pk data s) = Views.EvaluateFailed e /\
      policy_table (world (snd (Views.evaluate pk data s))) =
        policy_table (world s) /\
      audit_table (world (snd (Views.evaluate pk data s))) =
        audit_table (world s)
  | Ok applies =>
      fst (Views.evaluate pk data s) =
        Views.Evaluated (Policy.id policy) (Policy.name policy)
          (if applies then Policy.effect policy else DENY)
          (if applies then applied_reason policy
           else "No applicable policy found") /\
      policy_table (world (snd (Views.evaluate pk data s))) =
        (if applies && consumes_quota (Policy.effect policy)
         then store_calls_made (Policy.id policy) (Policy.calls_made policy + 1)
                (policy_table (world s))
         else policy_table (world s)) /\
      exists entry,
        audit_table (world (snd (Views.evaluate pk data s))) =
          (audit_table (world s) ++ [entry])%list /\
        PolicyAuditLog.agent entry = Agent.id (AgentRow.agent row) /\
        PolicyAuditLog.policy entry =
          (if applies then Some (Policy.id policy) else None) /\
        PolicyAuditLog.decision entry =
          (if applies then Policy.effect policy else DENY)
  end.
Proof.
  intros Hp Hrow. unfold Views.evaluate. rewrite Hp, Hrow.
  destruct (init_audit_table (AgentRow.agent row) (world s)) as [Hau Hpt].
  destruct (__init__ (AgentRow.agent row) (world s)) as [ev w1] eqn:Hinit.
  simpl in Hau, Hpt.
  assert (Hag : agent ev = AgentRow.agent row).
  { unfold __init__ in Hinit.
    destruct (_get_applicable_policies _ _) in Hinit.
    injection Hinit as <- _. reflexivity. }
  unfold evaluate, _log_decision, audit_create, timezone_now, increment_calls,
    save_calls_made.
  cbn [applicable_policies agent].
  change (DENY, @None Policy.t, "No applicable policy found") with Spec.initial.
  rewrite for_policies_single.
  destruct (Spec.applies policy (Views.resource data) (Views.context data))
    as [[|]|e]; cbn -[store_calls_made].
  - destruct (consumes_quota (Policy.effect policy)); cbn -[store_calls_made];
      rewrite Hpt, Hau, Hag;
      (split; [reflexivity|]; split; [reflexivity|]);
      eexists; (split; [reflexivity|]); cbn; auto.
  - rewrite Hpt, Hau, Hag.
    split; [reflexivity|]. split; [reflexivity|].
    eexists. split; [reflexivity|]. cbn; auto.
  - rewrite Hpt, Hau. auto.
Qed.

End ViewFacts.

(** X19: [PolicyViewSet.evaluate] answers with the effect of the policy
    whenever the policy's resources and conditions match the sample
    request, and with DENY "No applicable policy found" when they do
    not; whether the policy is active, inside its validity window,
    within its quota, or assigned to the sample agent does not enter.
    An exception of a matcher leaves the view. *)
Theorem X19_policy_test_looks_at_resources_and_conditions_only :
  forall (rt : Runtime) (pk : UUID) (data : Views.evaluate_data)
         (s : Site) (policy : Policy.t) (row : AgentRow.t),
    Views.policy_by_pk pk (policy_table (world s)) = Some policy ->
    find (fun row => N.eqb (Agent.id (AgentRow.agent row)) (Views.agent_id data))
         (agent_table s) = Some row ->
    fst (Views.evaluate pk data s) =
    match Spec.applies policy (Views.resource data) (Views.context data) with
    | Ok true =>
        Views.Evaluated (Policy.id policy) (Policy.name policy)
          (Policy.effect policy) (PolicyEvaluator.applied_reason policy)
    | Ok false =>
        Views.Evaluated (Policy.id policy) (Policy.name policy)
          DENY "No applicable policy found"
    | Raise e => Views.EvaluateFailed e
    end.
Proof.
  intros rt pk data s policy row Hp Hrow.
  pose proof (evaluate_view_found pk data s policy row Hp Hrow) as H.
  destruct (Spec.applies policy (Views.resource data) (Views.context data))
    as [[|]|e]; destruct H as [H _]; exact H.
Qed.

Lemma X19_policy_test_looks_at_resources_and_conditions_only_witness :
  fst (Views.evaluate (rt := Examples.quick) 32%N
         Installed.execute_sample
         (Installed.site_with [Scenario.allow_execute_spent])) =
  match Spec.applies (rt := Examples.quick) Scenario.allow_execute_spent
          (Views.resource Installed.execute_sample)
          (Views.context Installed.execute_sample) with
  | Ok true =>
      Views.Evaluated (Policy.id Scenario.allow_execute_spent)
        (Policy.name Scenario.allow_execute_spent)
        (Policy.effect Scenario.allow_execute_spent)
        (PolicyEvaluator.applied_reason Scenario.allow_execute_spent)
  | Ok false =>
      Views.Evaluated (Policy.id Scenario.allow_execute_spent)
        (Policy.name Scenario.allow_execute_spent)
        DENY "No applicable policy found"
  | Raise e => Views.EvaluateFailed e
  end.
Proof.
  apply (X19_policy_test_looks_at_resources_and_conditions_only Examples.quick
           32%N Installed.execute_sample
           (Installed.site_with [Scenario.allow_execute_spent])
           Scenario.allow_execute_spent
           {| AgentRow.agent := Examples.worker; AgentRow.owner := 7%N |});
    reflexivity.
Defined.

Section QuotaFacts.

Lemma quota_spent_is_invalid (p : Policy.t) (m now : Z) :
  Policy.max_calls p = Some m -> 0 < m -> m <= Policy.calls_made p ->
  Policy.is_valid_now p now = false.
Proof.
  intros Hm Hpos Hle. unfold Policy.is_valid_now, Policy.quota_spent.
  rewrite Hm.
  destruct (Policy.set_and_after _ _); [reflexivity|].
  destruct (Policy.set_and_before _ _); [reflexivity|].
  destruct (Z.eqb_spec m 0); [lia|].
  destruct (Z.leb_spec m (Policy.calls_made p)); [reflexivity|lia].
Qed.

End QuotaFacts.

(** X20: testing a policy is not a dry run.  When the policy applies to
    the sample request and its effect is ALLOW or DENY, the row of the
    policy has its [calls_made] raised by one, so that a policy with a
    quota of [m > 0] calls of which all but one are used is no longer
    valid afterwards; and an audit entry with the sample agent, the
    policy and its effect is appended to the log. *)
Theorem X20_policy_test_uses_quota_and_is_audited :
  forall (rt : Runtime) (pk : UUID) (data : Views.evaluate_data)
         (s : Site) (policy : Policy.t) (row : AgentRow.t),
    Views.policy_by_pk pk (policy_table (world s)) = Some policy ->
    find (fun row => N.eqb (Agent.id (AgentRow.agent row)) (Views.agent_id data))
         (agent_table s) = Some row ->
    Spec.applies policy (Views.resource data) (Views.context data) = Ok true ->
    Policy.effect policy = ALLOW \/ Policy.effect policy = DENY ->
    Views.policy_by_pk pk
      (policy_table (world (snd (Views.evaluate pk data s)))) =
      Some (Policy.with_calls_made (Policy.calls_made policy + 1) policy) /\
    (forall m now,
       Policy.max_calls policy = Some m -> 0 < m ->
       m <= Policy.calls_made policy + 1 ->
       Policy.is_valid_now
         (Policy.with_calls_made (Policy.calls_made policy + 1) policy) now = false) /\
    exists entry,
      audit_table (world (snd (Views.evaluate pk data s))) =
        (audit_table (world s) ++ [entry])%list /\
      PolicyAuditLog.agent entry = Agent.id (AgentRow.agent row) /\
      PolicyAuditLog.policy entry = Some (Policy.id policy) /\
      PolicyAuditLog.decision entry = Policy.effect policy.
Proof.
  intros rt pk data s policy row Hp Hrow Happ Heff.
  pose proof (evaluate_view_found pk data s policy row Hp Hrow) as H.
  rewrite Happ in H. destruct H as (_ & Ht & Hau).
  assert (Hq : PolicyEvaluator.consumes_quota (Policy.effect policy) = true)
    by (destruct Heff as [-> | ->]; reflexivity).
  rewrite Hq in Ht. simpl in Ht.
  destruct (policy_by_pk_id pk _ policy Hp) as [Hid _].
  split; [|split].
  - rewrite Ht, Hid. now apply policy_by_pk_stored.
  - intros m now Hm Hpos Hle.
    apply (quota_spent_is_invalid _ m now); simpl; auto.
  - exact Hau.
Qed.

Lemma X20_policy_test_uses_quota_and_is_audited_witness :
  Views.policy_by_pk 40%N
    (policy_table (world (snd (Views.evaluate (rt := Examples.quick) 40%N
                                 Installed.execute_sample
                                 (Installed.site_with [Plain.one_call_left]))))) =
    Some (Policy.with_calls_made (Policy.calls_made Plain.one_call_left + 1)
            Plain.one_call_left) /\
  (forall m now,
     Policy.max_calls Plain.one_call_left = Some m -> 0 < m ->
     m <= Policy.calls_made Plain.one_call_left + 1 ->
     Policy.is_valid_now
       (Policy.with_calls_made (Policy.calls_made Plain.one_call_left + 1)
          Plain.one_call_left) now = false) /\
  exists entry,
    audit_table (world (snd (Views.evaluate (rt := Examples.quick) 40%N
                               Installed.execute_sample
                               (Installed.site_with [Plain.one_call_left])))) =
      (audit_table (world (Installed.site_with [Plain.one_call_left])) ++ [entry])%list /\
    PolicyAuditLog.agent entry =
      Agent.id (AgentRow.agent
                  {| AgentRow.agent := Examples.worker; AgentRow.owner := 7%N |}) /\
    PolicyAuditLog.policy entry = Some (Policy.id Plain.one_call_left) /\
    PolicyAuditLog.decision entry = Policy.effect Plain.one_call_left.
Proof.
  apply (X20_policy_test_uses_quota_and_is_audited Examples.quick
           40%N Installed.execute_sample
           (Installed.site_with [Plain.one_call_left]) Plain.one_call_left
           {| AgentRow.agent := Examples.worker; AgentRow.owner := 7%N |}).
  - reflexivity.
  - reflexivity.
  - reflexivity.
  - left. reflexivity.
Defined.

(** ** Duplicating a policy *)

Section DuplicateFacts.
Context {en : Entropy}.

Lemma no_row_named (n : string) (rows : list Policy.t) :
  (forall p, In p rows -> Policy.name p <> n) ->
  existsb (fun p => String.eqb (Policy.name p) n) rows = false.
Proof.
  intros H. induction rows as [|q rows IH]; simpl; [reflexivity|].
  destruct (String.eqb_spec (Policy.name q) n) as [E|_].
  - exfalso. apply (H q); [now left|assumption].
  - apply IH. intros p Hp. apply H. now right.
Qed.

Lemma some_row_named (n : string) (rows : list Policy.t) (p : Policy.t) :
  In p rows -> Policy.name p = n ->
  existsb (fun p => String.eqb (Policy.name p) n) rows = true.
Proof.
  intros Hin Hn. apply existsb_exists. exists p.
  split; [assumption|]. now apply String.eqb_eq.
Qed.

(** The first copy of a policy whose copy name is free. *)
Lemma duplicate_created (pk : UUID) (s : Site) (original : Policy.t) :
  Views.policy_by_pk pk (policy_table (world s)) = Some original ->
  (forall p, In p (policy_table (world s)) ->
             Policy.name p <> Policy.name original ++ " (Copy)") ->
  Views.duplicate pk s =
    (Views.Created (Views.copy_of (uuid4 (uuid_calls s)) original),
     {| world :=
          {| policy_table :=
               List.app (policy_table (world s))
                 [Views.copy_of (uuid4 (uuid_calls s)) original];
             audit_table := audit_table (world s);
             now_calls := now_calls (world s) |};
        agent_table := agent_table s;
        uuid_calls := S (uuid_calls s) |}).
Proof.
  intros Hp Hfree. unfold Views.duplicate. rewrite Hp.
  cbv zeta. cbn [Views.copy_of Policy.name].
  now rewrite (no_row_named _ _ Hfree).
Qed.

(** Once the copy name is taken, [save] fails on the unique column. *)
Lemma duplicate_refused (pk : UUID) (s : Site) (original taken : Policy.t) :
  Views.policy_by_pk pk (policy_table (world s)) = Some original ->
  In taken (policy_table (world s)) ->
  Policy.name taken = Policy.name original ++ " (Copy)" ->
  fst (Views.duplicate pk s) = Views.IntegrityError /\
  world (snd (Views.duplicate pk s)) = world s.
Proof.
  intros Hp Hin Hname. unfold Views.duplicate. rewrite Hp.
  cbv zeta. cbn [Views.copy_of Policy.name].
  rewrite (some_row_named _ _ taken Hin Hname). split; reflexivity.
Qed.

End DuplicateFacts.

(** X21: [duplicate] of a policy whose copy name is free appends one row
    to the policy table and changes no other row.  The copy carries no
    agents and no roles, whatever the original was assigned to, and so,
    when the original is active, the copy is a candidate policy of every
    agent.  A second [duplicate] of the same policy fails on the unique
    name and leaves both tables as they are. *)
Theorem X21_copy_of_a_scoped_policy_is_global :
  forall (en : Entropy) (pk : UUID) (s : Site) (original : Policy.t),
    Views.policy_by_pk pk (policy_table (world s)) = Some original ->
    (forall p, In p (policy_table (world s)) ->
               Policy.name p <> Policy.name original ++ " (Copy)") ->
    exists copy,
      fst (Views.duplicate pk s) = Views.Created copy /\
      policy_table (world (snd (Views.duplicate pk s))) =
        (policy_table (world s) ++ [copy])%list /\
      Policy.agents copy = [] /\ Policy.roles copy = [] /\
      Policy.calls_made copy = 0 /\
      Policy.resources copy = Policy.resources original /\
      Policy.effect copy = Policy.effect original /\
      Policy.conditions copy = Policy.conditions original /\
      (Policy.is_active original = true ->
       forall a : Agent.t,
         In copy (PolicyEvaluator.policies a
                    (world (snd (Views.duplicate pk s))))) /\
      fst (Views.duplicate pk (snd (Views.duplicate pk s))) =
        Views.IntegrityError /\
      world (snd (Views.duplicate pk (snd (Views.duplicate pk s)))) =
        world (snd (Views.duplicate pk s)).
Proof.
  intros en pk s original Hp Hfree.
  exists (Views.copy_of (uuid4 (uuid_calls s)) original).
  pose proof (duplicate_created pk s original Hp Hfree) as Hd.
  set (s1 := {| world := _; agent_table := _; uuid_calls := _ |}) in Hd.
  rewrite Hd. cbn [fst snd].
  split; [reflexivity|]. split; [reflexivity|].
  split; [reflexivity|]. split; [reflexivity|]. split; [reflexivity|].
  split; [reflexivity|]. split; [reflexivity|]. split; [reflexivity|].
  split.
  - intros Hact a. apply In_policies. split.
    + subst s1. cbn [world policy_table]. apply in_or_app. right. now left.
    + unfold PolicyEvaluator.global_policies.
      cbn [Views.copy_of Policy.is_active Policy.agents Policy.roles].
      rewrite Hact. simpl. apply orb_true_r.
  - apply (duplicate_refused pk s1 original
             (Views.copy_of (uuid4 (uuid_calls s)) original)).
    + subst s1. cbn [world policy_table]. now apply policy_by_pk_app.
    + subst s1. cbn [world policy_table]. apply in_or_app. right. now left.
    + reflexivity.
Qed.

Lemma X21_copy_of_a_scoped_policy_is_global_witness :
  exists copy,
    fst (Views.duplicate (en := Installed.counting) 52%N
           (Installed.site_with [Installed.admin_only])) = Views.Created copy /\
    policy_table (world (snd (Views.duplicate (en := Installed.counting) 52%N
                                (Installed.site_with [Installed.admin_only])))) =
      (policy_table (world (Installed.site_with [Installed.admin_only])) ++ [copy])%list /\
    Policy.agents copy = [] /\ Policy.roles copy = [] /\
    Policy.calls_made copy = 0 /\
    Policy.resources copy = Policy.resources Installed.admin_only /\
    Policy.effect copy = Policy.effect Installed.admin_only /\
    Policy.conditions copy = Policy.conditions Installed.admin_only /\
    (Policy.is_active Installed.admin_only = true ->
     forall a : Agent.t,
       In copy (PolicyEvaluator.policies a
                  (world (snd (Views.duplicate (en := Installed.counting) 52%N
                                 (Installed.site_with [Installed.admin_only])))))) /\
    fst (Views.duplicate (en := Installed.counting) 52%N
           (snd (Views.duplicate (en := Installed.counting) 52%N
                   (Installed.site_with [Installed.admin_only])))) =
      Views.IntegrityError /\
    world (snd (Views.duplicate (en := Installed.counting) 52%N
                  (snd (Views.duplicate (en := Installed.counting) 52%N
                          (Installed.site_with [Installed.admin_only]))))) =
      world (snd (Views.duplicate (en := Installed.counting) 52%N
                    (Installed.site_with [Installed.admin_only]))).
Proof.
  apply (X21_copy_of_a_scoped_policy_is_global Installed.counting
           52%N (Installed.site_with [Installed.admin_only]) Installed.admin_only).
  - reflexivity.
  - intros p [<-|[]]. discriminate.
Defined.

(** ** The policy check view *)

Section CheckFacts.
Context {rt : Runtime}.
Import PolicyEvaluator.

Lemma find_nothing {A : Type} (f : A -> bool) (l : list A) :
  (forall x, In x l -> f x = false) -> find f l = None.
Proof.
  induction l as [|x l IH]; simpl; intros H; [reflexivity|].
  rewrite (H x (or_introl eq_refl)). apply IH. intros y Hy. apply H. now right.
Qed.

Lemma handed_back_names (d : Decision) :
  fst (fst (Spec.handed_back d)) = fst (fst d) /\
  option_map Policy.id (snd (fst (Spec.handed_back d))) =
    option_map Policy.id (snd (fst d)) /\
  option_map Policy.name (snd (fst (Spec.handed_back d))) =
    option_map Policy.name (snd (fst d)) /\
  snd (Spec.handed_back d) = snd d.
Proof.
  destruct d as [[d [p|]] r]; simpl; auto.
  destruct (consumes_quota d); simpl; auto.
Qed.

(** What [PolicyCheckView.post] answers for an agent of the user. *)
Lemma post_found (request_user : UUID) (data : Views.check_data) (s : Site)
    (row : AgentRow.t) :
  find (fun row =>
          N.eqb (Agent.id (AgentRow.agent row)) (Views.check_agent_id data) &&
          N.eqb (AgentRow.owner row) request_user)
       (agent_table s) = Some row ->
  match Spec.decide
          (fst (_get_applicable_policies (AgentRow.agent row) (world s)))
          (Views.check_resource data)
          (match Views.check_context data with Some c => c | None => [] end) with
  | Raise e =>
      fst (Views.post request_user data s) = Views.CheckFailed e /\
      audit_table (world (snd (Views.post request_user data s))) =
        audit_table (world s) /\
      policy_table (world (snd (Views.post request_user data s))) =
        policy_table (world s)
  | Ok (decision, policy, reason) =>
      (exists timestamp,
         fst (Views.post request_user data s) =
           Views.Checked (Agent.id (AgentRow.agent row))
             (Views.check_resource data) (Views.check_action data) decision
             (option_map Policy.id policy) (option_map Policy.name policy)
             reason timestamp) /\
      exists entry,
        audit_table (world (snd (Views.post request_user data s))) =
          (audit_table (world s) ++ [entry])%list /\
        PolicyAuditLog.agent entry = Agent.id (AgentRow.agent row) /\
        PolicyAuditLog.decision entry = decision /\
        PolicyAuditLog.policy entry = option_map Policy.id policy
  end.
Proof.
  intros Hrow. unfold Views.post. rewrite Hrow.
  destruct (init_audit_table (AgentRow.agent row) (world s)) as [Hau Hpt].
  destruct (__init__ (AgentRow.agent row) (world s)) as [ev w1] eqn:Hinit.
  simpl in Hau, Hpt.
  destruct (init_applicable_policies _ _ _ _ Hinit) as [Hps _].
  assert (Hag : agent ev = AgentRow.agent row).
  { unfold __init__ in Hinit.
    destruct (_get_applicable_policies _ _) in Hinit.
    injection Hinit as <- _. reflexivity. }
  set (context := match Views.check_context data with Some c => c | None => [] end).
  pose proof (evaluate_decides rt ev (Views.check_resource data)
                (Views.check_action data) (Some context) w1) as Hd.
  rewrite Hps in Hd.
  destruct (evaluate ev (Views.check_resource data) (Views.check_action data)
              (Some context) w1) as [[out ev'] w2] eqn:Hev.
  simpl in Hd.
  destruct (Spec.decide _ _ _) as [d0|e]; simpl in Hd; subst out.
  - destruct (handed_back_names d0) as (Hd1 & Hd2 & Hd3 & Hd4).
    destruct (Spec.handed_back d0) as [[d p] r] eqn:Hhb.
    destruct (evaluate_returned _ _ _ _ _ _ _ _ _ _ Hev)
      as (entry & Ha & Hea & Hep & _ & _ & _ & Hed & _).
    destruct d0 as [[d' p'] r']. simpl in Hd1, Hd2, Hd3, Hd4. subst d r.
    unfold timezone_now. cbn [fst snd with_world world].
    rewrite <- Hd2, <- Hd3. split.
    + eexists. reflexivity.
    + exists entry. rewrite Ha, Hau, Hea, Hag, Hed, Hep. auto.
  - destruct (evaluate_raised _ _ _ _ _ _ _ _ Hev) as (_ & Ha & Ht).
    cbn [fst snd with_world world]. rewrite Ha, Ht, Hau, Hpt. auto.
Qed.

End CheckFacts.

(** X22: [PolicyCheckView.post] for an agent that the requesting user
    does not own, or that does not exist, answers "Agent not found" and
    leaves the policy table and the audit log as they are: no policy is
    evaluated and no call is counted. *)
Theorem X22_check_of_a_foreign_agent_is_refused_untouched :
  forall (rt : Runtime) (request_user : UUID) (data : Views.check_data)
         (s : Site),
    (forall row, In row (agent_table s) ->
       Agent.id (AgentRow.agent row) = Views.check_agent_id data ->
       AgentRow.owner row <> request_user) ->
    Views.post request_user data s = (Views.CheckAgentNotFound, s).
Proof.
  intros rt request_user data s Hforeign. unfold Views.post.
  rewrite find_nothing; [reflexivity|].
  intros row Hin. apply andb_false_iff.
  destruct (N.eqb_spec (Agent.id (AgentRow.agent row)) (Views.check_agent_id data))
    as [E|E]; [right|left; reflexivity].
  apply N.eqb_neq. now apply Hforeign.
Qed.

Lemma X22_check_of_a_foreign_agent_is_refused_untouched_witness :
  Views.post (rt := Examples.quick) 8%N Installed.check_sample
    (Installed.site_with [Examples.allow_execute 0]) =
  (Views.CheckAgentNotFound, Installed.site_with [Examples.allow_execute 0]).
Proof.
  apply (X22_check_of_a_foreign_agent_is_refused_untouched Examples.quick 8%N
           Installed.check_sample
           (Installed.site_with [Examples.allow_execute 0])).
  intros row [<-|[]] _. discriminate.
Defined.

(** X23: for an agent of the requesting user, [PolicyCheckView.post]
    answers with the decision and the reason of the loop over the
    policies resolved for that agent, and with the key and the name of
    the deciding policy, null when no policy applied; one audit entry
    with that decision is appended.  When a matcher raises, the
    exception leaves the view and neither table changes. *)
Theorem X23_check_answers_with_the_decision_of_the_resolved_policies :
  forall (rt : Runtime) (request_user : UUID) (data : Views.check_data)
         (s : Site) (row : AgentRow.t),
    find (fun row =>
            N.eqb (Agent.id (AgentRow.agent row)) (Views.check_agent_id data) &&
            N.eqb (AgentRow.owner row) request_user)
         (agent_table s) = Some row ->
    match Spec.decide
            (fst (PolicyEvaluator._get_applicable_policies
                    (AgentRow.agent row) (world s)))
            (Views.check_resource data)
            (match Views.check_context data with Some c => c | None => [] end) with
    | Raise e =>
        fst (Views.post request_user data s) = Views.CheckFailed e /\
        audit_table (world (snd (Views.post request_user data s))) =
          audit_table (world s) /\
        policy_table (world (snd (Views.post request_user data s))) =
          policy_table (world s)
    | Ok (decision, policy, reason) =>
        (exists timestamp,
           fst (Views.post request_user data s) =
             Views.Checked (Agent.id (AgentRow.agent row))
               (Views.check_resource data) (Views.check_action data) decision
               (option_map Policy.id policy) (option_map Policy.name policy)
               reason timestamp) /\
        exists entry,
          audit_table (world (snd (Views.post request_user data s))) =
            (audit_table (world s) ++ [entry])%list /\
          PolicyAuditLog.agent entry = Agent.id (AgentRow.agent row) /\
          PolicyAuditLog.decision entry = decision /\
          PolicyAuditLog.policy entry = option_map Policy.id policy
    end.
Proof. intros rt request_user data s row. apply post_found. Qed.

Lemma X23_check_answers_with_the_decision_of_the_resolved_policies_witness :
  match Spec.decide (rt := Examples.quick)
          (fst (PolicyEvaluator._get_applicable_policies (rt := Examples.quick)
                  Examples.worker
                  (world (Installed.site_with [Examples.allow_execute 0]))))
          (Views.check_resource Installed.check_sample)
          (match Views.check_context Installed.check_sample with
           | Some c => c
           | None => []
           end) with
  | Raise e =>
      fst (Views.post (rt := Examples.quick) 7%N Installed.check_sample
             (Installed.site_with [Examples.allow_execute 0])) =
        Views.CheckFailed e /\
      audit_table (world (snd (Views.post (rt := Examples.quick) 7%N
                                 Installed.check_sample
                                 (Installed.site_with [Examples.allow_execute 0])))) =
        audit_table (world (Installed.site_with [Examples.allow_execute 0])) /\
      policy_table (world (snd (Views.post (rt := Examples.quick) 7%N
                                  Installed.check_sample
                                  (Installed.site_with [Examples.allow_execute 0])))) =
        policy_table (world (Installed.site_with [Examples.allow_execute 0]))
  | Ok (decision, policy, reason) =>
      (exists timestamp,
         fst (Views.post (rt := Examples.quick) 7%N Installed.check_sample
                (Installed.site_with [Examples.allow_execute 0])) =
           Views.Checked (Agent.id Examples.worker)
             (Views.check_resource Installed.check_sample)
             (Views.check_action Installed.check_sample) decision
             (option_map Policy.id policy) (option_map Policy.name policy)
             reason timestamp) /\
      exists entry,
        audit_table (world (snd (Views.post (rt := Examples.quick) 7%N
                                   Installed.check_sample
                                   (Installed.site_with [Examples.allow_execute 0])))) =
          (audit_table (world (Installed.site_with [Examples.allow_execute 0]))
           ++ [entry])%list /\
        PolicyAuditLog.agent entry = Agent.id Examples.worker /\
        PolicyAuditLog.decision entry = decision /\
        PolicyAuditLog.policy entry = option_map Policy.id policy
  end.
Proof.
  apply (X23_check_answers_with_the_decision_of_the_resolved_policies
           Examples.quick 7%N Installed.check_sample
           (Installed.site_with [Examples.allow_execute 0])
           {| AgentRow.agent := Examples.worker; AgentRow.owner := 7%N |}).
  reflexivity.
Defined.
